(** * Warm call transfer: the orchestration core and its polling clients

    A shallow embedding of the two React pages of the repository
    ([frontend/src/app/page.tsx] and the warm-transfer page) and of the
    orchestration registries described by the design document, followed by
    the properties established about them. *)

From Stdlib Require Import List String Ascii ZArith NArith Bool Arith Lia.
From Stdlib Require Import DecimalString DecimalN.
Import ListNotations.

Local Open Scope string_scope.
Local Open Scope list_scope.
Local Infix "^^" := String.append (at level 60, right associativity).

(** ** JavaScript helpers shared by both pages *)

Module JS.

(** [Array.prototype.slice(start)] with one argument: a negative [start]
    counts from the end, and both ends are clamped to the array. *)
Definition slice {A : Type} (start : Z) (l : list A) : list A :=
  let len := Z.of_nat (List.length l) in
  let k := if (start <? 0)%Z then Z.max (len + start) 0 else Z.min start len in
  skipn (Z.to_nat k) l.

(** [Array.prototype.includes] on an array of strings. *)
Definition includes (x : string) (l : list string) : bool :=
  existsb (String.eqb x) l.

(** *** Strings

    A string of the pages is kept as the Rocq string of its UTF-8 bytes;
    a surrogate that stands alone, which UTF-8 has no place for, is kept
    as the three bytes of its number. Comparing and concatenating strings
    is then comparing and concatenating bytes. What JavaScript does on the
    UTF-16 code units of a string ([trim], [substring]) is defined through
    the code points that the bytes encode. *)

Definition byte (c : ascii) : N := N_of_ascii c.

Definition continuation (c : ascii) : bool :=
  (128 <=? byte c)%N && (byte c <? 192)%N.

(** The code point that one, two, three or four bytes encode, when they
    are the encoding of one in its shortest form. *)
Definition code_point1 (a : ascii) : option N :=
  if (byte a <? 128)%N then Some (byte a) else None.

Definition code_point2 (a b : ascii) : option N :=
  let cp := ((byte a - 192) * 64 + (byte b - 128))%N in
  if (192 <=? byte a)%N && (byte a <? 224)%N && continuation b
     && (128 <=? cp)%N
  then Some cp else None.

Definition code_point3 (a b c : ascii) : option N :=
  let cp := ((byte a - 224) * 4096 + (byte b - 128) * 64 + (byte c - 128))%N in
  if (224 <=? byte a)%N && (byte a <? 240)%N && continuation b && continuation c
     && (2048 <=? cp)%N
  then Some cp else None.

Definition code_point4 (a b c d : ascii) : option N :=
  let cp := ((byte a - 240) * 262144 + (byte b - 128) * 4096
             + (byte c - 128) * 64 + (byte d - 128))%N in
  if (240 <=? byte a)%N && (byte a <? 248)%N
     && continuation b && continuation c && continuation d
     && (65536 <=? cp)%N && (cp <? 1114112)%N
  then Some cp else None.

(** The bytes of a code point. *)
Definition utf8 (cp : N) : string :=
  if (cp <? 128)%N then String (ascii_of_N cp) EmptyString
  else if (cp <? 2048)%N then
    String (ascii_of_N (192 + cp / 64))
      (String (ascii_of_N (128 + cp mod 64)) EmptyString)
  else if (cp <? 65536)%N then
    String (ascii_of_N (224 + cp / 4096))
      (String (ascii_of_N (128 + (cp / 64) mod 64))
         (String (ascii_of_N (128 + cp mod 64)) EmptyString))
  else
    String (ascii_of_N (240 + cp / 262144))
      (String (ascii_of_N (128 + (cp / 4096) mod 64))
         (String (ascii_of_N (128 + (cp / 64) mod 64))
            (String (ascii_of_N (128 + cp mod 64)) EmptyString))).

(** The UTF-16 code units of a string, the elements JavaScript counts and
    indexes: one unit for a code point below 65536, a pair of surrogates
    above; a byte that starts no encoding gives the replacement
    character. *)
Definition replacement : N := 65533.

Definition surrogates (cp : N) : list N :=
  [ (55296 + (cp - 65536) / 1024)%N; (56320 + (cp - 65536) mod 1024)%N ].

Fixpoint units (s : string) : list N :=
  match s with
  | EmptyString => []
  | String a s1 =>
      match code_point1 a with
      | Some cp => cp :: units s1
      | None =>
          match s1 with
          | EmptyString => [replacement]
          | String b s2 =>
              match code_point2 a b with
              | Some cp => cp :: units s2
              | None =>
                  match s2 with
                  | EmptyString => replacement :: units s1
                  | String c s3 =>
                      match code_point3 a b c with
                      | Some cp => cp :: units s3
                      | None =>
                          match s3 with
                          | EmptyString => replacement :: units s1
                          | String d s4 =>
                              match code_point4 a b c d with
                              | Some cp => surrogates cp ++ units s4
                              | None => replacement :: units s1
                              end
                          end
                      end
                  end
              end
          end
      end
  end.

(** The code points [String.prototype.trim] removes: WhiteSpace (tab,
    vertical tab, form feed, U+FEFF and the space separators U+0020,
    U+00A0, U+1680, U+2000 to U+200A, U+202F, U+205F, U+3000) and
    LineTerminator (line feed, carriage return, U+2028, U+2029). *)
Definition white_space : list N :=
  [ 9; 10; 11; 12; 13; 32; 160; 5760;
    8192; 8193; 8194; 8195; 8196; 8197; 8198; 8199; 8200; 8201; 8202;
    8232; 8233; 8239; 8287; 12288; 65279 ]%N.

Definition is_white_space (cp : N) : bool := existsb (N.eqb cp) white_space.

Definition is_white (found : option N) : bool :=
  match found with
  | Some cp => is_white_space cp
  | None => false
  end.

(** The string without the white space it starts with. No code point
    above 65535 is white space, so that sequences of four bytes are never
    removed. *)
Fixpoint trimStart (s : string) : string :=
  match s with
  | EmptyString => EmptyString
  | String a s1 =>
      if is_white (code_point1 a) then trimStart s1
      else
        match s1 with
        | EmptyString => s
        | String b s2 =>
            if is_white (code_point2 a b) then trimStart s2
            else
              match s2 with
              | EmptyString => s
              | String c s3 =>
                  if is_white (code_point3 a b c) then trimStart s3 else s
              end
        end
  end.

(** The string without the white space it ends with: its bytes up to the
    place from which only white space follows. *)
Fixpoint trimEnd (s : string) : string :=
  match s with
  | EmptyString => EmptyString
  | String c s' =>
      match trimStart s with
      | EmptyString => EmptyString
      | _ => String c (trimEnd s')
      end
  end.

Definition trim (s : string) : string := trimEnd (trimStart s).

(** [s.substring(0, n)], as code units. *)
Definition substring_to (n : nat) (s : string) : list N := firstn n (units s).

(** Truthiness of a string: every string but the empty one. *)
Definition truthy (s : string) : bool := negb (String.eqb s EmptyString).

End JS.

(** ** The room page, [frontend/src/app/page.tsx] *)

Module Home.

(** The [participants] state is a list of identities; [identity] is the
    local identity captured by the handlers that [joinRoom] registers. *)
Definition onParticipantConnected (identity participant : string)
    (prev : list string) : list string :=
  if negb (String.eqb participant identity) && negb (JS.includes participant prev)
  then prev ++ [participant]
  else prev.

Definition onParticipantDisconnected (participant : string)
    (prev : list string) : list string :=
  filter (fun id => negb (String.eqb id participant)) prev.

(** The callback of [setTimeout(..., 1000)]: [roomParticipants] is
    [newRoom.participants] mapped to identities, [None] when the room has
    no participant map. The state is replaced, not merged. *)
Definition onSnapshotTimeout (identity : string)
    (roomParticipants : option (list string)) (prev : list string) : list string :=
  match roomParticipants with
  | Some ids => filter (fun p => negb (String.eqb p identity)) ids
  | None => prev
  end.

Inductive RoomEvent : Type :=
| participantConnected (participant : string)
| participantDisconnected (participant : string)
| snapshotTimeout (roomParticipants : option (list string)).

Definition handle (identity : string) (prev : list string) (ev : RoomEvent)
    : list string :=
  match ev with
  | participantConnected p => onParticipantConnected identity p prev
  | participantDisconnected p => onParticipantDisconnected p prev
  | snapshotTimeout ids => onSnapshotTimeout identity ids prev
  end.

(** The state after a sequence of events, starting from [prev]. *)
Definition run (identity : string) (evs : list RoomEvent) (prev : list string)
    : list string :=
  fold_left (handle identity) evs prev.




End Home.

(** ** The warm-transfer page *)

Module WarmTransferPage.

Inductive UserRole : Type := caller | agent_a | agent_b.

Definition UserRole_eqb (a b : UserRole) : bool :=
  match a, b with
  | caller, caller | agent_a, agent_a | agent_b, agent_b => true
  | _, _ => false
  end.

(** [`${userRole}`] in a template string. *)
Definition UserRole_text (r : UserRole) : string :=
  match r with
  | caller => "caller"
  | agent_a => "agent_a"
  | agent_b => "agent_b"
  end.

Inductive TransferStep : Type := idle | briefing | completing | completed.

Record CallSession : Type := {
  call_id : string;
  room_name : string;
  caller_token : string;
  agent_a_token : string;
  livekit_url : string;
  status : string
}.

(** The [TransferSession] interface; the fields it shares with
    [CallSession] carry the prefix [transfer_]. *)
Record TransferSession : Type := {
  transfer_id : string;
  agentA_transfer_token : string;
  agentB_token : string;
  transfer_caller_token : string;
  transfer_room : string;
  transfer_livekit_url : string;
  summary : string;
  agent_script : string;
  transfer_status : string
}.

(** The fields read from the body of [GET /calls/latest]. *)
Record LatestCall : Type := {
  latest_call_id : string;
  latest_caller_name : string;
  latest_room_name : string
}.

(** The body of [GET /caller/{name}/transfer-status]; [status_json] is its
    [JSON.stringify] rendering, used only in a log line. *)
Record CallerTransferStatus : Type := {
  transfer_complete : bool;
  final_room : string;
  status_caller_token : string;
  status_json : string
}.

(** A remote participant, as far as the page reads it. *)
Record Participant : Type := { identity : string }.

(** A LiveKit [Room] object, known by the name of the room it joins. *)
Record Room : Type := { name : string }.

Inductive LocalAudioTrack : Type := microphone.

(** The [useState] cells of the component the modelled functions touch,
    and the [roomRef] cell of [useRef]. *)
Record State : Type := mkState {
  userRole : UserRole;
  userName : string;
  latestCall : option LatestCall;
  room : option Room;
  roomRef : option Room;
  isConnected : bool;
  isConnecting : bool;
  participants : list Participant;
  currentCallSession : option CallSession;
  currentTransfer : option TransferSession;
  localAudioTrack : option LocalAudioTrack;
  transcript : string;
  isTransferring : bool;
  transferStep : TransferStep;
  callSummary : string;
  agentScript : string;
  showTransferModal : bool;
  error : string;
  logs : list string
}.

Definition setUserName (v : string) (st : State) : State :=
  {| userRole := userRole st; userName := v; latestCall := latestCall st;
     room := room st; roomRef := roomRef st; isConnected := isConnected st;
     isConnecting := isConnecting st; participants := participants st;
     currentCallSession := currentCallSession st;
     currentTransfer := currentTransfer st;
     localAudioTrack := localAudioTrack st; transcript := transcript st;
     isTransferring := isTransferring st; transferStep := transferStep st;
     callSummary := callSummary st; agentScript := agentScript st;
     showTransferModal := showTransferModal st; error := error st;
     logs := logs st |}.

Definition setUserRole (v : UserRole) (st : State) : State :=
  {| userRole := v; userName := userName st; latestCall := latestCall st;
     room := room st; roomRef := roomRef st; isConnected := isConnected st;
     isConnecting := isConnecting st; participants := participants st;
     currentCallSession := currentCallSession st;
     currentTransfer := currentTransfer st;
     localAudioTrack := localAudioTrack st; transcript := transcript st;
     isTransferring := isTransferring st; transferStep := transferStep st;
     callSummary := callSummary st; agentScript := agentScript st;
     showTransferModal := showTransferModal st; error := error st;
     logs := logs st |}.

Definition setLatestCall (v : option LatestCall) (st : State) : State :=
  {| userRole := userRole st; userName := userName st; latestCall := v;
     room := room st; roomRef := roomRef st; isConnected := isConnected st;
     isConnecting := isConnecting st; participants := participants st;
     currentCallSession := currentCallSession st;
     currentTransfer := currentTransfer st;
     localAudioTrack := localAudioTrack st; transcript := transcript st;
     isTransferring := isTransferring st; transferStep := transferStep st;
     callSummary := callSummary st; agentScript := agentScript st;
     showTransferModal := showTransferModal st; error := error st;
     logs := logs st |}.

Definition setRoom (v : option Room) (st : State) : State :=
  {| userRole := userRole st; userName := userName st;
     latestCall := latestCall st; room := v; roomRef := roomRef st;
     isConnected := isConnected st; isConnecting := isConnecting st;
     participants := participants st;
     currentCallSession := currentCallSession st;
     currentTransfer := currentTransfer st;
     localAudioTrack := localAudioTrack st; transcript := transcript st;
     isTransferring := isTransferring st; transferStep := transferStep st;
     callSummary := callSummary st; agentScript := agentScript st;
     showTransferModal := showTransferModal st; error := error st;
     logs := logs st |}.

Definition setRoomRef (v : option Room) (st : State) : State :=
  {| userRole := userRole st; userName := userName st;
     latestCall := latestCall st; room := room st; roomRef := v;
     isConnected := isConnected st; isConnecting := isConnecting st;
     participants := participants st;
     currentCallSession := currentCallSession st;
     currentTransfer := currentTransfer st;
     localAudioTrack := localAudioTrack st; transcript := transcript st;
     isTransferring := isTransferring st; transferStep := transferStep st;
     callSummary := callSummary st; agentScript := agentScript st;
     showTransferModal := showTransferModal st; error := error st;
     logs := logs st |}.

Definition setIsConnected (v : bool) (st : State) : State :=
  {| userRole := userRole st; userName := userName st;
     latestCall := latestCall st; room := room st; roomRef := roomRef st;
     isConnected := v; isConnecting := isConnecting st;
     participants := participants st;
     currentCallSession := currentCallSession st;
     currentTransfer := currentTransfer st;
     localAudioTrack := localAudioTrack st; transcript := transcript st;
     isTransferring := isTransferring st; transferStep := transferStep st;
     callSummary := callSummary st; agentScript := agentScript st;
     showTransferModal := showTransferModal st; error := error st;
     logs := logs st |}.

Definition setIsConnecting (v : bool) (st : State) : State :=
  {| userRole := userRole st; userName := userName st;
     latestCall := latestCall st; room := room st; roomRef := roomRef st;
     isConnected := isConnected st; isConnecting := v;
     participants := participants st;
     currentCallSession := currentCallSession st;
     currentTransfer := currentTransfer st;
     localAudioTrack := localAudioTrack st; transcript := transcript st;
     isTransferring := isTransferring st; transferStep := transferStep st;
     callSummary := callSummary st; agentScript := agentScript st;
     showTransferModal := showTransferModal st; error := error st;
     logs := logs st |}.

Definition setParticipants (v : list Participant) (st : State) : State :=
  {| userRole := userRole st; userName := userName st;
     latestCall := latestCall st; room := room st; roomRef := roomRef st;
     isConnected := isConnected st; isConnecting := isConnecting st;
     participants := v; currentCallSession := currentCallSession st;
     currentTransfer := currentTransfer st;
     localAudioTrack := localAudioTrack st; transcript := transcript st;
     isTransferring := isTransferring st; transferStep := transferStep st;
     callSummary := callSummary st; agentScript := agentScript st;
     showTransferModal := showTransferModal st; error := error st;
     logs := logs st |}.

Definition setCurrentCallSession (v : option CallSession) (st : State) : State :=
  {| userRole := userRole st; userName := userName st;
     latestCall := latestCall st; room := room st; roomRef := roomRef st;
     isConnected := isConnected st; isConnecting := isConnecting st;
     participants := participants st; currentCallSession := v;
     currentTransfer := currentTransfer st;
     localAudioTrack := localAudioTrack st; transcript := transcript st;
     isTransferring := isTransferring st; transferStep := transferStep st;
     callSummary := callSummary st; agentScript := agentScript st;
     showTransferModal := showTransferModal st; error := error st;
     logs := logs st |}.

Definition setCurrentTransfer (v : option TransferSession) (st : State) : State :=
  {| userRole := userRole st; userName := userName st;
     latestCall := latestCall st; room := room st; roomRef := roomRef st;
     isConnected := isConnected st; isConnecting := isConnecting st;
     participants := participants st;
     currentCallSession := currentCallSession st; currentTransfer := v;
     localAudioTrack := localAudioTrack st; transcript := transcript st;
     isTransferring := isTransferring st; transferStep := transferStep st;
     callSummary := callSummary st; agentScript := agentScript st;
     showTransferModal := showTransferModal st; error := error st;
     logs := logs st |}.

Definition setTranscript (v : string) (st : State) : State :=
  {| userRole := userRole st; userName := userName st;
     latestCall := latestCall st; room := room st; roomRef := roomRef st;
     isConnected := isConnected st; isConnecting := isConnecting st;
     participants := participants st;
     currentCallSession := currentCallSession st;
     currentTransfer := currentTransfer st;
     localAudioTrack := localAudioTrack st; transcript := v;
     isTransferring := isTransferring st; transferStep := transferStep st;
     callSummary := callSummary st; agentScript := agentScript st;
     showTransferModal := showTransferModal st; error := error st;
     logs := logs st |}.

Definition setIsTransferring (v : bool) (st : State) : State :=
  {| userRole := userRole st; userName := userName st;
     latestCall := latestCall st; room := room st; roomRef := roomRef st;
     isConnected := isConnected st; isConnecting := isConnecting st;
     participants := participants st;
     currentCallSession := currentCallSession st;
     currentTransfer := currentTransfer st;
     localAudioTrack := localAudioTrack st; transcript := transcript st;
     isTransferring := v; transferStep := transferStep st;
     callSummary := callSummary st; agentScript := agentScript st;
     showTransferModal := showTransferModal st; error := error st;
     logs := logs st |}.

Definition setTransferStep (v : TransferStep) (st : State) : State :=
  {| userRole := userRole st; userName := userName st;
     latestCall := latestCall st; room := room st; roomRef := roomRef st;
     isConnected := isConnected st; isConnecting := isConnecting st;
     participants := participants st;
     currentCallSession := currentCallSession st;
     currentTransfer := currentTransfer st;
     localAudioTrack := localAudioTrack st; transcript := transcript st;
     isTransferring := isTransferring st; transferStep := v;
     callSummary := callSummary st; agentScript := agentScript st;
     showTransferModal := showTransferModal st; error := error st;
     logs := logs st |}.

Definition setCallSummary (v : string) (st : State) : State :=
  {| userRole := userRole st; userName := userName st;
     latestCall := latestCall st; room := room st; roomRef := roomRef st;
     isConnected := isConnected st; isConnecting := isConnecting st;
     participants := participants st;
     currentCallSession := currentCallSession st;
     currentTransfer := currentTransfer st;
     localAudioTrack := localAudioTrack st; transcript := transcript st;
     isTransferring := isTransferring st; transferStep := transferStep st;
     callSummary := v; agentScript := agentScript st;
     showTransferModal := showTransferModal st; error := error st;
     logs := logs st |}.

Definition setAgentScript (v : string) (st : State) : State :=
  {| userRole := userRole st; userName := userName st;
     latestCall := latestCall st; room := room st; roomRef := roomRef st;
     isConnected := isConnected st; isConnecting := isConnecting st;
     participants := participants st;
     currentCallSession := currentCallSession st;
     currentTransfer := currentTransfer st;
     localAudioTrack := localAudioTrack st; transcript := transcript st;
     isTransferring := isTransferring st; transferStep := transferStep st;
     callSummary := callSummary st; agentScript := v;
     showTransferModal := showTransferModal st; error := error st;
     logs := logs st |}.

Definition setShowTransferModal (v : bool) (st : State) : State :=
  {| userRole := userRole st; userName := userName st;
     latestCall := latestCall st; room := room st; roomRef := roomRef st;
     isConnected := isConnected st; isConnecting := isConnecting st;
     participants := participants st;
     currentCallSession := currentCallSession st;
     currentTransfer := currentTransfer st;
     localAudioTrack := localAudioTrack st; transcript := transcript st;
     isTransferring := isTransferring st; transferStep := transferStep st;
     callSummary := callSummary st; agentScript := agentScript st;
     showTransferModal := v; error := error st; logs := logs st |}.

Definition setError (v : string) (st : State) : State :=
  {| userRole := userRole st; userName := userName st;
     latestCall := latestCall st; room := room st; roomRef := roomRef st;
     isConnected := isConnected st; isConnecting := isConnecting st;
     participants := participants st;
     currentCallSession := currentCallSession st;
     currentTransfer := currentTransfer st;
     localAudioTrack := localAudioTrack st; transcript := transcript st;
     isTransferring := isTransferring st; transferStep := transferStep st;
     callSummary := callSummary st; agentScript := agentScript st;
     showTransferModal := showTransferModal st; error := v;
     logs := logs st |}.

Definition setLogs (v : list string) (st : State) : State :=
  {| userRole := userRole st; userName := userName st;
     latestCall := latestCall st; room := room st; roomRef := roomRef st;
     isConnected := isConnected st; isConnecting := isConnecting st;
     participants := participants st;
     currentCallSession := currentCallSession st;
     currentTransfer := currentTransfer st;
     localAudioTrack := localAudioTrack st; transcript := transcript st;
     isTransferring := isTransferring st; transferStep := transferStep st;
     callSummary := callSummary st; agentScript := agentScript st;
     showTransferModal := showTransferModal st; error := error st;
     logs := v |}.
(** The first render: the initial value of each [useState] cell. *)
Definition initialState : State :=
  {| userRole := caller; userName := EmptyString; latestCall := None; room := None;
     roomRef := None; isConnected := false; isConnecting := false;
     participants := []; currentCallSession := None; currentTransfer := None;
     localAudioTrack := None; transcript := EmptyString; isTransferring := false;
     transferStep := idle; callSummary := EmptyString; agentScript := EmptyString;
     showTransferModal := false; error := EmptyString; logs := [] |}.

(** *** Activity log *)

(** [timestamp] is [new Date().toLocaleTimeString()]; the update is the
    functional one, [prev => [...prev.slice(-9), entry]]. The pictographs
    that open some log messages in the source are left out of the
    messages below. *)
Definition addLog (timestamp message : string) (st : State) : State :=
  setLogs (JS.slice (-9) (logs st) ++ ["[" ^^ timestamp ^^ "] " ^^ message]) st.

(** The line [addLog] appends. *)
Definition entry (timestamp message : string) : string :=
  "[" ^^ timestamp ^^ "] " ^^ message.

(** Adding several messages, one [addLog] each, each with its timestamp. *)
Definition addLogs (messages : list (string * string)) (st : State) : State :=
  fold_left (fun s m => addLog (fst m) (snd m) s) messages st.

(** *** Room events registered by [setupRoomEvents] *)

Definition onConnected (ts : string) (r : Room)
    (remoteParticipants : list Participant) (st : State) : State :=
  setParticipants remoteParticipants
    (setIsConnecting false
       (setIsConnected true (addLog ts ("Connected to room: " ^^ name r) st))).

Definition onDisconnected (ts : string) (st : State) : State :=
  setParticipants [] (setIsConnected false (addLog ts "Disconnected from room" st)).

Definition onParticipantConnected (ts : string) (p : Participant) (st : State)
    : State :=
  let st1 := addLog ts ("Participant connected: " ^^ identity p) st in
  setParticipants (participants st1 ++ [p]) st1.

Definition onParticipantDisconnected (ts : string) (p : Participant) (st : State)
    : State :=
  let st1 := addLog ts ("Participant disconnected: " ^^ identity p) st in
  setParticipants
    (filter (fun q => negb (String.eqb (identity q) (identity p))) (participants st1))
    st1.

(** *** What the outside world answers *)

(** The outcome of a [fetch]: the promise rejects (with the message of the
    error), the response is not [ok] (with its status code), or it is [ok]
    and [json()] gives [data]. *)
Inductive Response (A : Type) : Type :=
| network_error (message : string)
| http_error (code : nat)
| http_ok (data : A).
Arguments network_error {A} message.
Arguments http_error {A} code.
Arguments http_ok {A} data.

(** What [room.disconnect()] does: it rejects, or it resolves, having
    emitted [RoomEvent.Disconnected] or not. *)
Inductive DisconnectOutcome : Type :=
| disconnect_throws
| disconnect_done (emitsDisconnected : bool).

(** What LiveKit does during one attempt to join a room: whether
    [connect] and [publishTrack] resolve, the message of the error thrown
    when one does not, the participants already in the room, and what
    disconnecting from the previous room does. *)
Record LiveKit : Type := {
  connect_ok : bool;
  error_message : string;
  remoteParticipants : list Participant;
  publish_ok : bool;
  disconnect_outcome : DisconnectOutcome
}.

(** The HTTP requests the page sends to the orchestration API. *)
Inductive Request : Type :=
| GET_calls_latest
| GET_caller_transfer_status (userName : string)
| POST_call_start (caller_name : string).

(** *** Agent A: the latest call *)

(** [fetchLatestCall] after its [fetch] settles: a 404 and every other
    failure both end in [setLatestCall(null)]. *)
Definition fetchLatestCall_settled (ts : string) (r : Response LatestCall)
    (st : State) : State :=
  match r with
  | http_ok data =>
      addLog ts ("Found latest call: " ^^ latest_caller_name data
                 ^^ " in room " ^^ latest_room_name data)
        (setLatestCall (Some data) st)
  | http_error _ => setLatestCall None st
  | network_error _ => setLatestCall None st
  end.

(** *** Leaving a call *)

(** [disconnectCall]; [None] when [await room.disconnect()] rejects, so
    that the function does not complete. The handler of
    [RoomEvent.Disconnected] runs inside the [await] when the room emits
    the event. *)
Definition disconnectCall (ts : string) (o : DisconnectOutcome) (st : State)
    : option State :=
  let reset (s : State) : State :=
    addLog ts "Disconnected from call"
      (setAgentScript EmptyString
         (setCallSummary EmptyString
            (setTranscript EmptyString
               (setShowTransferModal false
                  (setIsTransferring false
                     (setTransferStep idle
                        (setCurrentTransfer None
                           (setCurrentCallSession None
                              (setParticipants [] (setIsConnected false s)))))))))) in
  match room st with
  | Some _ =>
      match o with
      | disconnect_throws => None
      | disconnect_done emits =>
          let st1 := if emits then onDisconnected ts st else st in
          Some (reset (setRoomRef None (setRoom None st1)))
      end
  | None => Some (reset st)
  end.

(** *** The caller: moving to the final room *)

(** [connectToFinalRoom(token, roomName)], run with the values of the
    render [cl] its closure was created in: [currentTransfer],
    [localAudioTrack] and [room] are read from [cl], the state updates
    apply to the current state [st]. Reading [livekit_url] of a null
    [currentTransfer] throws inside the [try], and every [throw] ends in
    the [catch] block, whose log line is kept without the text of the
    error. *)
Definition connectToFinalRoom (cl : State) (ts : string) (lk : LiveKit)
    (token roomName : string) (st : State) : State :=
  let failed (s : State) : State :=
    setError "Failed to connect to final room"
      (addLog ts "Failed to connect to final room" s) in
  let st1 := addLog ts ("Attempting to connect caller to final room: " ^^ roomName) st in
  let finalRoom := {| name := roomName |} in
  match currentTransfer cl with
  | None => failed st1
  | Some _ =>
      if negb (connect_ok lk) then failed st1 else
      let st2 := onConnected ts finalRoom (remoteParticipants lk) st1 in
      let st3 := addLog ts "Successfully connected to LiveKit server" st2 in
      let published :=
        match localAudioTrack cl with
        | Some _ =>
            if publish_ok lk then Some (addLog ts "Published caller audio track" st3)
            else None
        | None => Some st3
        end in
      match published with
      | None => failed st3
      | Some st4 =>
          let left :=
            match room cl with
            | Some _ =>
                match disconnect_outcome lk with
                | disconnect_throws => None
                | disconnect_done emits =>
                    Some (addLog ts "Disconnected from previous room"
                            (if emits then onDisconnected ts st4 else st4))
                end
            | None => Some st4
            end in
          match left with
          | None => failed st4
          | Some st5 =>
              addLog ts "Transfer complete - caller is now with Agent B"
                (addLog ts ("Caller successfully connected to final room with Agent B: "
                            ^^ roomName)
                   (setRoomRef (Some finalRoom) (setRoom (Some finalRoom) st5)))
          end
      end
  end.

(** [checkCallerTransferStatus] up to its [fetch]: nothing is sent for a
    blank name. *)
Definition checkCallerTransferStatus_begin (cl : State) (ts : string) (st : State)
    : State * list Request :=
  if negb (JS.truthy (JS.trim (userName cl))) then (st, [])
  else (addLog ts ("Checking transfer status for caller: " ^^ userName cl) st,
        [GET_caller_transfer_status (userName cl)]).

(** [checkCallerTransferStatus] once the [fetch] has settled. *)
Definition checkCallerTransferStatus_settled (cl : State) (ts : string)
    (r : Response CallerTransferStatus) (lk : LiveKit) (st : State) : State :=
  match r with
  | network_error message =>
      addLog ts ("Error checking transfer status: " ^^ message) st
  | http_error _ => addLog ts ("No transfer status found for " ^^ userName cl) st
  | http_ok data =>
      let st1 := addLog ts ("Transfer status response: " ^^ status_json data) st in
      if transfer_complete data then
        connectToFinalRoom cl ts lk (status_caller_token data) (final_room data)
          (addLog ts ("Transfer completed! Joining Agent B in room: " ^^ final_room data)
             st1)
      else st1
  end.

(** *** The caller: starting a call *)

(** [startCall] up to its [fetch]. *)
Definition startCall_begin (st : State) : State * list Request :=
  if negb (JS.truthy (JS.trim (userName st)))
  then (setError "Please enter your name" st, [])
  else (setError EmptyString (setIsConnecting true st),
        [POST_call_start
           (match userRole st with
            | caller => userName st
            | r => UserRole_text r ^^ "_" ^^ userName st
            end)]).

Definition startCall_failed (message : string) (st : State) : State :=
  setIsConnecting false (setError message st).

(** [startCall] from the settled [fetch] to the end of
    [await newRoom.connect(...)], during which the room emits
    [RoomEvent.Connected]. *)
Definition startCall_settled (ts : string) (r : Response CallSession)
    (lk : LiveKit) (st : State) : State :=
  match r with
  | network_error message => startCall_failed message st
  | http_error _ => startCall_failed "Failed to start call" st
  | http_ok callSession =>
      let st1 := setCurrentCallSession (Some callSession) st in
      if connect_ok lk
      then onConnected ts {| name := room_name callSession |} (remoteParticipants lk) st1
      else startCall_failed (error_message lk) st1
  end.

(** The rest of [startCall], after the connection: [cl] is the render the
    running closure belongs to. *)
Definition startCall_joined (cl : State) (ts : string) (callSession : CallSession)
    (lk : LiveKit) (st : State) : State :=
  let published :=
    match localAudioTrack cl with
    | Some _ =>
        if publish_ok lk then Some (addLog ts "Local audio track published" st)
        else None
    | None => Some st
    end in
  match published with
  | None => startCall_failed (error_message lk) st
  | Some st1 =>
      let newRoom := {| name := room_name callSession |} in
      let st2 :=
        addLog ts ("Call started as " ^^ UserRole_text (userRole cl))
          (setRoomRef (Some newRoom) (setRoom (Some newRoom) st1)) in
      match userRole cl with
      | caller =>
          addLog ts "Share this room name with Agent A to join the same call"
            (addLog ts ("ROOM NAME: " ^^ room_name callSession) st2)
      | _ => st2
      end
  end.

(** *** Agent A: the name of the briefing room *)

(** [`transfer_${Date.now()}`] in [initiateTransfer]: [now] is the clock
    in milliseconds, printed in decimal. The name is sent as [new_room]. *)
Definition transferRoomName (now : N) : string :=
  "transfer_" ^^ NilEmpty.string_of_uint (N.to_uint now).

(** *** Effects and intervals *)

(** What React keeps besides the state cells: whether the interval of the
    latest-call effect is armed, the render whose
    [checkCallerTransferStatus] the interval of the caller effect calls
    ([None] when no interval is armed), and the renders of the status
    polls whose [fetch] has not settled yet. *)
Record Runtime : Type := {
  state : State;
  latestCallInterval : bool;
  callerStatusInterval : option State;
  callerStatusInFlight : list State
}.

(** The condition of the effect with dependencies [[userRole, isConnected]]. *)
Definition latestCallWanted (st : State) : bool :=
  UserRole_eqb (userRole st) agent_a && negb (isConnected st).

Definition latestCallDepsChanged (old next : State) : bool :=
  negb (UserRole_eqb (userRole old) (userRole next)
        && Bool.eqb (isConnected old) (isConnected next)).

(** The condition of the effect with dependencies
    [[userRole, isConnected, userName]]. *)
Definition callerStatusWanted (st : State) : bool :=
  UserRole_eqb (userRole st) caller && isConnected st
  && JS.truthy (JS.trim (userName st)).

Definition callerStatusDepsChanged (old next : State) : bool :=
  negb (UserRole_eqb (userRole old) (userRole next)
        && Bool.eqb (isConnected old) (isConnected next)
        && String.eqb (userName old) (userName next)).

(** The body of the latest-call effect: one immediate [fetchLatestCall()]
    and an interval, or nothing. *)
Definition latestCallEffect (st : State) : bool * list Request :=
  if latestCallWanted st then (true, [GET_calls_latest]) else (false, []).

(** The body of the caller effect: an interval that calls the
    [checkCallerTransferStatus] of this render, or nothing. *)
Definition callerStatusEffect (st : State) : option State :=
  if callerStatusWanted st then Some st else None.

(** The first render: every effect runs. *)
Definition mount : Runtime * list Request :=
  ({| state := initialState;
      latestCallInterval := fst (latestCallEffect initialState);
      callerStatusInterval := callerStatusEffect initialState;
      callerStatusInFlight := [] |},
   snd (latestCallEffect initialState)).

(** A render with state [next]: an effect whose dependencies changed is
    cleaned up ([clearInterval]) and run again, the others are left as
    they are. *)
Definition commit (rt : Runtime) (next : State) : Runtime * list Request :=
  let latest :=
    if latestCallDepsChanged (state rt) next then latestCallEffect next
    else (latestCallInterval rt, []) in
  let callerStatus :=
    if callerStatusDepsChanged (state rt) next then callerStatusEffect next
    else callerStatusInterval rt in
  ({| state := next;
      latestCallInterval := fst latest;
      callerStatusInterval := callerStatus;
      callerStatusInFlight := callerStatusInFlight rt |},
   snd latest).

Fixpoint remove_nth {A : Type} (i : nat) (l : list A) : list A :=
  match l, i with
  | [], _ => []
  | _ :: l', O => l'
  | x :: l', S i' => x :: remove_nth i' l'
  end.

(** What can happen to the mounted page: a render after any state update
    (user input, a handler, a room event), a tick of either interval, and
    the settling of a [fetch] of either poll. *)
Inductive Event : Type :=
| Render (next : State)
| LatestCallTick
| LatestCallSettled (ts : string) (r : Response LatestCall)
| CallerStatusTick (ts : string)
| CallerStatusSettled (ts : string) (i : nat) (r : Response CallerTransferStatus)
    (lk : LiveKit).

Definition step (rt : Runtime) (ev : Event) : Runtime * list Request :=
  match ev with
  | Render next => commit rt next
  | LatestCallTick =>
      if latestCallInterval rt then (rt, [GET_calls_latest]) else (rt, [])
  | LatestCallSettled ts r => commit rt (fetchLatestCall_settled ts r (state rt))
  | CallerStatusTick ts =>
      match callerStatusInterval rt with
      | None => (rt, [])
      | Some cl =>
          let '(st1, sent) := checkCallerTransferStatus_begin cl ts (state rt) in
          let '(rt1, polled) := commit rt st1 in
          ({| state := state rt1;
              latestCallInterval := latestCallInterval rt1;
              callerStatusInterval := callerStatusInterval rt1;
              callerStatusInFlight :=
                match sent with
                | [] => callerStatusInFlight rt1
                | _ => callerStatusInFlight rt1 ++ [cl]
                end |},
           sent ++ polled)
      end
  | CallerStatusSettled ts i r lk =>
      match nth_error (callerStatusInFlight rt) i with
      | None => (rt, [])
      | Some cl =>
          commit
            {| state := state rt;
               latestCallInterval := latestCallInterval rt;
               callerStatusInterval := callerStatusInterval rt;
               callerStatusInFlight := remove_nth i (callerStatusInFlight rt) |}
            (checkCallerTransferStatus_settled cl ts r lk (state rt))
      end
  end.

(** The page after a sequence of events, with every request sent. *)
Fixpoint run (rt : Runtime) (sent : list Request) (evs : list Event)
    : Runtime * list Request :=
  match evs with
  | [] => (rt, sent)
  | ev :: evs' =>
      let '(rt1, reqs) := step rt ev in
      run rt1 (sent ++ reqs) evs'
  end.

Definition after (evs : list Event) : Runtime :=
  fst (run (fst mount) (snd mount) evs).

(** The interval of the latest-call effect is armed exactly when the
    condition of the effect holds in the rendered state. *)
Definition latestCall_synced (rt : Runtime) : Prop :=
  latestCallInterval rt = latestCallWanted (state rt).

End WarmTransferPage.

(** ** The orchestration core *)

Module Orchestration.

(** Modelled from the spec: the error taxonomy of the orchestration core
    (the backend is not among the sources). *)
Inductive Error : Type :=
| NotFoundError
| InvalidStateError
| ConflictError
| UpstreamUnavailable
| CredentialMintFailure.

Inductive Result (A : Type) : Type :=
| Ok (value : A)
| Err (e : Error).
Arguments Ok {A} value.
Arguments Err {A} e.

(** Modelled from the spec: the lifecycle of a Call Session,
    [active] then [transferring] then [completed]. *)
Inductive CallStatus : Type := call_active | call_transferring | call_completed.

Definition is_active (st : CallStatus) : bool :=
  match st with call_active => true | _ => false end.

(** Modelled from the spec: the credential of the Credential Issuer,
    signed for one identity and one room and bounded in time, hence
    represented by the identity, the room and the time of issue. *)
Record Credential : Type := {
  identity : string;
  room : string;
  issued_at : nat
}.

(** Modelled from the spec: [mint(identity, room)], which is stateless and
    assumed always available; [now] is the clock it reads. *)
Definition mint (now : nat) (who where_ : string) : Credential :=
  {| identity := who; room := where_; issued_at := now |}.

(** Modelled from the spec: the lifecycle of a Transfer Session; once
    completed it carries the final room and the credential minted for the
    caller. *)
Inductive TransferStatus : Type :=
| transfer_briefing
| transfer_completed (finalRoom : string) (callerCredential : Credential).

Definition is_completed (st : TransferStatus) : bool :=
  match st with transfer_completed _ _ => true | transfer_briefing => false end.

(** Modelled from the spec: the Call Session of the data model; the caller
    metadata is an opaque payload. *)
Record CallSession : Type := {
  call_id : string;
  caller_name : string;
  caller_info : string;
  room_name : string;
  call_status : CallStatus;
  call_created_at : nat
}.

(** Modelled from the spec: the Transfer Session of the data model. *)
Record TransferSession : Type := {
  transfer_id : string;
  original_room : string;
  transfer_caller_name : string;
  agent_b : string;
  transfer_room : string;
  summary : string;
  agent_script : string;
  transfer_status : TransferStatus;
  transfer_created_at : nat
}.

(** Modelled from the spec: the Session Registry and the Transfer
    Registry, each in order of insertion (the spec orders transfers by
    creation), kept in one value so that an operation updates both as a
    unit. [issued] records every credential minted so far; the registries
    never read it. *)
Record Registry : Type := {
  calls : list CallSession;
  transfers : list TransferSession;
  issued : list Credential
}.

Definition empty : Registry := {| calls := []; transfers := []; issued := [] |}.

Definition call_rooms (s : Registry) : list string := map room_name (calls s).
Definition transfer_rooms (s : Registry) : list string :=
  map transfer_room (transfers s).
Definition all_rooms (s : Registry) : list string :=
  call_rooms s ++ transfer_rooms s.
Definition call_ids (s : Registry) : list string := map call_id (calls s).
Definition transfer_ids (s : Registry) : list string :=
  map transfer_id (transfers s).

(** The rooms of the calls whose status is [active]: the rooms currently
    in use by a call. *)
Definition active_rooms (s : Registry) : list string :=
  map room_name (filter (fun c => is_active (call_status c)) (calls s)).

(** Modelled from the spec: what the core consumes from outside, with
    nothing assumed of it. The generators of ids and room names read the
    registries, the clock and the number of the attempt (and the hint of
    the client for a transfer room); they are tried for the attempts
    [0 .. id_retries - 1]. [provider] is the external AI provider, which
    answers with a summary and a script or fails; [fallback_summary] and
    [fallback_script] are the deterministic substitutes of the Summary
    Generator, whose text the spec leaves open. *)
Class Services : Type := {
  gen_call_id : Registry -> nat -> nat -> string;
  gen_call_room : Registry -> nat -> nat -> string;
  gen_transfer_id : Registry -> nat -> nat -> string;
  gen_transfer_room : Registry -> nat -> string -> nat -> string;
  id_retries : nat;
  provider : string -> Result (string * string);
  fallback_summary : string -> string;
  fallback_script : string
}.


Section Registries.

Context {services : Services}.

(** *** Session Registry *)

(** Modelled from the spec: the allocation of [createCall], a call id
    and a room name unique against all currently-active rooms. The
    candidates of an attempt are compared with the ids in use and with
    the rooms of the active calls; a collision is retried, a bounded
    number of times. *)
Fixpoint allocate_call (s : Registry) (now attempt retries : nat)
    : option (string * string) :=
  match retries with
  | O => None
  | S retries' =>
      let id := gen_call_id s now attempt in
      let roomName := gen_call_room s now attempt in
      if JS.includes id (call_ids s) || JS.includes roomName (active_rooms s)
      then allocate_call s now (S attempt) retries'
      else Some (id, roomName)
  end.

(** Modelled from the spec: [createCall(callerName, callerInfo)], which
    fails with [ConflictError] when the generation still collides after
    the bounded retry. *)
Definition createCall (now : nat) (callerName callerInfo : string)
    (s : Registry) : Registry * Result CallSession :=
  match allocate_call s now 0 id_retries with
  | None => (s, Err ConflictError)
  | Some (id, roomName) =>
      let c := {| call_id := id; caller_name := callerName;
                  caller_info := callerInfo;
                  room_name := roomName;
                  call_status := call_active;
                  call_created_at := now |} in
      ({| calls := calls s ++ [c]; transfers := transfers s;
          issued := issued s |}, Ok c)
  end.

(** The index by room name: the call in that room. *)
Definition find_call_by_room (roomName : string) (s : Registry)
    : option CallSession :=
  find (fun c => String.eqb (room_name c) roomName) (calls s).

Definition set_call_status (st : CallStatus) (c : CallSession) : CallSession :=
  {| call_id := call_id c; caller_name := caller_name c;
     caller_info := caller_info c; room_name := room_name c;
     call_status := st; call_created_at := call_created_at c |}.

(** The status of the call in room [roomName] becomes [st]. *)
Fixpoint update_call (roomName : string) (st : CallStatus)
    (l : list CallSession) : list CallSession :=
  match l with
  | [] => []
  | c :: l' =>
      if String.eqb (room_name c) roomName then set_call_status st c :: l'
      else c :: update_call roomName st l'
  end.

(** Modelled from the spec: [markTransferring(roomName)]. *)
Definition markTransferring (roomName : string) (s : Registry)
    : Result Registry :=
  match find_call_by_room roomName s with
  | None => Err InvalidStateError
  | Some c =>
      if is_active (call_status c) then
        Ok {| calls := update_call roomName call_transferring (calls s);
              transfers := transfers s; issued := issued s |}
      else Err InvalidStateError
  end.

(** Modelled from the spec: [markCompleted(roomName)], the terminal
    transition, which changes nothing on a completed call. *)
Definition markCompleted (roomName : string) (s : Registry) : Registry :=
  {| calls := update_call roomName call_completed (calls s);
     transfers := transfers s; issued := issued s |}.

(** *** Summary Generator *)

(** Modelled from the spec: [summarize(transcript)] of the Summary
    Generator, which asks the provider and, whatever the failure of the
    provider, substitutes the fallback summary and the generic script. *)
Definition summarize (transcript : string) : string * string :=
  match provider transcript with
  | Ok r => r
  | Err _ => (fallback_summary transcript, fallback_script)
  end.

(** *** Transfer Registry *)

Definition find_transfer (transferId : string) (s : Registry)
    : option TransferSession :=
  find (fun t => String.eqb (transfer_id t) transferId) (transfers s).

Definition set_transfer_status (st : TransferStatus) (t : TransferSession)
    : TransferSession :=
  {| transfer_id := transfer_id t; original_room := original_room t;
     transfer_caller_name := transfer_caller_name t; agent_b := agent_b t;
     transfer_room := transfer_room t; summary := summary t;
     agent_script := agent_script t; transfer_status := st;
     transfer_created_at := transfer_created_at t |}.

Fixpoint update_transfer (transferId : string) (st : TransferStatus)
    (l : list TransferSession) : list TransferSession :=
  match l with
  | [] => []
  | t :: l' =>
      if String.eqb (transfer_id t) transferId
      then set_transfer_status st t :: l'
      else t :: update_transfer transferId st l'
  end.

(** What initiate-transfer returns. *)
Record Initiated : Type := {
  initiated : TransferSession;
  agentA_credential : Credential;
  agentB_credential : Credential
}.

(** Modelled from the spec: step 3 of [initiateTransfer], a transfer id
    and a transfer room name distinct from all existing room names, those
    of the calls and those of the other transfers. The spec names no
    failure for this step; the allocation is modelled as the one of
    [createCall]: the candidates of an attempt are compared with the ids
    and the room names in use, and a collision is retried, a bounded
    number of times. *)
Fixpoint allocate_transfer (s : Registry) (now : nat) (hint : string)
    (attempt retries : nat) : option (string * string) :=
  match retries with
  | O => None
  | S retries' =>
      let id := gen_transfer_id s now attempt in
      let roomName := gen_transfer_room s now hint attempt in
      if JS.includes id (transfer_ids s) || JS.includes roomName (all_rooms s)
      then allocate_transfer s now hint (S attempt) retries'
      else Some (id, roomName)
  end.

(** Modelled from the spec: [initiateTransfer], steps 1 to 6. The
    credentials of Agent A and Agent B are minted at once, the one of
    the caller at completion. When the allocation collides to the end or
    step 6 fails, the operation fails with [ConflictError] and nothing
    of it is kept. *)
Definition initiateTransfer (now : nat)
    (originalRoom newRoomNameHint agentA agentB transcript callerName : string)
    (s : Registry) : Registry * Result Initiated :=
  match find_call_by_room originalRoom s with
  | None => (s, Err NotFoundError)
  | Some c =>
      if negb (is_active (call_status c)) then (s, Err InvalidStateError)
      else
        let '(text, script) := summarize transcript in
        match allocate_transfer s now newRoomNameHint 0 id_retries with
        | None => (s, Err ConflictError)
        | Some (id, transferRoom) =>
            let t := {| transfer_id := id;
                        original_room := originalRoom;
                        transfer_caller_name := callerName;
                        agent_b := agentB;
                        transfer_room := transferRoom;
                        summary := text;
                        agent_script := script;
                        transfer_status := transfer_briefing;
                        transfer_created_at := now |} in
            let credA := mint now agentA transferRoom in
            let credB := mint now agentB transferRoom in
            let inserted :=
              {| calls := calls s; transfers := transfers s ++ [t];
                 issued := issued s ++ [credA; credB] |} in
            match markTransferring originalRoom inserted with
            | Err _ => (s, Err ConflictError)
            | Ok s' =>
                (s', Ok {| initiated := t; agentA_credential := credA;
                           agentB_credential := credB |})
            end
        end
  end.

(** Modelled from the spec: [completeTransfer], which returns the final
    room and the credential of the caller. The failures come first
    (unknown id, then an original room that does not match), then the
    retry on a completed transfer, then the completion itself, in which
    the transfer room becomes the final room. *)
Definition completeTransfer (now : nat)
    (transferId originalRoom callerName agentB : string)
    (s : Registry) : Registry * Result (string * Credential) :=
  match find_transfer transferId s with
  | None => (s, Err NotFoundError)
  | Some t =>
      if negb (String.eqb (original_room t) originalRoom)
      then (s, Err InvalidStateError)
      else
        match transfer_status t with
        | transfer_completed finalRoom credential =>
            (s, Ok (finalRoom, credential))
        | transfer_briefing =>
            let finalRoom := transfer_room t in
            let credential := mint now callerName finalRoom in
            let stored :=
              {| calls := calls s;
                 transfers :=
                   update_transfer transferId
                     (transfer_completed finalRoom credential) (transfers s);
                 issued := issued s ++ [credential] |} in
            (markCompleted originalRoom stored, Ok (finalRoom, credential))
        end
  end.

(** *** Polling views *)

(** The most recently created session of a list in creation order: a
    later session wins a tie of timestamps. *)
Fixpoint most_recent (best : option TransferSession)
    (l : list TransferSession) : option TransferSession :=
  match l with
  | [] => best
  | t :: l' =>
      most_recent
        (match best with
         | None => Some t
         | Some b =>
             if Nat.leb (transfer_created_at b) (transfer_created_at t)
             then Some t else Some b
         end) l'
  end.

Definition completed_for (callerName : string) (t : TransferSession) : bool :=
  String.eqb (transfer_caller_name t) callerName
  && is_completed (transfer_status t).

(** Modelled from the spec: [findCompletedByCaller(callerName)]. *)
Definition findCompletedByCaller (callerName : string) (s : Registry)
    : Result TransferSession :=
  match most_recent None (filter (completed_for callerName) (transfers s)) with
  | Some t => Ok t
  | None => Err NotFoundError
  end.

(** Modelled from the spec: the answer of the caller-status poll. *)
Record PollSnapshot : Type := {
  transfer_complete : bool;
  final_room : option string;
  caller_credential : option Credential
}.

Definition callerTransferStatus (callerName : string) (s : Registry)
    : PollSnapshot :=
  match findCompletedByCaller callerName s with
  | Ok t =>
      match transfer_status t with
      | transfer_completed finalRoom credential =>
          {| transfer_complete := true; final_room := Some finalRoom;
             caller_credential := Some credential |}
      | transfer_briefing =>
          {| transfer_complete := false; final_room := None;
             caller_credential := None |}
      end
  | Err _ =>
      {| transfer_complete := false; final_room := None;
         caller_credential := None |}
  end.

(** *** Sequences of operations *)

Inductive Op : Type :=
| CreateCall (now : nat) (callerName callerInfo : string)
| InitiateTransfer (now : nat)
    (originalRoom newRoomNameHint agentA agentB transcript callerName : string)
| CompleteTransfer (now : nat)
    (transferId originalRoom callerName agentB : string).

Definition exec (s : Registry) (op : Op) : Registry :=
  match op with
  | CreateCall now callerName callerInfo =>
      fst (createCall now callerName callerInfo s)
  | InitiateTransfer now originalRoom hint agentA agentB transcript callerName =>
      fst (initiateTransfer now originalRoom hint agentA agentB transcript
             callerName s)
  | CompleteTransfer now transferId originalRoom callerName agentB =>
      fst (completeTransfer now transferId originalRoom callerName agentB s)
  end.

Definition run (ops : list Op) (s : Registry) : Registry :=
  fold_left exec ops s.

End Registries.



Definition not_complete : PollSnapshot :=
  {| transfer_complete := false; final_room := None; caller_credential := None |}.

(** The completed transfer of a caller name that the poll has to report:
    the most recent one, the later created among those of one
    timestamp. [earlier] and [later] are the transfers inserted before it
    and after it. *)
Definition most_recent_completed (callerName : string) (s : Registry)
    (t : TransferSession) : Prop :=
  exists earlier later,
    transfers s = earlier ++ t :: later
    /\ completed_for callerName t = true
    /\ (forall x, In x earlier -> completed_for callerName x = true ->
                  transfer_created_at x <= transfer_created_at t)
    /\ (forall x, In x later -> completed_for callerName x = true ->
                  transfer_created_at x < transfer_created_at t).


(** Poll convergence as the specification words it: after a successful
    complete-transfer for a caller name, every later poll for that name
    reports the final room this completion stored, and the poll issued
    before it reports [false]. *)
Definition stated_poll_convergence : Prop :=
  forall (services : Services) (before later : list Op) (now : nat)
         (transferId originalRoom callerName agentB : string)
         (s1 : Registry) (r : string * Credential),
    completeTransfer now transferId originalRoom callerName agentB
      (run before empty) = (s1, Ok r) ->
    (transfer_complete (callerTransferStatus callerName (run later s1)) = true
     /\ final_room (callerTransferStatus callerName (run later s1))
        = Some (fst r))
    /\ transfer_complete (callerTransferStatus callerName (run before empty))
       = false.



End Orchestration.

(** ** Concrete scenarios *)

(** A caller named Jane starts a call and is then polled into a completed
    transfer that Agent A drove from another browser. *)
Module CallerScenario.

Import WarmTransferPage.

Definition liveKit : LiveKit :=
  {| connect_ok := true; error_message := EmptyString; remoteParticipants := [];
     publish_ok := true; disconnect_outcome := disconnect_done true |}.

Definition callSession : CallSession :=
  {| call_id := "c1"; room_name := "call_1"; caller_token := "caller-token";
     agent_a_token := "agent-a-token"; livekit_url := "ws://localhost:7880";
     status := "active" |}.

Definition completedStatus : CallerTransferStatus :=
  {| transfer_complete := true; final_room := "transfer_1700000000000";
     status_caller_token := "final-token"; status_json := "{...}" |}.

(** The renders of the page: the name is typed, [startCall] is clicked,
    the room connects, [startCall] finishes. *)
Definition named : State := setUserName "Jane" initialState.
Definition starting : State := fst (startCall_begin named).
Definition connected : State :=
  startCall_settled "10:00:00" (http_ok callSession) liveKit starting.
Definition joined : State :=
  startCall_joined named "10:00:01" callSession liveKit connected.

(** Two ticks of the status interval; the first poll is answered with the
    completed transfer before the second tick. *)
Definition events : list Event :=
  [ Render named; Render starting; Render connected; Render joined;
    CallerStatusTick "10:00:03";
    CallerStatusSettled "10:00:04" 0 (http_ok completedStatus) liveKit;
    CallerStatusTick "10:00:06" ].

End CallerScenario.

(** Services for the orchestration core whose generators pick a name longer
    than every name in use, and whose provider is always unavailable. *)
Module DemoServices.

Import Orchestration.

Definition longest (l : list string) : nat :=
  fold_right (fun s n => Nat.max (String.length s) n) 0 l.

Fixpoint underscores (n : nat) : string :=
  match n with
  | O => EmptyString
  | S n' => String "_" (underscores n')
  end.

Definition fresh_name (prefix : string) (used : list string) : string :=
  prefix ^^ underscores (S (longest used)).

#[export] Instance services : Services :=
  {| gen_call_id := fun s _ _ => fresh_name "call" (call_ids s);
     gen_call_room := fun s _ _ => fresh_name "room" (all_rooms s);
     gen_transfer_id := fun s _ _ => fresh_name "t" (transfer_ids s);
     gen_transfer_room := fun s _ hint _ => fresh_name hint (all_rooms s);
     id_retries := 3;
     provider := fun _ => Err UpstreamUnavailable;
     fallback_summary := fun transcript => "Summary unavailable. " ^^ transcript;
     fallback_script := "Introduce the caller and read the notes." |}.

(** Jane calls and is transferred to Bob; she calls again and is
    transferred again. Each state and each generated name is the value
    the operations before it compute. *)
Definition first_call : list Op :=
  [ CreateCall 1 "Jane" "billing";
    InitiateTransfer 2 "room_" "transfer_1" "agent_a" "bob" "billing issue" "Jane" ].

Definition briefed : Registry := Eval vm_compute in run first_call empty.

Definition completed_first : Registry * Result (string * Credential) :=
  Eval vm_compute in completeTransfer 3 "t_" "room_" "Jane" "bob" briefed.

Definition second_room : string :=
  Eval vm_compute in gen_call_room (fst completed_first) 4 0.

Definition second_transfer : string :=
  Eval vm_compute in
    gen_transfer_id (run [CreateCall 4 "Jane" "refund"] (fst completed_first)) 5 0.

Definition second_call : list Op :=
  [ CreateCall 4 "Jane" "refund";
    InitiateTransfer 5 second_room "transfer_2" "agent_a" "bob" "refund issue" "Jane" ].

Definition second_completion : Op :=
  CompleteTransfer 6 second_transfer second_room "Jane" "bob".

(** Agent A's page had no caller name at hand when it initiated the
    transfer of a third call and sent "Unknown"; the completion names the
    caller. *)
Definition unnamed_call : list Op :=
  [ CreateCall 1 "Jane" "billing";
    InitiateTransfer 2 "room_" "transfer_1" "agent_a" "bob" "billing issue"
      "Unknown" ].

Definition unnamed_completion : Op := CompleteTransfer 3 "t_" "room_" "Jane" "bob".

End DemoServices.

(** Services whose generators number their candidates by the attempt:
    [room], [room_], [room__] and so on for a call, the hint of the
    client followed by as many underscores for a transfer. The fallback
    summary is the transcript cut at 200 characters. *)
Module CountingServices.

Import Orchestration.

Definition services : Services :=
  {| gen_call_id :=
       fun s _ _ => DemoServices.fresh_name "call" (call_ids s);
     gen_call_room := fun _ _ attempt => "room" ^^ DemoServices.underscores attempt;
     gen_transfer_id :=
       fun s _ _ => DemoServices.fresh_name "t" (transfer_ids s);
     gen_transfer_room :=
       fun _ _ hint attempt => hint ^^ DemoServices.underscores attempt;
     id_retries := 3;
     provider := fun _ => Err UpstreamUnavailable;
     fallback_summary := fun transcript => String.substring 0 200 transcript;
     fallback_script := "Introduce the caller and read the notes." |}.


End CountingServices.

(** ** The room page: leaving, summarising and transferring *)

Module HomeActions.

(** The [useState] cells of [Home]; a room object is known by the name of
    the room it joined. *)
Record Page : Type := {
  identity : string;
  roomName : string;
  roomInstance : option string;
  participants : list string;
  summary : string;
  transferRoomName : string;
  agentBIdentity : string;
  isConnected : bool;
  transcript : string
}.

(** The first render. *)
Definition initialPage : Page :=
  {| identity := "Alice"; roomName := "room1"; roomInstance := None;
     participants := []; summary := EmptyString;
     transferRoomName := "transfer-room"; agentBIdentity := "AgentB";
     isConnected := false; transcript := EmptyString |}.

(** The requests of the page: axios puts the parameters in the query or in
    the body. *)
Inductive Request : Type :=
| GET_token (who room : string)
| POST_summarize (transcriptText : string)
| POST_transfer (original_room new_room agent_a agent_b transcriptText : string).

(** What a handler does besides updating the state: the requests it sends
    and the [alert] boxes it opens. *)
Record Effects : Type := { sent : list Request; alerts : list string }.

Definition nothing : Effects := {| sent := []; alerts := [] |}.

(** An axios call: it resolves with the data, or it rejects (also on a
    status outside 2xx). *)
Inductive Outcome (A : Type) : Type :=
| rejected
| resolved (data : A).
Arguments rejected {A}.
Arguments resolved {A} data.

(** [leaveRoom], with [cl] the render its closure belongs to: all four
    updates are inside [if (roomInstance)]. *)
Definition leaveRoom (cl p : Page) : Page :=
  match roomInstance cl with
  | Some _ =>
      {| identity := identity p; roomName := roomName p; roomInstance := None;
         participants := []; summary := EmptyString;
         transferRoomName := transferRoomName p;
         agentBIdentity := agentBIdentity p; isConnected := false;
         transcript := transcript p |}
  | None => p
  end.

(** [summarizeCall] up to its request. *)
Definition summarizeCall_begin (p : Page) : Effects :=
  if JS.truthy (transcript p)
  then {| sent := [POST_summarize (transcript p)]; alerts := [] |}
  else {| sent := []; alerts := ["Enter a transcript first"] |}.

(** [summarizeCall] once the request has settled. *)
Definition summarizeCall_settled (r : Outcome string) (p : Page) : Page * Effects :=
  match r with
  | resolved text =>
      ({| identity := identity p; roomName := roomName p;
          roomInstance := roomInstance p; participants := participants p;
          summary := text; transferRoomName := transferRoomName p;
          agentBIdentity := agentBIdentity p; isConnected := isConnected p;
          transcript := transcript p |}, nothing)
  | rejected => (p, {| sent := []; alerts := ["Error generating summary."] |})
  end.

(** [transferCall] up to its request. *)
Definition transferCall_begin (p : Page) : Effects :=
  match roomInstance p with
  | Some _ =>
      if JS.truthy (transcript p)
      then {| sent := [POST_transfer (roomName p) (transferRoomName p) (identity p)
                         (agentBIdentity p) (transcript p)];
              alerts := [] |}
      else {| sent := []; alerts := ["Join a room and enter transcript first"] |}
  | None => {| sent := []; alerts := ["Join a room and enter transcript first"] |}
  end.

(** [transferCall] once the request has settled; [text] is the summary the
    response carries for Agent B. *)
Definition transferCall_settled (cl : Page) (r : Outcome string) (p : Page)
    : Page * Effects :=
  match r with
  | resolved text =>
      (leaveRoom cl p,
       {| sent := [];
          alerts := ["Transfer initiated! Summary for Agent B: " ^^ text] |})
  | rejected => (p, {| sent := []; alerts := ["Transfer failed"] |})
  end.

(** A click on the transfer button, with the answer of the server, when
    nothing else happens in between. *)
Definition transferCall (r : Outcome string) (p : Page) : Page * Effects :=
  match sent (transferCall_begin p) with
  | [] => (p, transferCall_begin p)
  | requests =>
      let '(p', after) := transferCall_settled p r p in
      (p', {| sent := requests; alerts := alerts after |})
  end.


End HomeActions.

(** ** The warm-transfer page: the other handlers *)

Module PageActions.

Import WarmTransferPage.

(** The [callerInfo] cell. *)
Record CallerInfo : Type := {
  info_name : string;
  info_phone : string;
  info_issue : string
}.

(** The cells outside [State] that the handlers below read and never
    write: they change with the form fields only. *)
Record Form : Type := {
  callerInfo : CallerInfo;
  agentBName : string;
  roomNameToJoin : string
}.

(** The body of [GET /token]. *)
Record TokenData : Type := { token : string; url : string }.

(** The fields read from the body of [POST /transfer/complete]. *)
Record CompletedTransfer : Type := {
  result_caller_token : string;
  result_final_room : string
}.

(** The fields the page reads from an entry of [GET /transfers/active]. *)
Record ActiveTransfer : Type := {
  active_transfer_id : string;
  active_caller_name : string;
  active_agent_a : string;
  active_summary : string
}.

(** The requests of these handlers, by their parameters. *)
Inductive Fetch : Type :=
| GET_token (who roomName : string)
| GET_transfer (transferId : string)
| GET_transfers_active
| POST_summarize (transcriptText : string) (callId : option string)
    (info : CallerInfo)
| POST_transfer
    (original_room new_room agent_a agent_b transcriptText caller_name : string)
| POST_transfer_complete (transferId original_room caller_name agent_b : string).

(** [!s.trim()]: nothing is left of the string once the white space at
    its ends is removed. *)
Definition blank (s : string) : bool := negb (JS.truthy (JS.trim s)).

(** [a || b] on strings. *)
Definition js_or (a b : string) : string := if JS.truthy a then a else b.

(** A number in a template string. *)
Definition decimal (n : N) : string := NilEmpty.string_of_uint (N.to_uint n).

(** The lines the join handlers repeat: [await newRoom.connect(...)],
    during which the room emits [RoomEvent.Connected], then [publishTrack]
    when the closure has a local audio track, followed by the line the
    handler logs after publishing, if it logs one. [inl] carries the state
    at the [throw]. *)
Definition connectAndPublish (cl : State) (ts : string) (lk : LiveKit) (r : Room)
    (publishedLine : option string) (st : State) : State + State :=
  if negb (connect_ok lk) then inl st
  else
    let st1 := onConnected ts r (remoteParticipants lk) st in
    match localAudioTrack cl with
    | Some _ =>
        if publish_ok lk then
          inr (match publishedLine with
               | Some line => addLog ts line st1
               | None => st1
               end)
        else inl st1
    | None => inr st1
    end.

(** The setter of the [localAudioTrack] cell. *)
Definition setLocalAudioTrack (v : option LocalAudioTrack) (st : State) : State :=
  {| userRole := userRole st; userName := userName st;
     latestCall := latestCall st; room := room st; roomRef := roomRef st;
     isConnected := isConnected st; isConnecting := isConnecting st;
     participants := participants st;
     currentCallSession := currentCallSession st;
     currentTransfer := currentTransfer st;
     localAudioTrack := v; transcript := transcript st;
     isTransferring := isTransferring st; transferStep := transferStep st;
     callSummary := callSummary st; agentScript := agentScript st;
     showTransferModal := showTransferModal st; error := error st;
     logs := logs st |}.

(** [initAudio] of the effect that runs once after the first render:
    [created] is what [createLocalAudioTrack] resolves to, [None] when it
    rejects. *)
Definition initAudio (ts : string) (created : option LocalAudioTrack) (st : State)
    : State :=
  match created with
  | Some audioTrack =>
      addLog ts "Local audio track initialized"
        (setLocalAudioTrack (Some audioTrack) st)
  | None => addLog ts "Failed to initialize audio" st
  end.

(** [setRoom(r); roomRef.current = r]. *)
Definition setRooms (r : Room) (st : State) : State :=
  setRoomRef (Some r) (setRoom (Some r) st).

(** *** Agent A: joining the latest call *)

Definition autoJoinLatestCall_begin (st : State) : State * list Fetch :=
  match latestCall st with
  | Some lc =>
      if JS.truthy (JS.trim (userName st)) then
        (setError EmptyString (setIsConnecting true st),
         [GET_token ("agent_a_" ^^ userName st) (latest_room_name lc)])
      else (setError "No call available to join or name not provided" st, [])
  | None => (setError "No call available to join or name not provided" st, [])
  end.

(** [autoJoinLatestCall] once the token request has settled; [lc] is the
    [latestCall] of the closure. *)
Definition autoJoinLatestCall_settled (cl : State) (lc : LatestCall) (ts : string)
    (r : Response TokenData) (lk : LiveKit) (st : State) : State :=
  match r with
  | network_error message => startCall_failed message st
  | http_error _ => startCall_failed "Failed to get join token" st
  | http_ok tokenData =>
      let callSession :=
        {| call_id := latest_call_id lc; room_name := latest_room_name lc;
           caller_token := EmptyString; agent_a_token := token tokenData;
           livekit_url := url tokenData; status := "joined" |} in
      let newRoom := {| name := latest_room_name lc |} in
      match connectAndPublish cl ts lk newRoom (Some "Local audio track published")
              (setCurrentCallSession (Some callSession) st) with
      | inl thrown => startCall_failed (error_message lk) thrown
      | inr st1 =>
          addLog ts ("Auto-joined call with " ^^ latest_caller_name lc)
            (setRooms newRoom st1)
      end
  end.

(** A click with its answers, when nothing else happens in between. *)
Definition autoJoinLatestCall (ts : string) (r : Response TokenData) (lk : LiveKit)
    (st : State) : State * list Fetch :=
  match autoJoinLatestCall_begin st, latestCall st with
  | (st1, (_ :: _) as requests), Some lc =>
      (autoJoinLatestCall_settled st lc ts r lk st1, requests)
  | (st1, requests), _ => (st1, requests)
  end.

(** *** Joining a room by its name *)

Definition joinExistingRoom_begin (form : Form) (st : State) : State * list Fetch :=
  if negb (JS.truthy (JS.trim (userName st))) then
    (setError "Please enter your name" st, [])
  else if negb (JS.truthy (JS.trim (roomNameToJoin form))) then
    (setError "Please enter room name to join" st, [])
  else
    (setError EmptyString (setIsConnecting true st),
     [GET_token (UserRole_text (userRole st) ^^ "_" ^^ userName st)
        (roomNameToJoin form)]).

(** [now] is [Date.now()]. *)
Definition joinExistingRoom_settled (form : Form) (cl : State) (now : N)
    (ts : string) (r : Response TokenData) (lk : LiveKit) (st : State) : State :=
  match r with
  | network_error message => startCall_failed message st
  | http_error _ => startCall_failed "Failed to get join token" st
  | http_ok tokenData =>
      let callSession :=
        {| call_id := "joined_" ^^ decimal now; room_name := roomNameToJoin form;
           caller_token := EmptyString; agent_a_token := token tokenData;
           livekit_url := url tokenData; status := "joined" |} in
      let newRoom := {| name := roomNameToJoin form |} in
      match connectAndPublish cl ts lk newRoom (Some "Local audio track published")
              (setCurrentCallSession (Some callSession) st) with
      | inl thrown => startCall_failed (error_message lk) thrown
      | inr st1 =>
          addLog ts ("Joined room " ^^ roomNameToJoin form ^^ " as "
                     ^^ UserRole_text (userRole cl))
            (setRooms newRoom st1)
      end
  end.

Definition joinExistingRoom (form : Form) (now : N) (ts : string)
    (r : Response TokenData) (lk : LiveKit) (st : State) : State * list Fetch :=
  match joinExistingRoom_begin form st with
  | (st1, (_ :: _) as requests) =>
      (joinExistingRoom_settled form st now ts r lk st1, requests)
  | (st1, []) => (st1, [])
  end.

(** *** Agent B: joining a transfer *)

(** [joinActiveTransfer(transferId)]: the details of the transfer are
    fetched, then a token for its room; both answers are given, the second
    is consulted only after the first. *)
Definition joinActiveTransfer (transferId : string) (ts : string)
    (details : Response TransferSession) (r : Response TokenData) (lk : LiveKit)
    (st : State) : State * list Fetch :=
  let failed (s : State) : State := setError "Failed to join transfer session" s in
  if negb (JS.truthy (JS.trim (userName st))) then
    (setError "Please enter your name before joining transfer" st, [])
  else
    match details with
    | http_ok transferData =>
        let st1 := setCurrentTransfer (Some transferData) st in
        let agentBIdentity := "agent_b_" ^^ userName st in
        let requests :=
          [GET_transfer transferId;
           GET_token agentBIdentity (transfer_room transferData)] in
        match r with
        | http_ok tokenData =>
            let newRoom := {| name := transfer_room transferData |} in
            match connectAndPublish st ts lk newRoom None st1 with
            | inl thrown => (failed thrown, requests)
            | inr st2 =>
                (setShowTransferModal true
                   (addLog ts ("Joined transfer session as Agent B (" ^^ agentBIdentity
                               ^^ "): " ^^ transferId)
                      (setIsConnected true (setRooms newRoom st2))),
                 requests)
            end
        | _ => (failed st1, requests)
        end
    | _ => (failed st, [GET_transfer transferId])
    end.

(** [joinAsAgentB], which sends no request of its own. *)
Definition joinAsAgentB (cl : State) (ts : string) (lk : LiveKit) (st : State)
    : State :=
  match currentTransfer cl with
  | None => setError "No transfer session available" st
  | Some t =>
      let newRoom := {| name := transfer_room t |} in
      match connectAndPublish cl ts lk newRoom None
              (setError EmptyString (setIsConnecting true st)) with
      | inl thrown => startCall_failed "Failed to join as Agent B" thrown
      | inr st1 =>
          addLog ts "Joined as Agent B for transfer briefing"
            (setUserRole agent_b (setRooms newRoom st1))
      end
  end.

(** *** Summary and transfer *)

(** The request of [generateSummary], none for a blank transcript. *)
Definition generateSummary_request (form : Form) (cl : State) : list Fetch :=
  if JS.truthy (JS.trim (transcript cl)) then
    [POST_summarize (transcript cl) (option_map call_id (currentCallSession cl))
       (callerInfo form)]
  else [].

(** [generateSummary], with what it returns: [None] is [undefined]. *)
Definition generateSummary (cl : State) (ts : string) (r : Response string)
    (st : State) : State * option string :=
  if negb (JS.truthy (JS.trim (transcript cl))) then
    (setError "No transcript available for summary" st, None)
  else
    match r with
    | http_ok text => (addLog ts "Call summary generated" (setCallSummary text st),
                       Some text)
    | _ => (setError "Failed to generate summary" st, Some EmptyString)
    end.

(** The caller name both [initiateTransfer] and [completeTransfer] send:
    [userRole === "caller" ? userName
     : (latestCall?.caller_name || callerInfo.name || "Unknown")]. *)
Definition callerNameFor (form : Form) (cl : State) : string :=
  match userRole cl with
  | caller => userName cl
  | _ =>
      js_or (match latestCall cl with
             | Some lc => latest_caller_name lc
             | None => EmptyString
             end)
        (js_or (info_name (callerInfo form)) "Unknown")
  end.

(** [connectToBriefingRoom(transferSession)]. *)
Definition connectToBriefingRoom (cl : State) (ts : string) (lk : LiveKit)
    (transferSession : TransferSession) (st : State) : State :=
  let failed (s : State) : State := setError "Failed to connect to briefing room" s in
  let briefingRoom := {| name := transfer_room transferSession |} in
  let joined (s : State) : State :=
    addLog ts "Connected to briefing room" (setRooms briefingRoom s) in
  match connectAndPublish cl ts lk briefingRoom None st with
  | inl thrown => failed thrown
  | inr st1 =>
      match room cl with
      | Some _ =>
          match disconnect_outcome lk with
          | disconnect_throws => failed st1
          | disconnect_done emits =>
              joined (if emits then onDisconnected ts st1 else st1)
          end
      | None => joined st1
      end
  end.

(** Whether [initiateTransfer] calls [generateSummary]:
    [!summary && transcript.trim()]. *)
Definition needsSummary (cl : State) : bool :=
  negb (JS.truthy (callSummary cl)) && JS.truthy (JS.trim (transcript cl)).

(** The summary [initiateTransfer] ends up with, which it sends nowhere. *)
Definition localSummary (cl : State) (returned : option string) : string :=
  if needsSummary cl then
    js_or (match returned with Some text => text | None => EmptyString end)
      "No summary available"
  else callSummary cl.

(** [initiateTransfer] of the page: [now] is [Date.now()], [summarized] the
    answer to [generateSummary] when it is called, [r] the answer to
    [POST /transfer]. *)
Definition initiateTransfer (form : Form) (now : N) (ts : string)
    (summarized : Response string) (r : Response TransferSession) (lk : LiveKit)
    (st : State) : State * list Fetch :=
  let failed (message : string) (s : State) : State :=
    setTransferStep idle (setIsTransferring false (setError message s)) in
  match currentCallSession st with
  | None => (setError "Invalid transfer parameters" st, [])
  | Some callSession =>
      if negb (JS.truthy (JS.trim (agentBName form))) then
        (setError "Invalid transfer parameters" st, [])
      else
        let st1 :=
          setError EmptyString (setTransferStep briefing (setIsTransferring true st)) in
        let '(st2, asked) :=
          if needsSummary st then
            (fst (generateSummary st ts summarized st1), generateSummary_request form st)
          else (st1, []) in
        let request :=
          POST_transfer (room_name callSession) (transferRoomName now) "agent_a"
            (agentBName form) (transcript st) (callerNameFor form st) in
        (match r with
         | http_ok transferSession =>
             let st3 :=
               addLog ts "Transfer initiated, briefing phase started"
                 (setAgentScript (agent_script transferSession)
                    (setCurrentTransfer (Some transferSession) st2)) in
             setShowTransferModal true
               (match userRole st with
                | agent_a => connectToBriefingRoom st ts lk transferSession st3
                | _ => st3
                end)
         | http_error _ => failed "Failed to initiate transfer" st2
         | network_error message => failed message st2
         end,
         asked ++ [request])
  end.

(** [completeTransfer] of the page up to its request. *)
Definition completeTransfer_begin (form : Form) (st : State) : State * list Fetch :=
  match currentTransfer st, currentCallSession st with
  | Some t, Some callSession =>
      (setTransferStep completing st,
       [POST_transfer_complete (transfer_id t) (room_name callSession)
          (callerNameFor form st) (agentBName form)])
  | _, _ => (setError "No active transfer to complete" st, [])
  end.

(** [completeTransfer] once the request has settled. For Agent A the
    function also starts the two-second timer of [completeTransfer_timeout]. *)
Definition completeTransfer_settled (cl : State) (ts : string)
    (r : Response CompletedTransfer) (lk : LiveKit) (st : State) : State :=
  match r with
  | http_ok result =>
      let st1 :=
        addLog ts "Transfer completed successfully" (setTransferStep completed st) in
      setIsTransferring false
        (setShowTransferModal false
           (match userRole cl with
            | caller =>
                connectToFinalRoom cl ts lk (result_caller_token result)
                  (result_final_room result) st1
            | _ => st1
            end))
  | _ => setTransferStep briefing (setError "Failed to complete transfer" st)
  end.

(** Whether nothing stops [connectToFinalRoom]: a transfer in the closure,
    a connection, a published track when there is one to publish, and a
    previous room, when there is one, that disconnects. *)
Definition reachesFinalRoom (cl : State) (lk : LiveKit) : bool :=
  match currentTransfer cl with Some _ => true | None => false end
  && connect_ok lk
  && match localAudioTrack cl with Some _ => publish_ok lk | None => true end
  && match room cl, disconnect_outcome lk with
     | Some _, disconnect_throws => false
     | _, _ => true
     end.

(** Whether the previous room of the closure emits [Disconnected] when the
    page leaves it. *)
Definition leavesWithEvent (cl : State) (lk : LiveKit) : bool :=
  match room cl, disconnect_outcome lk with
  | Some _, disconnect_done true => true
  | _, _ => false
  end.

(** The callback of the timer, [disconnectCall(); addLog(...)], with [cl]
    the render of its closure: [disconnectCall()] is not awaited, so that
    with a room in the closure the log line of the callback is added as
    soon as [room.disconnect()] has been called, before everything
    [disconnectCall] does after the [await] (nothing, when the
    disconnection rejects); without a room it comes last. *)
Definition completeTransfer_timeout (cl : State) (ts : string)
    (o : DisconnectOutcome) (st : State) : State :=
  let reset (s : State) : State :=
    addLog ts "Disconnected from call"
      (setAgentScript EmptyString
         (setCallSummary EmptyString
            (setTranscript EmptyString
               (setShowTransferModal false
                  (setIsTransferring false
                     (setTransferStep idle
                        (setCurrentTransfer None
                           (setCurrentCallSession None
                              (setParticipants [] (setIsConnected false s)))))))))) in
  match room cl with
  | Some _ =>
      let st1 := addLog ts "Agent A disconnected after transfer" st in
      match o with
      | disconnect_throws => st1
      | disconnect_done emits =>
          reset (setRoomRef None
                   (setRoom None (if emits then onDisconnected ts st1 else st1)))
      end
  | None => addLog ts "Agent A disconnected after transfer" (reset st)
  end.

(** *** The transcript *)

(** A data message after [JSON.parse]. *)
Record DataMessage : Type := { message_type : string; message_text : string }.

(** The handler of [RoomEvent.DataReceived]: [None] when decoding or
    parsing throws. *)
Definition onDataReceived (ts : string) (data : option DataMessage)
    (participant : option Participant) (st : State) : State :=
  match data with
  | Some message =>
      if String.eqb (message_type message) "transcript_update" then
        addLog ts ("Transcript update from "
                   ^^ js_or (match participant with
                             | Some p => identity p
                             | None => EmptyString
                             end) "unknown")
          (setTranscript (transcript st ^^ " " ^^ message_text message) st)
      else st
  | None => st
  end.

Definition sampleText : string :=
  "Customer called about billing issue with their account. They mentioned charges they don't recognize from last month. I explained the billing cycle and helped them identify the charges. They seem satisfied with the explanation but want to speak to a supervisor about a potential refund.".

Definition addSampleTranscript (ts : string) (st : State) : State :=
  addLog ts "Sample transcript added"
    (setTranscript (transcript st ^^ " " ^^ sampleText) st).

(** The data messages a room delivers in a row: for each one the time of
    the log line, the parsed payload and the sender. *)
Definition received
    (messages : list (string * option DataMessage * option Participant))
    (st : State) : State :=
  fold_left (fun s '(ts, data, participant) => onDataReceived ts data participant s)
    messages st.

(** What a row of data messages says: the texts of the transcript updates
    among them, each after a space. *)
Fixpoint spoken
    (messages : list (string * option DataMessage * option Participant)) : string :=
  match messages with
  | [] => EmptyString
  | (_, Some message, _) :: rest =>
      if String.eqb (message_type message) "transcript_update"
      then " " ^^ message_text message ^^ spoken rest
      else spoken rest
  | (_, None, _) :: rest => spoken rest
  end.

(** *** What the page shows *)

(** The excerpt shown for an active transfer,
    [summary ? summary.substring(0, 100) + "..." : "No summary available"],
    as the code units of the text shown: the cut falls between two code
    units, which may be the two surrogates of one character. *)
Definition summaryExcerpt (text : string) : list N :=
  if JS.truthy text then JS.substring_to 100 text ++ JS.units "..."
  else JS.units "No summary available".

(** The width of the progress bar, in per cent. *)
Definition progressWidth (step : TransferStep) : nat :=
  match step with
  | briefing => 33
  | completing => 66
  | completed => 100
  | idle => 0
  end.

(** Which of the two connection buttons is shown. *)
Definition showsEndCall (st : State) : bool := isConnected st.

(** The "Complete Transfer" button of the transfer dialog. *)
Definition showsCompleteTransfer (st : State) : bool :=
  showTransferModal st
  && match currentTransfer st with Some _ => true | None => false end
  && UserRole_eqb (userRole st) agent_a
  && match transferStep st with briefing => true | _ => false end.

(** *** Agent B: polling for active transfers *)

(** The condition of the effect that polls [/transfers/active]; its
    dependencies are those of the latest-call effect. *)
Definition activeTransfersWanted (st : State) : bool :=
  UserRole_eqb (userRole st) agent_b && negb (isConnected st).

Definition activeTransfersEffect (st : State) : bool * list Fetch :=
  if activeTransfersWanted st then (true, [GET_transfers_active]) else (false, []).

(** The page with its third effect and the cell it fills. *)
Record Page : Type := {
  runtime : Runtime;
  activeTransfers : list ActiveTransfer;
  activeTransfersInterval : bool
}.

Definition mountPage : Page * list Request * list Fetch :=
  ({| runtime := fst mount; activeTransfers := [];
      activeTransfersInterval := fst (activeTransfersEffect initialState) |},
   snd mount, snd (activeTransfersEffect initialState)).

(** [fetchActiveTransfers] once its request has settled: [None] stands for
    a body without [active_transfers]. *)
Definition fetchActiveTransfers_settled (ts : string)
    (r : Response (option (list ActiveTransfer))) (p : Page)
    : list ActiveTransfer * State :=
  match r with
  | http_ok data =>
      let found := match data with Some l => l | None => [] end in
      (found,
       addLog ts ("Found " ^^ decimal (N.of_nat (List.length found))
                  ^^ " active transfers") (state (runtime p)))
  | _ => (activeTransfers p,
          setError "Failed to fetch active transfers" (state (runtime p)))
  end.

Inductive PageEvent : Type :=
| OfRuntime (ev : Event)
| ActiveTransfersTick
| ActiveTransfersSettled (ts : string) (r : Response (option (list ActiveTransfer))).

(** The third effect at a render from [old] to [next]. *)
Definition commitActiveTransfers (armed : bool) (old next : State)
    : bool * list Fetch :=
  if latestCallDepsChanged old next then activeTransfersEffect next
  else (armed, []).

Definition stepPage (p : Page) (ev : PageEvent) : Page * list Request * list Fetch :=
  match ev with
  | OfRuntime e =>
      let '(rt, sent) := step (runtime p) e in
      let '(armed, polled) :=
        commitActiveTransfers (activeTransfersInterval p) (state (runtime p))
          (state rt) in
      ({| runtime := rt; activeTransfers := activeTransfers p;
          activeTransfersInterval := armed |}, sent, polled)
  | ActiveTransfersTick =>
      (p, [], if activeTransfersInterval p then [GET_transfers_active] else [])
  | ActiveTransfersSettled ts r =>
      let '(found, next) := fetchActiveTransfers_settled ts r p in
      let '(rt, sent) := commit (runtime p) next in
      let '(armed, polled) :=
        commitActiveTransfers (activeTransfersInterval p) (state (runtime p)) next in
      ({| runtime := rt; activeTransfers := found;
          activeTransfersInterval := armed |}, sent, polled)
  end.

Fixpoint runPage (p : Page) (evs : list PageEvent) : Page :=
  match evs with
  | [] => p
  | ev :: evs' => runPage (fst (fst (stepPage p ev))) evs'
  end.

Definition pageAfter (evs : list PageEvent) : Page :=
  runPage (fst (fst mountPage)) evs.

(** Every effect agrees with its condition on the rendered state, and the
    closure of the status interval agrees with the state on the three
    dependencies of its effect. *)
Definition effects_synced (p : Page) : Prop :=
  latestCallInterval (runtime p) = latestCallWanted (state (runtime p))
  /\ activeTransfersInterval p = activeTransfersWanted (state (runtime p))
  /\ match callerStatusInterval (runtime p) with
     | Some cl =>
         callerStatusWanted (state (runtime p)) = true
         /\ userRole cl = userRole (state (runtime p))
         /\ isConnected cl = isConnected (state (runtime p))
         /\ userName cl = userName (state (runtime p))
     | None => callerStatusWanted (state (runtime p)) = false
     end.

(** The part of [effects_synced] that concerns the status interval. *)
Definition caller_synced (interval : option State) (st : State) : Prop :=
  match interval with
  | Some cl =>
      callerStatusWanted st = true
      /\ userRole cl = userRole st
      /\ isConnected cl = isConnected st
      /\ userName cl = userName st
  | None => callerStatusWanted st = false
  end.

(** The handlers that set the room keep [roomRef] and the room state
    equal. *)
Definition rooms_agree (st : State) : Prop := roomRef st = room st.

(** The bound of the activity log. *)
Definition log_bounded (st : State) : Prop := (List.length (logs st) <= 10)%nat.

(** Both invariants at once: the room agrees with [roomRef], and the log
    has ten entries at most. *)
Definition kept (st : State) : Prop := rooms_agree st /\ log_bounded st.

(** *** Every handler, one run after another *)

(** A run of one handler of the page with the answers it gets, or of one
    step of a handler that waits in between; [cl] is the render of the
    closure where the handler reads one. *)
Inductive Action : Type :=
| SetUserRole (r : UserRole)
| SetUserName (text : string)
| SetTranscript (text : string)
| CloseTransferModal
| RoomConnected (ts : string) (r : Room) (remotes : list Participant)
| RoomDisconnected (ts : string)
| ParticipantConnected (ts : string) (p : Participant)
| ParticipantDisconnected (ts : string) (p : Participant)
| DataReceived (ts : string) (data : option DataMessage) (p : option Participant)
| LatestCallFetched (ts : string) (r : Response LatestCall)
| StatusPollBegun (cl : State) (ts : string)
| StatusPollSettled (cl : State) (ts : string) (r : Response CallerTransferStatus)
    (lk : LiveKit)
| StartCallBegun
| StartCallSettled (ts : string) (r : Response CallSession) (lk : LiveKit)
| StartCallJoined (cl : State) (ts : string) (callSession : CallSession)
    (lk : LiveKit)
| AutoJoinLatestCall (ts : string) (r : Response TokenData) (lk : LiveKit)
| JoinExistingRoom (form : Form) (now : N) (ts : string) (r : Response TokenData)
    (lk : LiveKit)
| JoinActiveTransfer (transferId ts : string) (details : Response TransferSession)
    (r : Response TokenData) (lk : LiveKit)
| JoinAsAgentB (cl : State) (ts : string) (lk : LiveKit)
| GenerateSummary (cl : State) (ts : string) (r : Response string)
| InitiateTransfer (form : Form) (now : N) (ts : string)
    (summarized : Response string) (r : Response TransferSession) (lk : LiveKit)
| CompleteTransferBegun (form : Form)
| CompleteTransferSettled (cl : State) (ts : string)
    (r : Response CompletedTransfer) (lk : LiveKit)
| CompleteTransferTimeout (cl : State) (ts : string) (o : DisconnectOutcome)
| DisconnectCall (ts : string) (o : DisconnectOutcome)
| AddSampleTranscript (ts : string)
| InitAudio (ts : string) (created : option LocalAudioTrack).

(** The state after an action; a handler stopped by a rejected
    [room.disconnect()] has changed nothing by then. *)
Definition perform (st : State) (a : Action) : State :=
  match a with
  | SetUserRole r => setUserRole r st
  | SetUserName text => setUserName text st
  | SetTranscript text => setTranscript text st
  | CloseTransferModal => setShowTransferModal false st
  | RoomConnected ts r remotes => onConnected ts r remotes st
  | RoomDisconnected ts => onDisconnected ts st
  | ParticipantConnected ts p => onParticipantConnected ts p st
  | ParticipantDisconnected ts p => onParticipantDisconnected ts p st
  | DataReceived ts data p => onDataReceived ts data p st
  | LatestCallFetched ts r => fetchLatestCall_settled ts r st
  | StatusPollBegun cl ts => fst (checkCallerTransferStatus_begin cl ts st)
  | StatusPollSettled cl ts r lk => checkCallerTransferStatus_settled cl ts r lk st
  | StartCallBegun => fst (startCall_begin st)
  | StartCallSettled ts r lk => startCall_settled ts r lk st
  | StartCallJoined cl ts callSession lk => startCall_joined cl ts callSession lk st
  | AutoJoinLatestCall ts r lk => fst (autoJoinLatestCall ts r lk st)
  | JoinExistingRoom form now ts r lk => fst (joinExistingRoom form now ts r lk st)
  | JoinActiveTransfer transferId ts details r lk =>
      fst (joinActiveTransfer transferId ts details r lk st)
  | JoinAsAgentB cl ts lk => joinAsAgentB cl ts lk st
  | GenerateSummary cl ts r => fst (generateSummary cl ts r st)
  | InitiateTransfer form now ts summarized r lk =>
      fst (initiateTransfer form now ts summarized r lk st)
  | CompleteTransferBegun form => fst (completeTransfer_begin form st)
  | CompleteTransferSettled cl ts r lk => completeTransfer_settled cl ts r lk st
  | CompleteTransferTimeout cl ts o => completeTransfer_timeout cl ts o st
  | DisconnectCall ts o =>
      match disconnectCall ts o st with
      | Some st' => st'
      | None => st
      end
  | AddSampleTranscript ts => addSampleTranscript ts st
  | InitAudio ts created => initAudio ts created st
  end.

Definition performAll (actions : list Action) (st : State) : State :=
  fold_left perform actions st.

(** The cells of the transfer that the handlers running inside
    [initiateTransfer] leave alone. *)
Definition same_transfer_cells (st st' : State) : Prop :=
  currentTransfer st' = currentTransfer st
  /\ agentScript st' = agentScript st
  /\ isTransferring st' = isTransferring st
  /\ transferStep st' = transferStep st
  /\ showTransferModal st' = showTransferModal st.

End PageActions.

(** ** Agent A on the call of the caller scenario *)

Module AgentScenario.

Import WarmTransferPage PageActions.

Definition form : Form :=
  {| callerInfo := {| info_name := EmptyString; info_phone := EmptyString;
                      info_issue := EmptyString |};
     agentBName := "bob";
     roomNameToJoin := EmptyString |}.

Definition onCall : State :=
  setTranscript "billing issue" (setUserRole agent_a CallerScenario.joined).

Definition transfer : TransferSession :=
  {| transfer_id := "t1"; agentA_transfer_token := "a"; agentB_token := "b";
     transfer_caller_token := "c"; transfer_room := "transfer_1700000000000";
     transfer_livekit_url := "ws://localhost:7880"; summary := "billing";
     agent_script := "script"; transfer_status := "briefing" |}.

Definition briefing : State := setCurrentTransfer (Some transfer) onCall.

(** Agent A from the first render to the briefing room: the role is
    picked and the name typed, the poll finds the call of Jane, the page
    joins its room, the transcript is typed and the transfer is
    initiated; the page moves to the briefing room and leaves the room
    of the call, which emits [Disconnected]. *)
Definition latest : LatestCall :=
  {| latest_call_id := "c1"; latest_caller_name := "Jane";
     latest_room_name := "call_1" |}.

Definition picked : State := setUserName "Ann" (setUserRole agent_a initialState).

Definition found : State := fetchLatestCall_settled "10:00:00" (http_ok latest) picked.

Definition inCall : State :=
  fst (autoJoinLatestCall "10:00:01"
         (http_ok {| token := "agent-a-token"; url := "ws://localhost:7880" |})
         CallerScenario.liveKit found).

Definition noted : State := setTranscript "billing issue" inCall.

Definition inBriefing : State :=
  fst (initiateTransfer form 1700000000000 "10:01:00" (http_ok "Billing issue.")
         (http_ok transfer) CallerScenario.liveKit noted).

(** The renders of that page and the ticks of the latest-call interval:
    one tick in the room of the call, one in the briefing room. *)
Definition inTheCall : list Event :=
  [ Render picked; LatestCallSettled "10:00:00" (http_ok latest); Render inCall;
    LatestCallTick; Render noted ].

Definition events : list Event := inTheCall ++ [ Render inBriefing; LatestCallTick ].

End AgentScenario.

(** * Properties *)

(** ** The room page *)

Module HomeFacts.

Import Home.

Lemma includes_In (x : string) (l : list string) :
  JS.includes x l = true <-> In x l.
Proof.
  unfold JS.includes. rewrite existsb_exists. split.
  - intros [y [Hin Heq]]. apply String.eqb_eq in Heq. now subst.
  - intros Hin. exists x. split; [assumption | apply String.eqb_refl].
Qed.











End HomeFacts.

(** ** The warm-transfer page *)

Module WarmTransferPageFacts.

Import WarmTransferPage.

(** *** The activity log *)

Lemma slice_last (A : Type) (n : nat) (l : list A) :
  (0 < n)%nat ->
  JS.slice (- Z.of_nat n) l = skipn (List.length l - n) l.
Proof.
  intros Hn. unfold JS.slice.
  destruct (Z.ltb_spec (- Z.of_nat n) 0) as [_ | Hge]; [| lia].
  f_equal. lia.
Qed.

Lemma logs_addLog (ts message : string) (st : State) :
  logs (addLog ts message st)
  = skipn (List.length (logs st) - 9) (logs st) ++ [entry ts message].
Proof.
  unfold addLog. simpl. now rewrite (slice_last _ 9) by lia.
Qed.

Lemma length_logs_addLog (ts message : string) (st : State) :
  (List.length (logs (addLog ts message st)) <= 10)%nat.
Proof.
  rewrite logs_addLog, length_app, length_skipn. simpl. lia.
Qed.

Lemma length_logs_addLogs (messages : list (string * string)) :
  forall st,
    (List.length (logs st) <= 10)%nat ->
    (List.length (logs (addLogs messages st)) <= 10)%nat.
Proof.
  unfold addLogs. induction messages as [| m messages IH]; intros st Hst; simpl.
  - assumption.
  - apply IH, length_logs_addLog.
Qed.

(** C8: [addLog] keeps the last 9 entries at most, in their order, and
    appends the new entry, so that the list never exceeds 10 entries
    however many messages are added. *)
Theorem addLog_bounded (ts message : string) (st : State) :
  (exists dropped kept,
      logs st = dropped ++ kept
      /\ List.length kept = Nat.min 9 (List.length (logs st))
      /\ logs (addLog ts message st) = kept ++ [entry ts message])
  /\ (List.length (logs (addLog ts message st)) <= 10)%nat
  /\ (forall messages,
         (List.length (logs (addLogs messages (addLog ts message st))) <= 10)%nat)
  /\ (forall messages,
         (List.length (logs (addLogs messages initialState)) <= 10)%nat).
Proof.
  split; [| split; [| split]].
  - exists (firstn (List.length (logs st) - 9) (logs st)),
           (skipn (List.length (logs st) - 9) (logs st)).
    split; [now rewrite firstn_skipn |].
    split; [rewrite length_skipn; lia | apply logs_addLog].
  - apply length_logs_addLog.
  - intros messages. apply length_logs_addLogs, length_logs_addLog.
  - intros messages. apply length_logs_addLogs. simpl. lia.
Qed.

(** *** Leaving a call *)

(** C10: when [disconnectCall] completes, the room is null (and so is
    [roomRef], which every handler sets along with the room),
    [isConnected] is false, the participants list is empty, the call
    session and the transfer are null, the transfer step is idle, the
    transfer flags are false, and transcript, summary and script are
    empty. *)
Theorem disconnectCall_resets (ts : string) (o : DisconnectOutcome)
    (st st' : State) :
  disconnectCall ts o st = Some st' ->
  room st' = None
  /\ (roomRef st = room st -> roomRef st' = None)
  /\ isConnected st' = false
  /\ participants st' = []
  /\ currentCallSession st' = None
  /\ currentTransfer st' = None
  /\ transferStep st' = idle
  /\ isTransferring st' = false
  /\ showTransferModal st' = false
  /\ transcript st' = EmptyString
  /\ callSummary st' = EmptyString
  /\ agentScript st' = EmptyString.
Proof.
  unfold disconnectCall. intros H.
  destruct (room st) as [r |] eqn:Hroom.
  - destruct o as [| emits]; [discriminate |].
    injection H as <-. destruct emits; simpl; repeat split; reflexivity.
  - injection H as <-. simpl. repeat split; try reflexivity; try assumption.
    intros Href. congruence.
Qed.

Lemma disconnectCall_resets_witness :
  exists st',
    disconnectCall "10:05:00" (disconnect_done true) CallerScenario.joined = Some st'
    /\ room st' = None /\ isConnected st' = false /\ participants st' = []
    /\ currentCallSession st' = None /\ transcript st' = EmptyString.
Proof.
  eexists. split; [reflexivity |].
  pose proof (disconnectCall_resets "10:05:00" (disconnect_done true)
                CallerScenario.joined _ eq_refl) as H.
  intuition.
Defined.

(** [disconnectCall] completes unless [room.disconnect()] rejects. *)
Lemma disconnectCall_completes (ts : string) (emits : bool) (st : State) :
  exists st', disconnectCall ts (disconnect_done emits) st = Some st'.
Proof.
  unfold disconnectCall. destruct (room st); eexists; reflexivity.
Qed.

(** *** Agent A: the name of the briefing room *)

(** X22: the name sent as [new_room] tells the clock readings apart, and
    nothing else: two transfers initiated in the same millisecond send the
    same name, so its uniqueness is left to the registry that allocates
    the room. *)
Lemma transferRoomName_injective (a b : N) :
  transferRoomName a = transferRoomName b <-> a = b.
Proof.
  split; [| now intros ->].
  unfold transferRoomName. simpl. intros H. injection H as H.
  apply (f_equal NilEmpty.uint_of_string) in H.
  rewrite !NilEmpty.usu in H. injection H as H.
  apply (f_equal N.of_uint) in H.
  now rewrite !DecimalN.Unsigned.of_to in H.
Qed.

(** *** Agent A: polling for the latest call *)

Lemma UserRole_eqb_eq (a b : UserRole) : UserRole_eqb a b = true <-> a = b.
Proof. destruct a, b; simpl; split; congruence. Qed.

Lemma latestCallWanted_deps (old next : State) :
  latestCallDepsChanged old next = false ->
  latestCallWanted next = latestCallWanted old.
Proof.
  unfold latestCallDepsChanged, latestCallWanted.
  rewrite negb_false_iff, andb_true_iff, UserRole_eqb_eq, Bool.eqb_true_iff.
  intros [-> ->]. reflexivity.
Qed.

Lemma commit_synced (rt : Runtime) (next : State) :
  latestCall_synced rt -> latestCall_synced (fst (commit rt next)).
Proof.
  unfold latestCall_synced, commit. intros Hrt. simpl.
  destruct (latestCallDepsChanged (state rt) next) eqn:Hdeps.
  - unfold latestCallEffect. now destruct (latestCallWanted next).
  - simpl. now rewrite (latestCallWanted_deps _ _ Hdeps).
Qed.

Lemma commit_state (rt : Runtime) (next : State) :
  state (fst (commit rt next)) = next.
Proof. reflexivity. Qed.

(** A render sends a latest-call poll only into a state in which Agent A
    is not connected. *)
Lemma commit_polls (rt : Runtime) (next : State) (q : Request) :
  In q (snd (commit rt next)) ->
  q = GET_calls_latest /\ latestCallWanted next = true.
Proof.
  unfold commit. simpl.
  destruct (latestCallDepsChanged (state rt) next); [| intros []].
  unfold latestCallEffect.
  destruct (latestCallWanted next); simpl; [| intros []].
  intros [<- | []]. now split.
Qed.

Lemma latestCallWanted_connected (st : State) :
  isConnected st = true -> latestCallWanted st = false.
Proof.
  unfold latestCallWanted. intros ->. now rewrite andb_false_r.
Qed.

Lemma step_synced (rt : Runtime) (ev : Event) :
  latestCall_synced rt -> latestCall_synced (fst (step rt ev)).
Proof.
  intros Hrt.
  destruct ev as [next | | ts r | ts | ts i r lk]; cbv beta iota delta [step].
  - now apply commit_synced.
  - now destruct (latestCallInterval rt).
  - now apply commit_synced.
  - destruct (callerStatusInterval rt) as [cl |]; [| assumption].
    destruct (checkCallerTransferStatus_begin cl ts (state rt)) as [st1 sent].
    pose proof (commit_synced rt st1 Hrt) as H.
    destruct (commit rt st1) as [rt1 polled]. exact H.
  - destruct (nth_error (callerStatusInFlight rt) i) as [cl |]; [| assumption].
    now apply commit_synced.
Qed.

(** A tick of the status interval sends status polls only. *)
Lemma checkCallerTransferStatus_begin_sent (cl : State) (ts : string)
    (st : State) (q : Request) :
  In q (snd (checkCallerTransferStatus_begin cl ts st)) ->
  q = GET_caller_transfer_status (userName cl).
Proof.
  unfold checkCallerTransferStatus_begin.
  destruct (negb (JS.truthy (JS.trim (userName cl)))); simpl; [intros [] |].
  intros [<- | []]. reflexivity.
Qed.

Lemma run_synced (evs : list Event) :
  forall rt sent,
    latestCall_synced rt -> latestCall_synced (fst (run rt sent evs)).
Proof.
  induction evs as [| ev evs IH]; intros rt sent Hrt; simpl.
  - assumption.
  - pose proof (step_synced rt ev Hrt) as H.
    destruct (step rt ev) as [rt1 reqs]. now apply IH.
Qed.

Lemma after_synced (evs : list Event) : latestCall_synced (after evs).
Proof. unfold after. apply run_synced. reflexivity. Qed.

(** The latest-call polls among the requests of one step. *)
Lemma step_polls (rt : Runtime) (ev : Event) :
  latestCall_synced rt ->
  In GET_calls_latest (snd (step rt ev)) ->
  latestCallWanted (state (fst (step rt ev))) = true.
Proof.
  intros Hrt.
  destruct ev as [next | | ts r | ts | ts i r lk]; cbv beta iota delta [step].
  - intros Hin. now apply commit_polls in Hin.
  - destruct (latestCallInterval rt) eqn:Harmed; simpl; [| intros []].
    intros _. now rewrite <- Hrt.
  - intros Hin. now apply commit_polls in Hin.
  - destruct (callerStatusInterval rt) as [cl |]; [| intros []].
    pose proof (checkCallerTransferStatus_begin_sent cl ts (state rt)) as Hsent.
    destruct (checkCallerTransferStatus_begin cl ts (state rt)) as [st1 sent].
    pose proof (commit_polls rt st1) as H.
    pose proof (commit_state rt st1) as Hs.
    destruct (commit rt st1) as [rt1 polled]. simpl in *.
    intros Hin. apply in_app_or in Hin. destruct Hin as [Hin | Hin].
    + apply Hsent in Hin. discriminate.
    + rewrite Hs. now apply H in Hin.
  - destruct (nth_error (callerStatusInFlight rt) i) as [cl |]; [| intros []].
    intros Hin. now apply commit_polls in Hin.
Qed.

(** Where the latest-call interval works as meant: in every state the
    page can reach it is armed exactly when the role is Agent A and
    [isConnected] is false, and no step that leaves [isConnected] true
    sends the poll. *)
Lemma latest_call_interval_flag (evs : list Event) (ev : Event) :
  let rt := after evs in
  latestCallInterval rt
    = UserRole_eqb (userRole (state rt)) agent_a && negb (isConnected (state rt))
  /\ (isConnected (state (fst (step rt ev))) = true ->
      ~ In GET_calls_latest (snd (step rt ev))).
Proof.
  intros rt. pose proof (after_synced evs) as Hrt. fold rt in Hrt.
  split; [exact Hrt |].
  intros Hconn Hin. apply (step_polls rt ev Hrt) in Hin.
  rewrite (latestCallWanted_connected _ Hconn) in Hin. discriminate.
Qed.

(** C7, on the page of Agent A: in the room of the call the polling has
    stopped, one poll has been sent in all and the tick sends nothing.
    Once the transfer is initiated the page is in the briefing room, but
    leaving the room of the call has set [isConnected] back to false
    after the briefing room had set it: the interval is armed again, the
    render polls at once and the tick polls again. *)
Theorem agent_a_polls_in_briefing_room :
  let '(rt0, sent0) := run (fst mount) (snd mount) AgentScenario.inTheCall in
  let '(rt, sent) := run (fst mount) (snd mount) AgentScenario.events in
  (room (state rt0) = Some {| name := "call_1" |}
   /\ isConnected (state rt0) = true
   /\ latestCallInterval rt0 = false
   /\ sent0 = [ GET_calls_latest ])
  /\ userRole (state rt) = agent_a
  /\ room (state rt) = Some {| name := "transfer_1700000000000" |}
  /\ roomRef (state rt) = Some {| name := "transfer_1700000000000" |}
  /\ currentTransfer (state rt) = Some AgentScenario.transfer
  /\ error (state rt) = EmptyString
  /\ isConnected (state rt) = false
  /\ latestCallInterval rt = true
  /\ sent = [ GET_calls_latest; GET_calls_latest; GET_calls_latest ].
Proof. vm_compute. repeat split; reflexivity. Qed.

(** Agent A picks the role, polls twice, then connects: two polls from the
    interval follow the immediate one, and the ticks after the connection
    send nothing. *)
Example agent_a_polling_run :
  let agent := setUserRole agent_a initialState in
  let inCall := setIsConnected true agent in
  snd (run (fst mount) (snd mount)
         [ Render agent; LatestCallTick; LatestCallTick; Render inCall;
           LatestCallTick; LatestCallTick ])
  = [ GET_calls_latest; GET_calls_latest; GET_calls_latest ].
Proof. reflexivity. Qed.

(** *** The caller: polling for the completed transfer *)

(** With no transfer in the render of its closure, [connectToFinalRoom]
    ends in its [catch] block: the page stays in its room. *)
Lemma connectToFinalRoom_without_transfer (cl : State) (ts : string)
    (lk : LiveKit) (token roomName : string) (st : State) :
  currentTransfer cl = None ->
  let st' := connectToFinalRoom cl ts lk token roomName st in
  room st' = room st /\ roomRef st' = roomRef st
  /\ isConnected st' = isConnected st
  /\ userRole st' = userRole st /\ userName st' = userName st
  /\ error st' = "Failed to connect to final room".
Proof.
  intros Hcl. unfold connectToFinalRoom. rewrite Hcl. simpl.
  repeat split; reflexivity.
Qed.

(** C6, on the page of a caller whose transfer Agent A completed from
    another browser: the first poll that reports the completed transfer
    does not move the caller, who stays in the room of the call with the
    interval armed, and the next tick polls again. *)
Theorem caller_poll_does_not_move_caller :
  let '(rt, sent) := run (fst mount) (snd mount) CallerScenario.events in
  userRole (state rt) = caller
  /\ isConnected (state rt) = true
  /\ currentTransfer (state rt) = None
  /\ room (state rt) = Some {| name := "call_1" |}
  /\ error (state rt) = "Failed to connect to final room"
  /\ callerStatusInterval rt = Some CallerScenario.connected
  /\ sent = [ GET_caller_transfer_status "Jane"; GET_caller_transfer_status "Jane" ].
Proof. vm_compute. repeat split; reflexivity. Qed.

End WarmTransferPageFacts.
(** ** The orchestration core *)

Module OrchestrationFacts.

Import Orchestration.

Section Registries.

Context {services : Services}.

(** *** Updates keep everything but the status *)

Lemma map_room_name_update_call (roomName : string) (st : CallStatus)
    (l : list CallSession) :
  map room_name (update_call roomName st l) = map room_name l.
Proof.
  induction l as [| c l IH]; simpl; [reflexivity |].
  destruct (String.eqb (room_name c) roomName); simpl; congruence.
Qed.



Lemma find_update_transfer (transferId : string) (st : TransferStatus)
    (l : list TransferSession) (t : TransferSession) :
  find (fun x => String.eqb (transfer_id x) transferId) l = Some t ->
  find (fun x => String.eqb (transfer_id x) transferId)
    (update_transfer transferId st l) = Some (set_transfer_status st t).
Proof.
  induction l as [| x l IH]; simpl; [discriminate |].
  destruct (String.eqb (transfer_id x) transferId) eqn:Hx; simpl.
  - intros [= ->]. now rewrite Hx.
  - rewrite Hx. exact IH.
Qed.

(** The session replaced by an update is the one [find] returns; every
    other session stays. *)
Lemma In_update_transfer (transferId : string) (st : TransferStatus)
    (l : list TransferSession) (t x : TransferSession) :
  find (fun y => String.eqb (transfer_id y) transferId) l = Some t ->
  In x l -> x <> t -> In x (update_transfer transferId st l).
Proof.
  induction l as [| y l IH]; simpl; [discriminate |].
  destruct (String.eqb (transfer_id y) transferId) eqn:Hy.
  - intros [= ->] [-> | Hin] Hneq; [congruence | now right].
  - intros Hfind [-> | Hin] Hneq; [now left | right; now apply IH].
Qed.


(** *** Completing a transfer *)

Lemma completeTransfer_completed (now : nat)
    (transferId originalRoom callerName agentB : string) (s : Registry)
    (t : TransferSession) (finalRoom : string) (credential : Credential) :
  find_transfer transferId s = Some t ->
  original_room t = originalRoom ->
  transfer_status t = transfer_completed finalRoom credential ->
  completeTransfer now transferId originalRoom callerName agentB s
  = (s, Ok (finalRoom, credential)).
Proof.
  intros Hfind Hroom Hstatus. unfold completeTransfer.
  rewrite Hfind, Hroom, String.eqb_refl, Hstatus. reflexivity.
Qed.

Lemma completeTransfer_stores (now : nat)
    (transferId originalRoom callerName agentB : string) (s s' : Registry)
    (r : string * Credential) :
  completeTransfer now transferId originalRoom callerName agentB s = (s', Ok r) ->
  exists t,
    find_transfer transferId s' = Some t
    /\ original_room t = originalRoom
    /\ transfer_status t = transfer_completed (fst r) (snd r).
Proof.
  unfold completeTransfer.
  destruct (find_transfer transferId s) as [t |] eqn:Hfind; [| discriminate].
  destruct (String.eqb (original_room t) originalRoom) eqn:Hroom;
    simpl; [| discriminate].
  apply String.eqb_eq in Hroom.
  destruct (transfer_status t) as [| finalRoom credential] eqn:Hstatus.
  - intros [= <- <-]. eexists. split; [| split].
    + unfold find_transfer, markCompleted. simpl.
      apply find_update_transfer. exact Hfind.
    + exact Hroom.
    + reflexivity.
  - intros [= <- <-]. exists t. now repeat split.
Qed.

(** C1: when complete-transfer has succeeded, the registries hold the
    transfer as completed with the final room and the credential it
    returned, and a second call with the same arguments, at any later
    time, returns that same pair and leaves the registries as they
    are: no credential is minted and no room is added. *)
Theorem completeTransfer_idempotent (now later : nat)
    (transferId originalRoom callerName agentB : string) (s s' : Registry)
    (r : string * Credential) :
  completeTransfer now transferId originalRoom callerName agentB s = (s', Ok r) ->
  (exists t,
      find_transfer transferId s' = Some t
      /\ transfer_status t = transfer_completed (fst r) (snd r))
  /\ completeTransfer later transferId originalRoom callerName agentB s'
     = (s', Ok r)
  /\ issued (fst (completeTransfer later transferId originalRoom callerName
                    agentB s')) = issued s'
  /\ all_rooms (fst (completeTransfer later transferId originalRoom callerName
                       agentB s')) = all_rooms s'.
Proof.
  intros Hfirst.
  destruct (completeTransfer_stores _ _ _ _ _ _ _ _ Hfirst)
    as [t [Hfind [Hroom Hstatus]]].
  assert (Hsecond :
            completeTransfer later transferId originalRoom callerName agentB s'
            = (s', Ok r)).
  { rewrite (completeTransfer_completed later _ _ callerName agentB _ _ _ _
               Hfind Hroom Hstatus).
    now destruct r. }
  split; [now exists t |].
  split; [exact Hsecond |].
  now rewrite Hsecond.
Qed.

(** *** Allocation *)

(** What [createCall] allocates is in use neither as a call id nor as
    the room of an active call: the comparison of the allocation rejects
    every other candidate. *)
Lemma allocate_call_fresh (s : Registry) (now : nat) (retries : nat) :
  forall attempt id roomName,
    allocate_call s now attempt retries = Some (id, roomName) ->
    ~ In id (call_ids s) /\ ~ In roomName (active_rooms s).
Proof.
  induction retries as [| retries IH]; intros attempt id roomName; simpl;
    [discriminate |].
  destruct (JS.includes (gen_call_id s now attempt) (call_ids s)) eqn:Hid;
    simpl; [apply IH |].
  destruct (JS.includes (gen_call_room s now attempt) (active_rooms s)) eqn:Hroom;
    [apply IH |].
  intros [= <- <-]. split; intros Hin.
  - apply HomeFacts.includes_In in Hin. congruence.
  - apply HomeFacts.includes_In in Hin. congruence.
Qed.

Lemma allocate_transfer_fresh (s : Registry) (now : nat) (hint : string)
    (retries : nat) :
  forall attempt id roomName,
    allocate_transfer s now hint attempt retries = Some (id, roomName) ->
    ~ In id (transfer_ids s) /\ ~ In roomName (all_rooms s).
Proof.
  induction retries as [| retries IH]; intros attempt id roomName; simpl;
    [discriminate |].
  destruct (JS.includes (gen_transfer_id s now attempt) (transfer_ids s)) eqn:Hid;
    simpl; [apply IH |].
  destruct (JS.includes (gen_transfer_room s now hint attempt) (all_rooms s))
    eqn:Hroom; [apply IH |].
  intros [= <- <-]. split; intros Hin.
  - apply HomeFacts.includes_In in Hin. congruence.
  - apply HomeFacts.includes_In in Hin. congruence.
Qed.

(** *** Initiating a transfer *)


(** What a successful initiate-transfer does to the registries. *)
Lemma initiateTransfer_ok (now : nat)
    (originalRoom hint agentA agentB transcript callerName : string)
    (s s' : Registry) (r : Initiated) :
  initiateTransfer now originalRoom hint agentA agentB transcript callerName s
  = (s', Ok r) ->
  (exists c, find_call_by_room originalRoom s = Some c
             /\ call_status c = call_active)
  /\ calls s' = update_call originalRoom call_transferring (calls s)
  /\ transfers s' = transfers s ++ [initiated r]
  /\ original_room (initiated r) = originalRoom
  /\ ~ In (transfer_room (initiated r)) (all_rooms s)
  /\ ~ In (transfer_id (initiated r)) (transfer_ids s)
  /\ transfer_status (initiated r) = transfer_briefing
  /\ transfer_caller_name (initiated r) = callerName
  /\ (summary (initiated r), agent_script (initiated r)) = summarize transcript.
Proof.
  unfold initiateTransfer.
  destruct (find_call_by_room originalRoom s) as [c |] eqn:Hfind; [| discriminate].
  destruct (is_active (call_status c)) eqn:Hactive; simpl; [| discriminate].
  destruct (summarize transcript) as [text script].
  destruct (allocate_transfer s now hint 0 id_retries) as [[id roomName] |]
    eqn:Halloc; [| discriminate].
  apply allocate_transfer_fresh in Halloc. destruct Halloc as [Hid Hroom].
  unfold markTransferring, find_call_by_room in *. simpl. rewrite Hfind, Hactive.
  intros [= <- <-]. simpl.
  split; [| now repeat split].
  exists c. split; [reflexivity |].
  now destruct (call_status c).
Qed.

Lemma initiateTransfer_err (now : nat)
    (originalRoom hint agentA agentB transcript callerName : string)
    (s s' : Registry) (e : Error) :
  initiateTransfer now originalRoom hint agentA agentB transcript callerName s
  = (s', Err e) ->
  s' = s /\ e <> UpstreamUnavailable.
Proof.
  unfold initiateTransfer.
  destruct (find_call_by_room originalRoom s) as [c |];
    [| intros [= <- <-]; now split].
  destruct (negb (is_active (call_status c))); [intros [= <- <-]; now split |].
  destruct (summarize transcript) as [text script].
  destruct (allocate_transfer s now hint 0 id_retries) as [[id roomName] |];
    [| intros [= <- <-]; now split].
  destruct (markTransferring _ _); [discriminate |].
  intros [= <- <-]. now split.
Qed.

Lemma completeTransfer_effect (now : nat)
    (transferId originalRoom callerName agentB : string) (s : Registry) :
  let s' := fst (completeTransfer now transferId originalRoom callerName agentB s) in
  s' = s
  \/ (exists t finalRoom credential,
         find_transfer transferId s = Some t
         /\ transfer_status t = transfer_briefing
         /\ calls s' = update_call originalRoom call_completed (calls s)
         /\ transfers s'
            = update_transfer transferId
                (transfer_completed finalRoom credential) (transfers s)).
Proof.
  unfold completeTransfer.
  destruct (find_transfer transferId s) as [t |] eqn:Hfind; [| now left].
  destruct (negb (String.eqb (original_room t) originalRoom)); [now left |].
  destruct (transfer_status t) eqn:Hstatus; [| now left].
  right. exists t. do 2 eexists. simpl. now repeat split.
Qed.

Lemma createCall_effect (now : nat) (callerName callerInfo : string)
    (s : Registry) :
  let s' := fst (createCall now callerName callerInfo s) in
  s' = s
  \/ (exists c,
         calls s' = calls s ++ [c] /\ transfers s' = transfers s
         /\ ~ In (room_name c) (active_rooms s)
         /\ call_status c = call_active
         /\ snd (createCall now callerName callerInfo s) = Ok c).
Proof.
  unfold createCall.
  destruct (allocate_call s now 0 id_retries) as [[id roomName] |] eqn:Halloc;
    [| now left].
  apply allocate_call_fresh in Halloc. destruct Halloc as [_ Hroom].
  right. eexists. simpl. now repeat split.
Qed.

(** *** Room names *)






(** *** One transfer for a call *)







(** *** The caller-status poll *)

Lemma most_recent_None (l : list TransferSession) :
  forall best, most_recent best l = None <-> best = None /\ l = [].
Proof.
  induction l as [| t l IH]; intros best; simpl.
  - intuition.
  - rewrite IH. split; [| intros [_ H]; discriminate].
    destruct best as [b |]; [| intros [H _]; discriminate].
    destruct (Nat.leb (transfer_created_at b) (transfer_created_at t));
      intros [H _]; discriminate.
Qed.

Lemma most_recent_In (l : list TransferSession) :
  forall best t, most_recent best l = Some t -> best = Some t \/ In t l.
Proof.
  induction l as [| x l IH]; intros best t; simpl; [now left |].
  intros H. apply IH in H. destruct H as [H | H]; [| right; now right].
  destruct best as [b |].
  - destruct (Nat.leb (transfer_created_at b) (transfer_created_at x)).
    + injection H as <-. right. now left.
    + now left.
  - injection H as <-. right. now left.
Qed.

Lemma most_recent_latest (l : list TransferSession) :
  forall best t,
    most_recent best l = Some t ->
    (forall b, best = Some b -> transfer_created_at b <= transfer_created_at t)
    /\ (forall x, In x l -> transfer_created_at x <= transfer_created_at t).
Proof.
  induction l as [| x l IH]; intros best t; simpl.
  - intros ->. split; [intros b [= ->]; lia | intros x []].
  - intros H. apply IH in H. destruct H as [Hbest Hl].
    destruct best as [b |].
    + destruct (Nat.leb_spec (transfer_created_at b) (transfer_created_at x)).
      * specialize (Hbest x eq_refl).
        split; [intros b' [= <-]; lia |].
        intros y [<- | Hy]; [assumption | now apply Hl].
      * specialize (Hbest b eq_refl).
        split; [intros b' [= <-]; assumption |].
        intros y [<- | Hy]; [lia | now apply Hl].
    + specialize (Hbest x eq_refl).
      split; [intros b [=] |].
      intros y [<- | Hy]; [assumption | now apply Hl].
Qed.

(** The session [most_recent] returns sits in the list between sessions
    that are not younger, before it, and sessions that are older, after
    it. *)
Lemma most_recent_split (l : list TransferSession) :
  forall best t,
    most_recent best l = Some t ->
    (best = Some t
     /\ forall x, In x l -> transfer_created_at x < transfer_created_at t)
    \/ (exists l1 l2,
           l = l1 ++ t :: l2
           /\ (forall b, best = Some b ->
                         transfer_created_at b <= transfer_created_at t)
           /\ (forall x, In x l1 -> transfer_created_at x <= transfer_created_at t)
           /\ (forall x, In x l2 -> transfer_created_at x < transfer_created_at t)).
Proof.
  induction l as [| x l IH]; intros best t; simpl.
  - intros ->. left. split; [reflexivity | intros x []].
  - intros H. apply IH in H.
    destruct H as [[Hbest Hl] | [l1 [l2 [-> [Hbest [Hl1 Hl2]]]]]].
    + destruct best as [b |].
      * destruct (Nat.leb_spec (transfer_created_at b) (transfer_created_at x)).
        -- injection Hbest as <-. right. exists [], l.
           split; [reflexivity |].
           split; [intros b' [= <-]; assumption |].
           split; [intros y [] | exact Hl].
        -- injection Hbest as <-. left. split; [reflexivity |].
           intros y [<- | Hy]; [assumption | now apply Hl].
      * injection Hbest as <-. right. exists [], l.
        split; [reflexivity |]. split; [intros b [=] |].
        split; [intros y [] | exact Hl].
    + right. exists (x :: l1), l2. split; [reflexivity |].
      destruct best as [b |].
      * destruct (Nat.leb_spec (transfer_created_at b) (transfer_created_at x)).
        -- specialize (Hbest x eq_refl).
           split; [intros b' [= <-]; lia |].
           split; [| exact Hl2].
           intros y [<- | Hy]; [assumption | now apply Hl1].
        -- specialize (Hbest b eq_refl).
           split; [intros b' [= <-]; assumption |].
           split; [| exact Hl2].
           intros y [<- | Hy]; [lia | now apply Hl1].
      * specialize (Hbest x eq_refl).
        split; [intros b [=] |]. split; [| exact Hl2].
        intros y [<- | Hy]; [assumption | now apply Hl1].
Qed.

Lemma filter_split (A : Type) (f : A -> bool) (l : list A) :
  forall f1 t f2,
    filter f l = f1 ++ t :: f2 ->
    exists l1 l2, l = l1 ++ t :: l2 /\ filter f l1 = f1 /\ filter f l2 = f2.
Proof.
  induction l as [| x l IH]; intros f1 t f2; simpl.
  - intros H. now destruct f1.
  - destruct (f x) eqn:Hx.
    + destruct f1 as [| y f1]; simpl.
      * intros [= -> <-]. exists [], l. now repeat split.
      * intros [= -> H]. apply IH in H.
        destruct H as [l1 [l2 [-> [<- <-]]]].
        exists (y :: l1), l2. simpl. rewrite Hx. now repeat split.
    + intros H. apply IH in H. destruct H as [l1 [l2 [-> [<- <-]]]].
      exists (x :: l1), l2. simpl. rewrite Hx. now repeat split.
Qed.

(** The poll reports the most recent completed transfer of the caller
    name, the later created among those of one timestamp, when the name
    has a completed transfer. *)
Lemma callerTransferStatus_complete (callerName : string) (s : Registry)
    (t0 : TransferSession) :
  In t0 (transfers s) -> completed_for callerName t0 = true ->
  exists t finalRoom credential,
    most_recent_completed callerName s t
    /\ transfer_status t = transfer_completed finalRoom credential
    /\ callerTransferStatus callerName s
       = {| transfer_complete := true; final_room := Some finalRoom;
            caller_credential := Some credential |}.
Proof.
  intros Hin Hdone. unfold callerTransferStatus, findCompletedByCaller.
  destruct (most_recent None (filter (completed_for callerName) (transfers s)))
    as [t |] eqn:Hrecent.
  - apply most_recent_split in Hrecent.
    destruct Hrecent as [[H _] | [f1 [f2 [Hfilter [_ [Hf1 Hf2]]]]]];
      [discriminate |].
    assert (Htdone : completed_for callerName t = true).
    { assert (H : In t (filter (completed_for callerName) (transfers s))).
      { rewrite Hfilter. apply in_or_app. right. now left. }
      now apply filter_In in H. }
    apply filter_split in Hfilter.
    destruct Hfilter as [l1 [l2 [Hsplit [H1 H2]]]].
    pose proof Htdone as Hstatus. unfold completed_for in Hstatus.
    apply andb_true_iff in Hstatus. destruct Hstatus as [_ Hstatus].
    destruct (transfer_status t) as [| finalRoom credential] eqn:Hst;
      [discriminate |].
    exists t, finalRoom, credential. split; [| now split].
    exists l1, l2. split; [exact Hsplit |]. split; [exact Htdone |].
    split; intros x Hx Hxdone.
    + apply Hf1. rewrite <- H1. apply filter_In. now split.
    + apply Hf2. rewrite <- H2. apply filter_In. now split.
  - apply most_recent_None in Hrecent. destruct Hrecent as [_ Hnil].
    assert (H : In t0 (filter (completed_for callerName) (transfers s))).
    { apply filter_In. now split. }
    rewrite Hnil in H. destruct H.
Qed.

Lemma callerTransferStatus_not_complete (callerName : string) (s : Registry) :
  (forall t, In t (transfers s) -> completed_for callerName t = false) ->
  callerTransferStatus callerName s = not_complete.
Proof.
  intros Hnone. unfold callerTransferStatus, findCompletedByCaller.
  destruct (most_recent None (filter (completed_for callerName) (transfers s)))
    as [t |] eqn:Hrecent; [| reflexivity].
  destruct (most_recent_In _ _ _ Hrecent) as [H | H]; [discriminate |].
  apply filter_In in H. destruct H as [Ht Htdone].
  rewrite (Hnone t Ht) in Htdone. discriminate.
Qed.

(** A completed transfer is never altered nor removed. *)
Lemma completed_exec (s : Registry) (op : Op) (t : TransferSession) :
  In t (transfers s) -> is_completed (transfer_status t) = true ->
  In t (transfers (exec s op)).
Proof.
  intros Hin Hdone.
  destruct op as [now callerName callerInfo
                 | now originalRoom hint agentA agentB transcript callerName
                 | now transferId originalRoom callerName agentB]; simpl.
  - destruct (createCall_effect now callerName callerInfo s)
      as [-> | [c [_ [-> _]]]]; assumption.
  - destruct (initiateTransfer now originalRoom hint agentA agentB transcript
                callerName s) as [s' [r | e]] eqn:Hinit; simpl.
    + apply initiateTransfer_ok in Hinit.
      destruct Hinit as [_ [_ [-> _]]]. apply in_or_app. now left.
    + apply initiateTransfer_err in Hinit. now destruct Hinit as [-> _].
  - destruct (completeTransfer_effect now transferId originalRoom callerName
                agentB s)
      as [-> | [t1 [finalRoom [credential [Hfind [Hbrief [_ ->]]]]]]];
      [assumption |].
    apply (In_update_transfer _ _ _ t1); [exact Hfind | exact Hin |].
    intros ->. rewrite Hbrief in Hdone. discriminate.
Qed.

Lemma completed_run (ops : list Op) (t : TransferSession) :
  forall s,
    In t (transfers s) -> is_completed (transfer_status t) = true ->
    In t (transfers (run ops s)).
Proof.
  unfold run. induction ops as [| op ops IH]; intros s Hin Hdone; simpl.
  - assumption.
  - apply IH; [now apply completed_exec | assumption].
Qed.

(** What a successful completion stores is the transfer it found, with
    its caller name and its timestamp, as completed with the result. *)
Lemma completeTransfer_stored (now : nat)
    (transferId originalRoom callerName agentB : string) (s s' : Registry)
    (r : string * Credential) (t : TransferSession) :
  completeTransfer now transferId originalRoom callerName agentB s = (s', Ok r) ->
  find_transfer transferId s = Some t ->
  exists t',
    In t' (transfers s')
    /\ transfer_caller_name t' = transfer_caller_name t
    /\ transfer_created_at t' = transfer_created_at t
    /\ transfer_status t' = transfer_completed (fst r) (snd r).
Proof.
  unfold completeTransfer. intros H Hfind. rewrite Hfind in H.
  destruct (String.eqb (original_room t) originalRoom); simpl in H;
    [| discriminate].
  destruct (transfer_status t) as [| finalRoom credential] eqn:Hstatus.
  - injection H as <- <-.
    exists (set_transfer_status
              (transfer_completed (transfer_room t)
                 (mint now callerName (transfer_room t))) t).
    split; [| now repeat split].
    unfold markCompleted. simpl.
    apply (find_update_transfer transferId
             (transfer_completed (transfer_room t)
                (mint now callerName (transfer_room t)))) in Hfind.
    now apply find_some in Hfind.
  - injection H as <- <-. exists t. split; [| now repeat split].
    unfold find_transfer in Hfind. now apply find_some in Hfind.
Qed.

(** C4, as amended: after a successful complete-transfer for the caller
    name under which the transfer was initiated, whatever operations
    follow, the poll for that name reports a completed transfer: the most
    recent completed transfer of the name, the later created among those
    of one timestamp, with its final room and credential. These are the
    ones this completion returned as long as every other completed
    transfer of the name is older. A poll for a name none of whose
    transfers is completed reports [false]. *)
Theorem poll_convergence (now : nat)
    (transferId originalRoom callerName agentB : string)
    (s s1 : Registry) (r : string * Credential) (t : TransferSession)
    (later : list Op) :
  completeTransfer now transferId originalRoom callerName agentB s = (s1, Ok r) ->
  find_transfer transferId s = Some t ->
  transfer_caller_name t = callerName ->
  let s2 := run later s1 in
  let poll := callerTransferStatus callerName s2 in
  transfer_complete poll = true
  /\ (exists t' finalRoom credential,
         most_recent_completed callerName s2 t'
         /\ transfer_status t' = transfer_completed finalRoom credential
         /\ final_room poll = Some finalRoom
         /\ caller_credential poll = Some credential)
  /\ ((forall x, In x (transfers s2) -> completed_for callerName x = true ->
                 transfer_status x = transfer_completed (fst r) (snd r)
                 \/ transfer_created_at x < transfer_created_at t) ->
      final_room poll = Some (fst r) /\ caller_credential poll = Some (snd r))
  /\ (forall name s0,
         (forall x, In x (transfers s0) -> completed_for name x = false) ->
         callerTransferStatus name s0 = not_complete).
Proof.
  intros Hdone Hfind Hname s2 poll.
  destruct (completeTransfer_stored _ _ _ _ _ _ _ _ _ Hdone Hfind)
    as [t1 [Hin1 [Hname1 [Hcreated1 Hstatus1]]]].
  assert (Hin : In t1 (transfers s2)).
  { apply completed_run; [exact Hin1 | now rewrite Hstatus1]. }
  assert (Hfor : completed_for callerName t1 = true).
  { unfold completed_for. rewrite Hname1, Hname, String.eqb_refl, Hstatus1.
    reflexivity. }
  destruct (callerTransferStatus_complete _ _ _ Hin Hfor)
    as [t' [finalRoom [credential [Hrecent [Hst' Hpoll]]]]].
  fold poll in Hpoll.
  split; [now rewrite Hpoll |].
  split; [exists t', finalRoom, credential; rewrite Hpoll; now repeat split |].
  split; [| intros name s0; apply callerTransferStatus_not_complete].
  intros Holder.
  destruct Hrecent as [l1 [l2 [Hsplit [Hfor' [Hl1 Hl2]]]]].
  assert (Hle : transfer_created_at t1 <= transfer_created_at t').
  { rewrite Hsplit in Hin. apply in_app_or in Hin.
    destruct Hin as [Hin | [<- | Hin]].
    - now apply Hl1.
    - lia.
    - apply Nat.lt_le_incl. now apply Hl2. }
  assert (Hin' : In t' (transfers s2)).
  { rewrite Hsplit. apply in_or_app. right. now left. }
  destruct (Holder t' Hin' Hfor') as [Hsame | Hlt]; [| lia].
  rewrite Hst' in Hsame. injection Hsame as -> ->.
  rewrite Hpoll. now split.
Qed.

End Registries.

(** *** Summaries *)




(** *** The theorems on the transfers of Jane *)

Import DemoServices.

Lemma completeTransfer_idempotent_witness :
  completeTransfer 7 "t_" "room_" "Jane" "bob" (fst completed_first)
  = (fst completed_first,
     Ok ("transfer_1______",
         {| identity := "Jane"; room := "transfer_1______"; issued_at := 3 |})).
Proof.
  apply (completeTransfer_idempotent 3 7 "t_" "room_" "Jane" "bob" briefed).
  reflexivity.
Defined.


Lemma poll_convergence_witness :
  transfer_complete
    (callerTransferStatus "Jane" (run second_call (fst completed_first))) = true.
Proof.
  apply (poll_convergence 3 "t_" "room_" "Jane" "bob" briefed (fst completed_first)
           ("transfer_1______",
            {| identity := "Jane"; room := "transfer_1______"; issued_at := 3 |})
           {| transfer_id := "t_"; original_room := "room_";
              transfer_caller_name := "Jane"; agent_b := "bob";
              transfer_room := "transfer_1______";
              summary := "Summary unavailable. billing issue";
              agent_script := "Introduce the caller and read the notes.";
              transfer_status := transfer_briefing;
              transfer_created_at := 2 |}
           second_call).
  - reflexivity.
  - reflexivity.
  - reflexivity.
Defined.



(** C4, as stated, fails, in two ways. Jane is transferred, calls again
    and is transferred again: before the second completion the poll
    already reports a completed transfer, that of the first call, and
    after it the poll reports the final room of the second transfer and
    no longer the one the first completion stored. And when the transfer
    was initiated under the name "Unknown", its completion for "Jane"
    leaves the poll for "Jane" at [false]. *)
Lemma poll_convergence_counterexample :
  callerTransferStatus "Jane" (run second_call (fst completed_first))
  = {| transfer_complete := true; final_room := Some "transfer_1______";
       caller_credential :=
         Some {| identity := "Jane"; room := "transfer_1______"; issued_at := 3 |} |}
  /\ final_room
       (callerTransferStatus "Jane"
          (run (second_call ++ [second_completion]) (fst completed_first)))
     = Some "transfer_2______________________"
  /\ snd (completeTransfer 3 "t_" "room_" "Jane" "bob" (run unnamed_call empty))
     = Ok ("transfer_1______",
           {| identity := "Jane"; room := "transfer_1______"; issued_at := 3 |})
  /\ callerTransferStatus "Jane" (run (unnamed_call ++ [unnamed_completion]) empty)
     = not_complete
  /\ ~ stated_poll_convergence.
Proof.
  split; [reflexivity |]. split; [reflexivity |]. split; [reflexivity |].
  split; [reflexivity |].
  intros H.
  specialize (H services unnamed_call [] 3 "t_" "room_" "Jane" "bob"
                (fst (completeTransfer 3 "t_" "room_" "Jane" "bob"
                        (run unnamed_call empty)))
                ("transfer_1______",
                 {| identity := "Jane"; room := "transfer_1______"; issued_at := 3 |})).
  destruct H as [[Hcomplete _] _]; [reflexivity |].
  vm_compute in Hcomplete. discriminate.
Qed.


End OrchestrationFacts.

(** ** The room page: more of its handlers *)

Module HomeActionsFacts.

Import Home HomeActions.

Lemma filter_absent (p : string) (l : list string) :
  ~ In p l -> filter (fun id => negb (String.eqb id p)) l = l.
Proof.
  induction l as [| x l IH]; simpl; [reflexivity |].
  intros Hnotin. destruct (String.eqb_spec x p) as [-> | Hneq]; simpl.
  - exfalso. apply Hnotin. now left.
  - f_equal. apply IH. intros Hin. apply Hnotin. now right.
Qed.

(** X1: a disconnection removes the identity from the list and keeps every
    other identity; the disconnection of a participant whose connection
    the page has just handled gives back the list of before. *)
Theorem disconnected_undoes_connected (identity p : string) (prev : list string) :
  ~ In p prev ->
  onParticipantDisconnected p (onParticipantConnected identity p prev) = prev
  /\ ~ In p (onParticipantDisconnected p (onParticipantConnected identity p prev))
  /\ (forall l q, In q (onParticipantDisconnected p l) <-> In q l /\ q <> p).
Proof.
  intros Hnotin.
  assert (Hback :
            onParticipantDisconnected p (onParticipantConnected identity p prev) = prev).
  { unfold onParticipantDisconnected, onParticipantConnected.
    destruct (negb (String.eqb p identity) && negb (JS.includes p prev)).
    - rewrite filter_app. simpl. rewrite String.eqb_refl. simpl.
      rewrite app_nil_r. now apply filter_absent.
    - now apply filter_absent. }
  split; [exact Hback |]. split; [now rewrite Hback |].
  intros l q. unfold onParticipantDisconnected.
  rewrite filter_In, negb_true_iff, String.eqb_neq. reflexivity.
Qed.

Lemma disconnected_undoes_connected_witness :
  onParticipantDisconnected "Carol"
    (onParticipantConnected "Alice" "Carol" ["Bob"; "Dave"]) = ["Bob"; "Dave"].
Proof.
  apply (disconnected_undoes_connected "Alice" "Carol" ["Bob"; "Dave"]).
  simpl. intuition discriminate.
Defined.

(** X2: the transfer request is sent exactly when the page holds a room and
    a transcript that is not empty. When the request resolves the page has
    left the room: no room, not connected, no participants, no summary,
    with the transcript and the fields of the form as they were. When
    nothing is sent or the request rejects, the state is untouched. *)
Theorem transferCall_leaves_room (r : Outcome string) (p : Page) :
  let p' := fst (transferCall r p) in
  let e := snd (transferCall r p) in
  (sent e <> [] <-> roomInstance p <> None /\ transcript p <> EmptyString)
  /\ (sent e <> [] ->
      sent e = [POST_transfer (roomName p) (transferRoomName p) (identity p)
                  (agentBIdentity p) (transcript p)])
  /\ (forall text, r = resolved text -> sent e <> [] ->
        roomInstance p' = None /\ isConnected p' = false
        /\ participants p' = [] /\ summary p' = EmptyString
        /\ transcript p' = transcript p /\ identity p' = identity p
        /\ roomName p' = roomName p)
  /\ (sent e = [] \/ r = rejected -> p' = p)
  /\ alerts e <> [].
Proof.
  unfold transferCall, transferCall_begin, JS.truthy.
  destruct (roomInstance p) as [room |] eqn:Hroom;
    [destruct (String.eqb_spec (transcript p) EmptyString) as [Hempty | Hfull] |];
    simpl.
  - intuition (try discriminate; try congruence).
  - destruct r as [| text]; simpl.
    + intuition (try discriminate; try congruence).
    + unfold leaveRoom. rewrite Hroom. simpl.
      intuition (try discriminate; try congruence).
  - intuition (try discriminate; try congruence).
Qed.



End HomeActionsFacts.

(** ** The warm-transfer page: more of its handlers *)

Module PageActionsFacts.

Import WarmTransferPage PageActions.

(** *** Blank names *)

(** White space at the start of a string, whatever follows it, is
    removed. *)
Lemma trimStart_white_space (cp : N) (s : string) :
  In cp JS.white_space -> JS.trimStart (JS.utf8 cp ^^ s) = JS.trimStart s.
Proof.
  unfold JS.white_space. intros Hin.
  repeat (destruct Hin as [<- | Hin]; [reflexivity |]).
  destruct Hin.
Qed.

(** A string of white space is blank, be it ASCII or not. *)
Lemma blank_white_space (cps : list N) :
  Forall (fun cp => In cp JS.white_space) cps ->
  blank (fold_right (fun cp s => JS.utf8 cp ^^ s) EmptyString cps) = true.
Proof.
  intros Hall.
  assert (Hstart : JS.trimStart
                     (fold_right (fun cp s => JS.utf8 cp ^^ s) EmptyString cps)
                   = EmptyString).
  { induction Hall as [| cp cps Hcp _ IH]; simpl; [reflexivity |].
    now rewrite trimStart_white_space. }
  unfold blank, JS.trim. now rewrite Hstart.
Qed.

(** A string that starts with an ASCII character other than white space
    is not blank. *)
Lemma blank_starts_with (a : ascii) (s : string) :
  (JS.byte a < 128)%N -> JS.is_white_space (JS.byte a) = false ->
  blank (String a s) = false.
Proof.
  intros Hascii Hwhite.
  assert (Hstart : JS.trimStart (String a s) = String a s).
  { cbn [JS.trimStart]. unfold JS.code_point1, JS.code_point2, JS.code_point3.
    apply N.ltb_lt in Hascii. rewrite Hascii. cbn [JS.is_white]. rewrite Hwhite.
    apply N.ltb_lt in Hascii.
    assert (H2 : (192 <=? JS.byte a)%N = false) by (apply N.leb_gt; lia).
    assert (H3 : (224 <=? JS.byte a)%N = false) by (apply N.leb_gt; lia).
    rewrite H2, H3. cbn [andb JS.is_white].
    destruct s as [| b [| c s3]]; reflexivity. }
  unfold blank, JS.trim. rewrite Hstart. cbn [JS.trimEnd]. now rewrite Hstart.
Qed.

Lemma trim_blank (s : string) :
  JS.truthy (JS.trim s) = false <-> blank s = true.
Proof. unfold blank. now destruct (JS.truthy (JS.trim s)). Qed.

(** *** Starting a call *)

(** A name made of a no-break space is blank: [startCall] sends nothing. *)
Example startCall_no_break_space :
  startCall_begin (setUserName (JS.utf8 160) initialState)
  = (setError "Please enter your name" (setUserName (JS.utf8 160) initialState), []).
Proof. reflexivity. Qed.

(** X3: [startCall] sends its request exactly when the name holds a
    character that is not white space; the request names the caller by the
    name alone, an agent by role and name. Whatever the server and LiveKit
    answer, the page is no longer connecting once the request has settled. *)
Theorem startCall_guard (st : State) :
  (blank (userName st) = true ->
   startCall_begin st = (setError "Please enter your name" st, []))
  /\ (blank (userName st) = false ->
      snd (startCall_begin st)
      = [POST_call_start
           (match userRole st with
            | caller => userName st
            | agent_a => "agent_a_" ^^ userName st
            | agent_b => "agent_b_" ^^ userName st
            end)])
  /\ (forall ts r lk,
        isConnecting (startCall_settled ts r lk (fst (startCall_begin st))) = false)
  /\ (forall cl ts callSession lk s,
        isConnecting s = false ->
        isConnecting (startCall_joined cl ts callSession lk s) = false).
Proof.
  unfold startCall_begin.
  split; [| split; [| split]].
  - intros Hblank. apply trim_blank in Hblank. now rewrite Hblank.
  - intros Hname.
    destruct (JS.truthy (JS.trim (userName st))) eqn:Htrim.
    + simpl. now destruct (userRole st).
    + apply trim_blank in Htrim. congruence.
  - intros ts r lk. unfold startCall_settled.
    destruct r as [message | code | callSession]; try reflexivity.
    destruct (connect_ok lk); reflexivity.
  - intros cl ts callSession lk s Hs. unfold startCall_joined.
    destruct (localAudioTrack cl); [destruct (publish_ok lk) |];
      try reflexivity; destruct (userRole cl); simpl; exact Hs.
Qed.

(** *** The caller name of a transfer *)

Lemma js_or_nonempty (a b : string) : b <> EmptyString -> js_or a b <> EmptyString.
Proof.
  intros Hb. unfold js_or, JS.truthy.
  destruct (String.eqb_spec a EmptyString); simpl; assumption.
Qed.

(** X4: the caller name that the page of an agent sends with a transfer is
    never empty: it is the caller name of the latest call when there is
    one, else the name of the caller form when there is one, else
    "Unknown". The page of a caller sends its own name. *)
Theorem callerNameFor_agent (form : Form) (cl : State) :
  (userRole cl = caller -> callerNameFor form cl = userName cl)
  /\ (userRole cl <> caller ->
      callerNameFor form cl <> EmptyString
      /\ (forall lc, latestCall cl = Some lc -> latest_caller_name lc <> EmptyString ->
                     callerNameFor form cl = latest_caller_name lc)
      /\ (latestCall cl = None ->
          callerNameFor form cl
          = if String.eqb (info_name (callerInfo form)) EmptyString
            then "Unknown" else info_name (callerInfo form))).
Proof.
  unfold callerNameFor. split.
  - now intros ->.
  - intros Hrole.
    assert (Hlast : js_or (info_name (callerInfo form)) "Unknown" <> EmptyString).
    { apply js_or_nonempty. discriminate. }
    destruct (userRole cl); [contradiction | |];
      (split; [now apply js_or_nonempty |]); split.
    all: try (intros lc -> Hname; unfold js_or at 1, JS.truthy;
              destruct (String.eqb_spec (latest_caller_name lc) EmptyString);
              [contradiction | reflexivity]).
    all: intros ->; unfold js_or, JS.truthy; simpl;
      now destruct (String.eqb (info_name (callerInfo form)) EmptyString).
Qed.

(** *** The three polling effects *)

Lemma callerStatusDeps_same (old next : State) :
  callerStatusDepsChanged old next = false ->
  userRole old = userRole next /\ isConnected old = isConnected next
  /\ userName old = userName next.
Proof.
  unfold callerStatusDepsChanged.
  rewrite negb_false_iff, !andb_true_iff, Bool.eqb_true_iff, String.eqb_eq.
  intros [[Hrole Hconn] Hname]. repeat split; try assumption.
  destruct (userRole old), (userRole next); simpl in Hrole; congruence.
Qed.

Lemma commit_caller_synced (rt : Runtime) (next : State) :
  caller_synced (callerStatusInterval rt) (state rt) ->
  caller_synced (callerStatusInterval (fst (commit rt next))) next.
Proof.
  unfold commit. simpl. intros Hrt.
  destruct (callerStatusDepsChanged (state rt) next) eqn:Hdeps.
  - unfold callerStatusEffect.
    destruct (callerStatusWanted next) eqn:Hwanted; simpl; [now repeat split | assumption].
  - apply callerStatusDeps_same in Hdeps. destruct Hdeps as [Hrole [Hconn Hname]].
    assert (Hwanted : callerStatusWanted next = callerStatusWanted (state rt)).
    { unfold callerStatusWanted. now rewrite Hrole, Hconn, Hname. }
    unfold caller_synced in *.
    destruct (callerStatusInterval rt) as [cl |]; rewrite Hwanted; [| assumption].
    destruct Hrt as [Hw [Hr [Hc Hn]]]. repeat split; congruence.
Qed.

Lemma step_caller_synced (rt : Runtime) (ev : Event) :
  caller_synced (callerStatusInterval rt) (state rt) ->
  caller_synced (callerStatusInterval (fst (step rt ev))) (state (fst (step rt ev))).
Proof.
  intros Hrt.
  destruct ev as [next | | ts r | ts | ts i r lk]; cbv beta iota delta [step].
  - now apply commit_caller_synced.
  - now destruct (latestCallInterval rt).
  - now apply commit_caller_synced.
  - destruct (callerStatusInterval rt) as [cl |] eqn:Hcl;
      [| simpl; rewrite Hcl; exact Hrt].
    destruct (checkCallerTransferStatus_begin cl ts (state rt)) as [st1 sent].
    pose proof (commit_caller_synced rt st1) as H. rewrite Hcl in H.
    specialize (H Hrt). destruct (commit rt st1) as [rt1 polled] eqn:Hcommit.
    pose proof (WarmTransferPageFacts.commit_state rt st1) as Hstate.
    rewrite Hcommit in Hstate. simpl in *. now rewrite Hstate.
  - destruct (nth_error (callerStatusInFlight rt) i) as [cl |]; [| assumption].
    apply (commit_caller_synced
             {| state := state rt; latestCallInterval := latestCallInterval rt;
                callerStatusInterval := callerStatusInterval rt;
                callerStatusInFlight := remove_nth i (callerStatusInFlight rt) |}).
    exact Hrt.
Qed.

Lemma activeTransfersWanted_deps (old next : State) :
  latestCallDepsChanged old next = false ->
  activeTransfersWanted next = activeTransfersWanted old.
Proof.
  unfold latestCallDepsChanged, activeTransfersWanted.
  rewrite negb_false_iff, andb_true_iff, WarmTransferPageFacts.UserRole_eqb_eq,
    Bool.eqb_true_iff.
  intros [-> ->]. reflexivity.
Qed.

Lemma commitActiveTransfers_synced (armed : bool) (old next : State) :
  armed = activeTransfersWanted old ->
  fst (commitActiveTransfers armed old next) = activeTransfersWanted next.
Proof.
  unfold commitActiveTransfers, activeTransfersEffect. intros ->.
  destruct (latestCallDepsChanged old next) eqn:Hdeps.
  - now destruct (activeTransfersWanted next).
  - simpl. symmetry. now apply activeTransfersWanted_deps.
Qed.

Lemma commitActiveTransfers_polled (armed : bool) (old next : State) (q : Fetch) :
  In q (snd (commitActiveTransfers armed old next)) ->
  q = GET_transfers_active /\ activeTransfersWanted next = true.
Proof.
  unfold commitActiveTransfers, activeTransfersEffect.
  destruct (latestCallDepsChanged old next); [| intros []].
  destruct (activeTransfersWanted next); simpl; [| intros []].
  intros [<- | []]. now split.
Qed.

Lemma stepPage_synced (p : Page) (ev : PageEvent) :
  effects_synced p -> effects_synced (fst (fst (stepPage p ev))).
Proof.
  unfold effects_synced. intros [Hlatest [Hactive Hcaller]].
  destruct ev as [e | | ts r]; cbv beta iota delta [stepPage].
  - pose proof (WarmTransferPageFacts.step_synced (runtime p) e Hlatest) as H1.
    pose proof (step_caller_synced (runtime p) e Hcaller) as H2.
    destruct (step (runtime p) e) as [rt sent].
    pose proof (commitActiveTransfers_synced (activeTransfersInterval p)
                  (state (runtime p)) (state rt) Hactive) as H3.
    destruct (commitActiveTransfers _ _ _) as [armed polled].
    simpl in *. repeat split; assumption.
  - simpl. repeat split; assumption.
  - destruct (fetchActiveTransfers_settled ts r p) as [found next].
    pose proof (WarmTransferPageFacts.commit_synced (runtime p) next Hlatest) as H1.
    pose proof (commit_caller_synced (runtime p) next Hcaller) as H2.
    pose proof (WarmTransferPageFacts.commit_state (runtime p) next) as Hstate.
    destruct (commit (runtime p) next) as [rt sent].
    pose proof (commitActiveTransfers_synced (activeTransfersInterval p)
                  (state (runtime p)) next Hactive) as H3.
    destruct (commitActiveTransfers _ _ _) as [armed polled].
    simpl in *. subst next. repeat split; assumption.
Qed.

Lemma pageAfter_synced (evs : list PageEvent) : effects_synced (pageAfter evs).
Proof.
  unfold pageAfter.
  assert (H : forall p, effects_synced p -> effects_synced (runPage p evs)).
  { induction evs as [| ev evs IH]; intros p Hp; simpl; [assumption |].
    apply IH. now apply stepPage_synced. }
  apply H. unfold effects_synced. simpl. repeat split; reflexivity.
Qed.

Lemma conditions_exclusive (st : State) :
  (latestCallWanted st = true ->
   activeTransfersWanted st = false /\ callerStatusWanted st = false)
  /\ (activeTransfersWanted st = true -> callerStatusWanted st = false).
Proof.
  unfold latestCallWanted, activeTransfersWanted, callerStatusWanted.
  destruct (userRole st), (isConnected st); simpl; intuition discriminate.
Qed.

(** X5: after every sequence of renders, ticks and settled polls, at most
    one of the three polling intervals is armed: the one of the latest
    call, the one of the active transfers or the one of the caller status. *)
Theorem one_interval_armed (evs : list PageEvent) :
  let p := pageAfter evs in
  (latestCallInterval (runtime p) = true ->
   activeTransfersInterval p = false /\ callerStatusInterval (runtime p) = None)
  /\ (activeTransfersInterval p = true ->
      latestCallInterval (runtime p) = false
      /\ callerStatusInterval (runtime p) = None)
  /\ (callerStatusInterval (runtime p) <> None ->
      latestCallInterval (runtime p) = false /\ activeTransfersInterval p = false).
Proof.
  intros p. destruct (pageAfter_synced evs) as [Hlatest [Hactive Hcaller]].
  fold p in Hlatest, Hactive, Hcaller.
  destruct (conditions_exclusive (state (runtime p))) as [H1 H2].
  rewrite Hlatest, Hactive.
  destruct (callerStatusInterval (runtime p)) as [cl |].
  - destruct Hcaller as [Hwanted _].
    destruct (latestCallWanted (state (runtime p))) eqn:Hl;
      [destruct (H1 eq_refl); congruence |].
    destruct (activeTransfersWanted (state (runtime p))) eqn:Ha;
      [specialize (H2 eq_refl); congruence |].
    intuition discriminate.
  - destruct (latestCallWanted (state (runtime p))) eqn:Hl.
    + destruct (H1 eq_refl) as [-> _]. intuition discriminate.
    + intuition (try discriminate; try congruence).
Qed.

Lemma deps_after_addLog (ts message : string) (st : State) :
  latestCallDepsChanged st (addLog ts message st) = false.
Proof.
  unfold latestCallDepsChanged. simpl.
  rewrite Bool.eqb_reflx. now destruct (userRole st).
Qed.

(** X6: a tick of the status interval polls for the name in the name field
    of the render on screen, and only while the role is caller, the page is
    connected and that name is not blank; the test for a blank name inside
    [checkCallerTransferStatus] never stops a poll. *)
Theorem status_poll_current_name (evs : list PageEvent) (ts : string) :
  let rt := runtime (pageAfter evs) in
  snd (step rt (CallerStatusTick ts))
  = if UserRole_eqb (userRole (state rt)) caller && isConnected (state rt)
       && negb (blank (userName (state rt)))
    then [GET_caller_transfer_status (userName (state rt))]
    else [].
Proof.
  intros rt. destruct (pageAfter_synced evs) as [_ [_ Hcaller]]. fold rt in Hcaller.
  assert (Hblank : negb (blank (userName (state rt)))
                   = JS.truthy (JS.trim (userName (state rt)))).
  { destruct (JS.truthy (JS.trim (userName (state rt)))) eqn:Htrim.
    - destruct (blank (userName (state rt))) eqn:Hb; [| reflexivity].
      apply trim_blank in Hb. congruence.
    - apply trim_blank in Htrim. now rewrite Htrim. }
  rewrite Hblank. fold (callerStatusWanted (state rt)).
  cbv beta iota delta [step].
  destruct (callerStatusInterval rt) as [cl |].
  - destruct Hcaller as [Hwanted [_ [_ Hname]]]. rewrite Hwanted.
    unfold checkCallerTransferStatus_begin. rewrite Hname.
    unfold callerStatusWanted in Hwanted. apply andb_true_iff in Hwanted.
    destruct Hwanted as [_ Htrim]. rewrite Htrim. simpl negb. cbv iota.
    unfold commit. rewrite deps_after_addLog. reflexivity.
  - now rewrite Hcaller.
Qed.

(** The requests of a step are polls of the latest call or of the caller
    status. *)
Lemma step_requests (rt : Runtime) (ev : Event) (q : Request) :
  In q (snd (step rt ev)) ->
  q = GET_calls_latest \/ exists name, q = GET_caller_transfer_status name.
Proof.
  destruct ev as [next | | ts r | ts | ts i r lk]; cbv beta iota delta [step].
  - intros Hin. left. now apply WarmTransferPageFacts.commit_polls in Hin.
  - destruct (latestCallInterval rt); simpl; [| intros []].
    intros [<- | []]. now left.
  - intros Hin. left. now apply WarmTransferPageFacts.commit_polls in Hin.
  - destruct (callerStatusInterval rt) as [cl |]; [| intros []].
    pose proof (WarmTransferPageFacts.checkCallerTransferStatus_begin_sent
                  cl ts (state rt)) as Hsent.
    destruct (checkCallerTransferStatus_begin cl ts (state rt)) as [st1 sent].
    pose proof (WarmTransferPageFacts.commit_polls rt st1) as H.
    destruct (commit rt st1) as [rt1 polled]. simpl in *.
    intros Hin. apply in_app_or in Hin. destruct Hin as [Hin | Hin].
    + right. exists (userName cl). now apply Hsent.
    + left. now apply H in Hin.
  - destruct (nth_error (callerStatusInFlight rt) i) as [cl |]; [| intros []].
    intros Hin. left. now apply WarmTransferPageFacts.commit_polls in Hin.
Qed.

(** X7: in every state the page can reach, the interval that polls the
    active transfers is armed exactly when the role is Agent B and the page
    is not connected, and each tick then sends the poll. A step that leaves
    the page connected sends no poll of the active transfers and none of
    the latest call: the only requests it can send are polls of the caller
    status. *)
Theorem active_transfers_polling (evs : list PageEvent) (ev : PageEvent) :
  let p := pageAfter evs in
  activeTransfersInterval p
  = UserRole_eqb (userRole (state (runtime p))) agent_b
    && negb (isConnected (state (runtime p)))
  /\ snd (stepPage p ActiveTransfersTick)
     = (if activeTransfersInterval p then [GET_transfers_active] else [])
  /\ (isConnected (state (runtime (fst (fst (stepPage p ev))))) = true ->
      snd (stepPage p ev) = []
      /\ forall q, In q (snd (fst (stepPage p ev))) ->
                   exists name, q = GET_caller_transfer_status name).
Proof.
  intros p. destruct (pageAfter_synced evs) as [Hlatest [Hactive _]].
  fold p in Hactive, Hlatest.
  split; [exact Hactive | split; [reflexivity |]].
  assert (Hoff : forall st, isConnected st = true -> activeTransfersWanted st = false).
  { intros st Hst. unfold activeTransfersWanted. rewrite Hst. apply andb_false_r. }
  assert (Hnone : forall armed old next,
             isConnected next = true ->
             snd (commitActiveTransfers armed old next) = []).
  { intros armed old next Hnext.
    destruct (snd (commitActiveTransfers armed old next)) as [| q l] eqn:Hq;
      [reflexivity |].
    destruct (commitActiveTransfers_polled armed old next q) as [_ Hw];
      [rewrite Hq; now left |].
    rewrite (Hoff next Hnext) in Hw. discriminate. }
  destruct ev as [e | | ts r]; cbv beta iota delta [stepPage].
  - pose proof (step_requests (runtime p) e) as Hkind.
    pose proof (WarmTransferPageFacts.step_polls (runtime p) e Hlatest) as Hpolls.
    destruct (step (runtime p) e) as [rt sent].
    pose proof (Hnone (activeTransfersInterval p) (state (runtime p)) (state rt)) as H.
    destruct (commitActiveTransfers _ _ _) as [armed polled]. simpl in *.
    intros Hconn. split; [now apply H |].
    intros q Hq. destruct (Hkind q Hq) as [-> | Hstatus]; [| exact Hstatus].
    apply Hpolls in Hq.
    rewrite (WarmTransferPageFacts.latestCallWanted_connected _ Hconn) in Hq.
    discriminate.
  - simpl. intros Hconn. rewrite Hactive, (Hoff _ Hconn).
    split; [reflexivity | intros q []].
  - destruct (fetchActiveTransfers_settled ts r p) as [found next].
    pose proof (WarmTransferPageFacts.commit_state (runtime p) next) as Hstate.
    pose proof (WarmTransferPageFacts.commit_polls (runtime p) next) as Hpolls.
    destruct (commit (runtime p) next) as [rt sent].
    pose proof (Hnone (activeTransfersInterval p) (state (runtime p)) next) as H.
    destruct (commitActiveTransfers _ _ _) as [armed polled]. simpl in *.
    subst next. intros Hconn. split; [now apply H |].
    intros q Hq. apply Hpolls in Hq. destruct Hq as [_ Hq].
    rewrite (WarmTransferPageFacts.latestCallWanted_connected _ Hconn) in Hq.
    discriminate.
Qed.

(** *** Moving to another room *)

(** X8: [connectToFinalRoom] either arrives or changes no room. It arrives
    exactly when nothing on its way throws; the room and [roomRef] are then
    the final room and the error is left as it was, but [isConnected] is
    true only if leaving the previous room emitted no [Disconnected]: the
    handler of that event runs after the one of [Connected] and also
    empties the participants list. When something throws, the room and
    [roomRef] are unchanged and the error is set. *)
Theorem connectToFinalRoom_outcome (cl : State) (ts : string) (lk : LiveKit)
    (token roomName : string) (st : State) :
  let st' := connectToFinalRoom cl ts lk token roomName st in
  if reachesFinalRoom cl lk then
    room st' = Some {| name := roomName |}
    /\ roomRef st' = Some {| name := roomName |}
    /\ error st' = error st
    /\ isConnected st' = negb (leavesWithEvent cl lk)
    /\ participants st'
       = (if leavesWithEvent cl lk then [] else remoteParticipants lk)
  else
    room st' = room st /\ roomRef st' = roomRef st
    /\ error st' = "Failed to connect to final room".
Proof.
  unfold connectToFinalRoom, reachesFinalRoom, leavesWithEvent.
  destruct (currentTransfer cl); [| now repeat split].
  destruct (connect_ok lk); [| now repeat split].
  destruct (localAudioTrack cl); [destruct (publish_ok lk); [| now repeat split] |];
    (destruct (room cl); [destruct (disconnect_outcome lk) as [| []] |]);
    now repeat split.
Qed.

(** X9: when Agent A moves to the briefing room from a room that emits
    [Disconnected] on leaving, the page ends in the briefing room with
    [isConnected] false and no participants: it offers "Start Call" instead
    of "End Call", and its next render arms the latest-call interval again
    and polls at once. *)
Theorem connectToBriefingRoom_polls_again (cl : State) (ts : string) (lk : LiveKit)
    (transferSession : TransferSession) (st : State) (previous : Room) :
  userRole st = agent_a ->
  room cl = Some previous ->
  connect_ok lk = true ->
  (localAudioTrack cl = None \/ publish_ok lk = true) ->
  disconnect_outcome lk = disconnect_done true ->
  let st' := connectToBriefingRoom cl ts lk transferSession st in
  room st' = Some {| name := transfer_room transferSession |}
  /\ isConnected st' = false
  /\ participants st' = []
  /\ showsEndCall st' = false
  /\ latestCallWanted st' = true
  /\ (forall rt, userRole (state rt) = agent_a -> isConnected (state rt) = true ->
                 commit rt st'
                 = ({| state := st'; latestCallInterval := true;
                       callerStatusInterval := None;
                       callerStatusInFlight := callerStatusInFlight rt |},
                    [GET_calls_latest])).
Proof.
  intros Hrole Hroom Hconnect Hpublish Hleave st'.
  assert (Hst' : st' = addLog ts "Connected to briefing room"
                         (setRooms {| name := transfer_room transferSession |}
                            (onDisconnected ts
                               (onConnected ts
                                  {| name := transfer_room transferSession |}
                                  (remoteParticipants lk) st)))).
  { unfold st', connectToBriefingRoom, connectAndPublish.
    rewrite Hconnect, Hroom, Hleave. simpl.
    destruct Hpublish as [-> | Hpublish]; [reflexivity |].
    destruct (localAudioTrack cl); [now rewrite Hpublish | reflexivity]. }
  assert (Hwanted : latestCallWanted st' = true).
  { rewrite Hst'. unfold latestCallWanted. simpl. now rewrite Hrole. }
  repeat split; try (rewrite Hst'; reflexivity); try exact Hwanted.
  intros rt Hrt Hconn. clear Hwanted. clearbody st'. subst st'.
  unfold commit, latestCallDepsChanged, callerStatusDepsChanged, latestCallEffect,
    callerStatusEffect, latestCallWanted, callerStatusWanted.
  simpl. rewrite Hrt, Hrole, Hconn. reflexivity.
Qed.

Lemma connectToBriefingRoom_polls_again_witness :
  isConnected
    (connectToBriefingRoom CallerScenario.joined "10:02:00" CallerScenario.liveKit
       {| transfer_id := "t1"; agentA_transfer_token := "a"; agentB_token := "b";
          transfer_caller_token := "c"; transfer_room := "transfer_1";
          transfer_livekit_url := "ws://localhost:7880"; summary := "billing";
          agent_script := "script"; transfer_status := "briefing" |}
       (setUserRole agent_a CallerScenario.joined)) = false.
Proof.
  apply (connectToBriefingRoom_polls_again CallerScenario.joined "10:02:00"
           CallerScenario.liveKit _ (setUserRole agent_a CallerScenario.joined)
           {| name := "call_1" |}).
  - reflexivity.
  - reflexivity.
  - reflexivity.
  - left. reflexivity.
  - reflexivity.
Defined.

(** *** What every handler keeps *)

Lemma log_bounded_addLog (ts message : string) (st : State) :
  log_bounded (addLog ts message st).
Proof. apply WarmTransferPageFacts.length_logs_addLog. Qed.

Lemma kept_setter (f : State -> State) (st : State) :
  (forall s, room (f s) = room s) ->
  (forall s, roomRef (f s) = roomRef s) ->
  (forall s, logs (f s) = logs s) ->
  kept st -> kept (f st).
Proof.
  intros Hroom Href Hlogs [Hagree Hlog]. split.
  - unfold rooms_agree in *. now rewrite Hroom, Href.
  - unfold log_bounded in *. now rewrite Hlogs.
Qed.

Lemma kept_addLog (ts message : string) (st : State) :
  kept st -> kept (addLog ts message st).
Proof.
  intros [Hagree Hlog]. split; [exact Hagree | apply log_bounded_addLog].
Qed.

Lemma kept_setRooms (r : Room) (st : State) : kept st -> kept (setRooms r st).
Proof. intros [_ Hlog]. split; [reflexivity | exact Hlog]. Qed.

Lemma kept_clearRooms (st : State) :
  kept st -> kept (setRoomRef None (setRoom None st)).
Proof. intros [_ Hlog]. split; [reflexivity | exact Hlog]. Qed.

Ltac kept_setter_step :=
  apply kept_setter; [reflexivity | reflexivity | reflexivity |].

Ltac kept_setters :=
  repeat
    (lazymatch goal with
     | H : kept ?s |- kept ?s => exact H
     | |- kept (addLog _ _ _) => apply kept_addLog
     | |- kept (setRooms _ _) => apply kept_setRooms
     | |- kept (setRoomRef (Some ?r) (setRoom (Some ?r) ?s)) =>
         apply (kept_setRooms r s)
     | |- kept (setRoomRef None (setRoom None _)) => apply kept_clearRooms
     | |- kept (setError ?v ?s) => apply (kept_setter (setError v) s)
     | |- kept (setIsConnecting ?v ?s) => apply (kept_setter (setIsConnecting v) s)
     | |- kept (setIsConnected ?v ?s) => apply (kept_setter (setIsConnected v) s)
     | |- kept (setParticipants ?v ?s) => apply (kept_setter (setParticipants v) s)
     | |- kept (setCurrentCallSession ?v ?s) =>
         apply (kept_setter (setCurrentCallSession v) s)
     | |- kept (setCurrentTransfer ?v ?s) =>
         apply (kept_setter (setCurrentTransfer v) s)
     | |- kept (setTransferStep ?v ?s) => apply (kept_setter (setTransferStep v) s)
     | |- kept (setIsTransferring ?v ?s) =>
         apply (kept_setter (setIsTransferring v) s)
     | |- kept (setShowTransferModal ?v ?s) =>
         apply (kept_setter (setShowTransferModal v) s)
     | |- kept (setTranscript ?v ?s) => apply (kept_setter (setTranscript v) s)
     | |- kept (setCallSummary ?v ?s) => apply (kept_setter (setCallSummary v) s)
     | |- kept (setAgentScript ?v ?s) => apply (kept_setter (setAgentScript v) s)
     | |- kept (setLatestCall ?v ?s) => apply (kept_setter (setLatestCall v) s)
     | |- kept (setUserRole ?v ?s) => apply (kept_setter (setUserRole v) s)
     | |- kept (setUserName ?v ?s) => apply (kept_setter (setUserName v) s)
     | |- kept (setLocalAudioTrack ?v ?s) =>
         apply (kept_setter (setLocalAudioTrack v) s)
     | |- forall s, _ = _ => reflexivity
     end).

Lemma kept_onConnected ts r remotes st : kept st -> kept (onConnected ts r remotes st).
Proof. intros H. unfold onConnected. kept_setters. Qed.

Lemma kept_onDisconnected ts st : kept st -> kept (onDisconnected ts st).
Proof. intros H. unfold onDisconnected. kept_setters. Qed.

Lemma kept_startCall_failed message st : kept st -> kept (startCall_failed message st).
Proof. intros H. unfold startCall_failed. kept_setters. Qed.

Ltac kept_auto :=
  repeat
    first
      [ progress kept_setters
      | lazymatch goal with
        | |- kept (onConnected _ _ _ _) => apply kept_onConnected
        | |- kept (onDisconnected _ _) => apply kept_onDisconnected
        | |- kept (startCall_failed _ _) => apply kept_startCall_failed
        | |- kept (if ?b then _ else _) => destruct b
        end ].

Lemma kept_connectAndPublish cl ts lk r line st :
  kept st ->
  match connectAndPublish cl ts lk r line st with
  | inl s => kept s
  | inr s => kept s
  end.
Proof.
  intros H. unfold connectAndPublish.
  destruct (connect_ok lk); simpl; [| assumption].
  destruct (localAudioTrack cl); [destruct (publish_ok lk); [destruct line |] |];
    kept_auto.
Qed.

Lemma kept_connectToFinalRoom cl ts lk token roomName st :
  kept st -> kept (connectToFinalRoom cl ts lk token roomName st).
Proof.
  intros H. unfold connectToFinalRoom.
  destruct (currentTransfer cl); [| kept_auto].
  destruct (connect_ok lk); simpl; [| kept_auto].
  destruct (localAudioTrack cl); [destruct (publish_ok lk) |];
    try (destruct (room cl); [destruct (disconnect_outcome lk) as [| []] |]);
    kept_auto.
Qed.

Lemma kept_connectToBriefingRoom cl ts lk t st :
  kept st -> kept (connectToBriefingRoom cl ts lk t st).
Proof.
  intros H. unfold connectToBriefingRoom.
  pose proof (kept_connectAndPublish cl ts lk {| name := transfer_room t |} None st H)
    as Hjoin.
  destruct (connectAndPublish _ _ _ _ _ _) as [s | s]; [kept_auto |].
  destruct (room cl); [destruct (disconnect_outcome lk) as [| []] |];
    kept_auto.
Qed.

Lemma kept_join (cl : State) (ts : string) (lk : LiveKit) (r : Room)
    (line : option string) (st : State) (failed joined : State -> State) :
  (forall s, kept s -> kept (failed s)) ->
  (forall s, kept s -> kept (joined s)) ->
  kept st ->
  kept (match connectAndPublish cl ts lk r line st with
        | inl thrown => failed thrown
        | inr s => joined s
        end).
Proof.
  intros Hfailed Hjoined Hst.
  pose proof (kept_connectAndPublish cl ts lk r line st Hst) as H.
  destruct (connectAndPublish cl ts lk r line st); auto.
Qed.

Lemma kept_disconnectCall ts o st :
  kept st ->
  kept (match disconnectCall ts o st with Some st' => st' | None => st end).
Proof.
  intros H. unfold disconnectCall.
  destruct (room st); [destruct o as [| []] |]; kept_auto.
Qed.

Lemma kept_completeTransfer_timeout cl ts o st :
  kept st -> kept (completeTransfer_timeout cl ts o st).
Proof.
  intros H. unfold completeTransfer_timeout.
  destruct (room cl); [destruct o as [| []] |]; kept_auto.
Qed.

Lemma kept_generateSummary cl ts r st :
  kept st -> kept (fst (generateSummary cl ts r st)).
Proof.
  intros H. unfold generateSummary.
  destruct (negb (JS.truthy (JS.trim (transcript cl)))); [simpl; kept_auto |].
  destruct r; simpl; kept_auto.
Qed.

Ltac destruct_scrutinee x :=
  lazymatch x with
  | match ?y with _ => _ end => destruct_scrutinee y
  | _ => destruct x
  end.

Ltac kept_all :=
  repeat
    first
      [ progress kept_auto
      | lazymatch goal with
        | |- kept (connectToFinalRoom _ _ _ _ _ _) => apply kept_connectToFinalRoom
        | |- kept (connectToBriefingRoom _ _ _ _ _) =>
            apply kept_connectToBriefingRoom
        | |- kept (fst (generateSummary _ _ _ _)) => apply kept_generateSummary
        | |- kept (completeTransfer_timeout _ _ _ _) =>
            apply kept_completeTransfer_timeout
        | |- kept (match connectAndPublish _ _ _ _ _ _ with _ => _ end) =>
            apply kept_join; [intros ? ? | intros ? ? |]
        | |- kept (fst (_, _)) => cbn [fst]
        | |- kept (match ?x with _ => _ end) => destruct_scrutinee x
        | |- kept (fst (match ?x with _ => _ end)) => destruct_scrutinee x
        end ].

Lemma kept_perform (a : Action) (st : State) : kept st -> kept (perform st a).
Proof.
  intros H. destruct a; cbv beta iota delta [perform].
  - kept_all.
  - kept_all.
  - kept_all.
  - kept_all.
  - kept_all.
  - kept_all.
  - unfold onParticipantConnected. kept_all.
  - unfold onParticipantDisconnected. kept_all.
  - unfold onDataReceived. kept_all.
  - unfold fetchLatestCall_settled. kept_all.
  - unfold checkCallerTransferStatus_begin. kept_all.
  - unfold checkCallerTransferStatus_settled. kept_all.
  - unfold startCall_begin. kept_all.
  - unfold startCall_settled. kept_all.
  - unfold startCall_joined. kept_all.
  - unfold autoJoinLatestCall, autoJoinLatestCall_begin, autoJoinLatestCall_settled.
    destruct (latestCall st) as [lc |]; [| kept_all].
    destruct (JS.truthy (JS.trim (userName st))); kept_all.
  - unfold joinExistingRoom, joinExistingRoom_begin, joinExistingRoom_settled.
    destruct (negb (JS.truthy (JS.trim (userName st)))); [kept_all |].
    destruct (negb (JS.truthy (JS.trim (roomNameToJoin form)))); kept_all.
  - unfold joinActiveTransfer.
    destruct (negb (JS.truthy (JS.trim (userName st)))); [kept_all |].
    destruct details as [m | c | transferData]; [kept_all | kept_all |].
    destruct r as [m | c | tokenData]; [kept_all | kept_all |].
    pose proof (kept_connectAndPublish st ts lk
                  {| name := transfer_room transferData |} None
                  (setCurrentTransfer (Some transferData) st)) as Hjoin.
    destruct (connectAndPublish _ _ _ _ _ _) as [s | s];
      (assert (Hs : kept s) by (apply Hjoin; kept_all)); kept_all.
  - unfold joinAsAgentB. kept_all.
  - kept_all.
  - unfold initiateTransfer.
    destruct (currentCallSession st) as [callSession |]; [| kept_all].
    destruct (negb (JS.truthy (JS.trim (agentBName form)))); [kept_all |].
    assert (H2 : kept (fst (if needsSummary st
                            then (fst (generateSummary st ts summarized
                                         (setError EmptyString
                                            (setTransferStep briefing
                                               (setIsTransferring true st)))),
                                  generateSummary_request form st)
                            else (setError EmptyString
                                    (setTransferStep briefing
                                       (setIsTransferring true st)), [])))).
    { kept_all. }
    destruct (if needsSummary st then _ else _) as [st2 asked]. cbn [fst] in *.
    kept_all.
  - unfold completeTransfer_begin. kept_all.
  - unfold completeTransfer_settled. kept_all.
  - kept_all.
  - now apply kept_disconnectCall.
  - unfold addSampleTranscript. kept_all.
  - unfold initAudio. kept_all.
Qed.

(** X10: from the first render, whatever handlers run and whatever they are
    answered, the room state and [roomRef] hold the same room, and the
    activity log holds ten entries at most. *)
Theorem handlers_keep_rooms_and_log (actions : list Action) :
  let st := performAll actions initialState in
  roomRef st = room st /\ (List.length (logs st) <= 10)%nat.
Proof.
  assert (H : forall st, kept st -> kept (performAll actions st)).
  { unfold performAll. induction actions as [| a actions IH]; intros st Hst; simpl.
    - assumption.
    - apply IH. now apply kept_perform. }
  apply (H initialState). split; [reflexivity | unfold log_bounded; simpl; lia].
Qed.

(** *** Joining a room *)

Lemma not_blank_truthy (s : string) :
  blank s = false -> JS.truthy (JS.trim s) = true.
Proof.
  intros Hs. destruct (JS.truthy (JS.trim s)) eqn:Htrim; [reflexivity |].
  apply trim_blank in Htrim. congruence.
Qed.

(** What [connectAndPublish] leaves alone, and what it sets when it
    returns. *)
Lemma connectAndPublish_frame (cl : State) (ts : string) (lk : LiveKit) (r : Room)
    (line : option string) (st : State) :
  match connectAndPublish cl ts lk r line st with
  | inl s =>
      room s = room st /\ roomRef s = roomRef st
      /\ currentCallSession s = currentCallSession st
      /\ currentTransfer s = currentTransfer st /\ error s = error st
      /\ userRole s = userRole st /\ showTransferModal s = showTransferModal st
      /\ (isConnecting s = isConnecting st \/ isConnecting s = false)
  | inr s =>
      room s = room st /\ roomRef s = roomRef st
      /\ currentCallSession s = currentCallSession st
      /\ currentTransfer s = currentTransfer st /\ error s = error st
      /\ userRole s = userRole st /\ showTransferModal s = showTransferModal st
      /\ isConnected s = true /\ isConnecting s = false
      /\ participants s = remoteParticipants lk
  end.
Proof.
  unfold connectAndPublish.
  destruct (connect_ok lk); simpl; [| repeat split; now left].
  destruct (localAudioTrack cl); [destruct (publish_ok lk); [destruct line |] |];
    repeat split; now right.
Qed.

(** X11: [autoJoinLatestCall] asks for a token only with a latest call and
    a name that is not blank, for the room of that call and the identity
    [agent_a_] followed by the name. Once the handler has run the page is
    no longer connecting; it is then either where it was, or connected to
    the room of the latest call with a call session that names that call
    and that room and an empty error. *)
Theorem autoJoinLatestCall_joins_latest (ts : string) (r : Response TokenData)
    (lk : LiveKit) (st : State) :
  let st' := fst (autoJoinLatestCall ts r lk st) in
  let sent := snd (autoJoinLatestCall ts r lk st) in
  (latestCall st = None \/ blank (userName st) = true ->
   sent = []
   /\ st' = setError "No call available to join or name not provided" st)
  /\ (forall lc, latestCall st = Some lc -> blank (userName st) = false ->
        sent = [GET_token ("agent_a_" ^^ userName st) (latest_room_name lc)]
        /\ isConnecting st' = false
        /\ ((room st' = room st /\ roomRef st' = roomRef st)
            \/ (room st' = Some {| name := latest_room_name lc |}
                /\ isConnected st' = true
                /\ error st' = EmptyString
                /\ exists tokenData,
                     r = http_ok tokenData
                     /\ currentCallSession st'
                        = Some {| call_id := latest_call_id lc;
                                  room_name := latest_room_name lc;
                                  caller_token := EmptyString;
                                  agent_a_token := token tokenData;
                                  livekit_url := url tokenData;
                                  status := "joined" |}))).
Proof.
  unfold autoJoinLatestCall, autoJoinLatestCall_begin. split.
  - intros [Hnone | Hblank].
    + rewrite Hnone. now split.
    + apply trim_blank in Hblank. rewrite Hblank.
      destruct (latestCall st); now split.
  - intros lc Hlc Hname. rewrite Hlc, (not_blank_truthy _ Hname). simpl.
    split; [reflexivity |].
    unfold autoJoinLatestCall_settled.
    destruct r as [message | code | tokenData];
      [split; [reflexivity | left; now split] .. |].
    pose proof (connectAndPublish_frame st ts lk {| name := latest_room_name lc |}
                  (Some "Local audio track published")
                  (setCurrentCallSession
                     (Some {| call_id := latest_call_id lc;
                              room_name := latest_room_name lc;
                              caller_token := EmptyString;
                              agent_a_token := token tokenData;
                              livekit_url := url tokenData; status := "joined" |})
                     (setError EmptyString (setIsConnecting true st)))) as Hframe.
    destruct (connectAndPublish _ _ _ _ _ _) as [s | s].
    + destruct Hframe as [Hroom [Href _]]. simpl in *.
      split; [reflexivity |]. left. now split.
    + destruct Hframe as [_ [_ [Hsession [_ [Herror [_ [_ [Hconn [Hing _]]]]]]]]].
      simpl in *. split; [exact Hing |]. right.
      split; [reflexivity |]. split; [exact Hconn |]. split; [exact Herror |].
      exists tokenData. now split.
Qed.

Lemma autoJoinLatestCall_joins_latest_witness :
  snd (autoJoinLatestCall "10:00:00" (http_error 500) CallerScenario.liveKit
         (setLatestCall
            (Some {| latest_call_id := "c1"; latest_caller_name := "Jane";
                     latest_room_name := "call_1" |})
            (setUserName "Ann" initialState)))
  = [GET_token "agent_a_Ann" "call_1"].
Proof.
  pose proof (autoJoinLatestCall_joins_latest "10:00:00" (http_error 500)
                CallerScenario.liveKit
                (setLatestCall
                   (Some {| latest_call_id := "c1"; latest_caller_name := "Jane";
                            latest_room_name := "call_1" |})
                   (setUserName "Ann" initialState))) as H.
  destruct H as [_ H].
  apply (H {| latest_call_id := "c1"; latest_caller_name := "Jane";
              latest_room_name := "call_1" |}).
  - reflexivity.
  - reflexivity.
Defined.

(** X12: [joinExistingRoom] tests the name before the room name and sends
    nothing when either is blank. Otherwise it asks for a token for the
    room name as typed and the identity made of role and name; the page is
    no longer connecting afterwards, and is either where it was or
    connected to that room, with a call session for that room whose id is
    [joined_] followed by the clock. *)
Theorem joinExistingRoom_outcome (form : Form) (now : N) (ts : string)
    (r : Response TokenData) (lk : LiveKit) (st : State) :
  let st' := fst (joinExistingRoom form now ts r lk st) in
  let sent := snd (joinExistingRoom form now ts r lk st) in
  (blank (userName st) = true ->
   sent = [] /\ st' = setError "Please enter your name" st)
  /\ (blank (userName st) = false -> blank (roomNameToJoin form) = true ->
      sent = [] /\ st' = setError "Please enter room name to join" st)
  /\ (blank (userName st) = false -> blank (roomNameToJoin form) = false ->
      sent = [GET_token (UserRole_text (userRole st) ^^ "_" ^^ userName st)
                (roomNameToJoin form)]
      /\ isConnecting st' = false
      /\ ((room st' = room st /\ roomRef st' = roomRef st)
          \/ (room st' = Some {| name := roomNameToJoin form |}
              /\ isConnected st' = true
              /\ option_map room_name (currentCallSession st')
                 = Some (roomNameToJoin form)
              /\ option_map call_id (currentCallSession st')
                 = Some ("joined_" ^^ decimal now)))).
Proof.
  unfold joinExistingRoom, joinExistingRoom_begin.
  split; [| split].
  - intros Hname. apply trim_blank in Hname. rewrite Hname. now split.
  - intros Hname Hroom. rewrite (not_blank_truthy _ Hname).
    apply trim_blank in Hroom. rewrite Hroom. now split.
  - intros Hname Hroom.
    rewrite (not_blank_truthy _ Hname), (not_blank_truthy _ Hroom). simpl.
    split; [reflexivity |].
    unfold joinExistingRoom_settled.
    destruct r as [message | code | tokenData];
      [split; [reflexivity | left; now split] .. |].
    pose proof (connectAndPublish_frame st ts lk {| name := roomNameToJoin form |}
                  (Some "Local audio track published")
                  (setCurrentCallSession
                     (Some {| call_id := "joined_" ^^ decimal now;
                              room_name := roomNameToJoin form;
                              caller_token := EmptyString;
                              agent_a_token := token tokenData;
                              livekit_url := url tokenData; status := "joined" |})
                     (setError EmptyString (setIsConnecting true st)))) as Hframe.
    destruct (connectAndPublish _ _ _ _ _ _) as [s | s].
    + destruct Hframe as [Hr [Href _]]. simpl in *.
      split; [reflexivity |]. left. now split.
    + destruct Hframe as [_ [_ [Hsession [_ [_ [_ [_ [Hconn [Hing _]]]]]]]]].
      simpl in *. split; [exact Hing |]. right.
      split; [reflexivity |]. split; [exact Hconn |]. now rewrite Hsession.
Qed.

Lemma joinExistingRoom_outcome_witness :
  snd (joinExistingRoom
         {| callerInfo := {| info_name := "Jane"; info_phone := "1";
                             info_issue := "billing" |};
            agentBName := "agent_b"; roomNameToJoin := " call_1" |}
         1700000000000 "10:00:00" (http_error 500) CallerScenario.liveKit
         (setUserRole agent_a (setUserName "Ann" initialState)))
  = [GET_token "agent_a_Ann" " call_1"].
Proof.
  pose proof (joinExistingRoom_outcome
                {| callerInfo := {| info_name := "Jane"; info_phone := "1";
                                    info_issue := "billing" |};
                   agentBName := "agent_b"; roomNameToJoin := " call_1" |}
                1700000000000 "10:00:00" (http_error 500) CallerScenario.liveKit
                (setUserRole agent_a (setUserName "Ann" initialState))) as H.
  destruct H as [_ [_ H]]. apply H.
  - reflexivity.
  - reflexivity.
Defined.

(** X13: [joinActiveTransfer] with a name that is not blank keeps the
    fetched transfer as the current transfer even when the join fails
    afterwards. The page is then either in the room it was in, with the
    error set, or in the room of the transfer, connected, with the transfer
    dialog open, so that the polling of the active transfers stops. *)
Theorem joinActiveTransfer_outcome (transferId ts : string)
    (details : Response TransferSession) (r : Response TokenData) (lk : LiveKit)
    (st : State) :
  blank (userName st) = false ->
  let st' := fst (joinActiveTransfer transferId ts details r lk st) in
  (forall transferData, details = http_ok transferData ->
     currentTransfer st' = Some transferData)
  /\ ((room st' = room st /\ roomRef st' = roomRef st
       /\ error st' = "Failed to join transfer session")
      \/ (exists transferData,
            details = http_ok transferData
            /\ room st' = Some {| name := transfer_room transferData |}
            /\ isConnected st' = true
            /\ showTransferModal st' = true
            /\ activeTransfersWanted st' = false))
  /\ (isConnecting st' = isConnecting st \/ isConnecting st' = false).
Proof.
  intros Hname. unfold joinActiveTransfer.
  rewrite (not_blank_truthy _ Hname). simpl.
  destruct details as [message | code | transferData];
    [split; [discriminate | split; [left; now repeat split | now left]] .. |].
  destruct r as [message | code | tokenData];
    [split; [now intros ? [= <-] | split; [left; now repeat split | now left]] .. |].
  pose proof (connectAndPublish_frame st ts lk
                {| name := transfer_room transferData |} None
                (setCurrentTransfer (Some transferData) st)) as Hframe.
  destruct (connectAndPublish _ _ _ _ _ _) as [s | s]; simpl.
  - destruct Hframe as [Hroom [Href [_ [Htransfer [_ [_ [_ Hing]]]]]]]. simpl in *.
    split; [now intros ? [= <-] |]. split; [left; now repeat split | exact Hing].
  - destruct Hframe as [_ [_ [_ [Htransfer [_ [Hrole [_ [_ [Hing _]]]]]]]]].
    simpl in *.
    split; [now intros ? [= <-] |]. split; [| now right].
    right. exists transferData. repeat split.
    unfold activeTransfersWanted. simpl. apply andb_false_r.
Qed.

Lemma joinActiveTransfer_outcome_witness :
  currentTransfer
    (fst (joinActiveTransfer "t1" "10:03:00"
            (http_ok {| transfer_id := "t1"; agentA_transfer_token := "a";
                        agentB_token := "b"; transfer_caller_token := "c";
                        transfer_room := "transfer_1";
                        transfer_livekit_url := "ws://localhost:7880";
                        summary := "billing"; agent_script := "script";
                        transfer_status := "briefing" |})
            (http_error 500) CallerScenario.liveKit
            (setUserRole agent_b (setUserName "Bob" initialState))))
  = Some {| transfer_id := "t1"; agentA_transfer_token := "a";
            agentB_token := "b"; transfer_caller_token := "c";
            transfer_room := "transfer_1";
            transfer_livekit_url := "ws://localhost:7880";
            summary := "billing"; agent_script := "script";
            transfer_status := "briefing" |}.
Proof.
  assert (Hname : blank (userName (setUserRole agent_b
                                     (setUserName "Bob" initialState))) = false)
    by reflexivity.
  destruct (joinActiveTransfer_outcome "t1" "10:03:00"
              (http_ok {| transfer_id := "t1"; agentA_transfer_token := "a";
                          agentB_token := "b"; transfer_caller_token := "c";
                          transfer_room := "transfer_1";
                          transfer_livekit_url := "ws://localhost:7880";
                          summary := "billing"; agent_script := "script";
                          transfer_status := "briefing" |})
              (http_error 500) CallerScenario.liveKit _ Hname) as [Hkeep _].
  apply Hkeep. reflexivity.
Defined.

(** *** Initiating and completing a transfer from the page *)

Lemma connectToBriefingRoom_transfer_cells (cl : State) (ts : string) (lk : LiveKit)
    (t : TransferSession) (st : State) :
  same_transfer_cells st (connectToBriefingRoom cl ts lk t st).
Proof.
  unfold connectToBriefingRoom, connectAndPublish, same_transfer_cells.
  destruct (connect_ok lk); simpl; [| now repeat split].
  destruct (localAudioTrack cl); [destruct (publish_ok lk) |];
    try (destruct (room cl); [destruct (disconnect_outcome lk) as [| []] |]);
    now repeat split.
Qed.

Lemma generateSummary_transfer_cells (cl : State) (ts : string) (r : Response string)
    (st : State) :
  same_transfer_cells st (fst (generateSummary cl ts r st)).
Proof.
  unfold generateSummary, same_transfer_cells.
  destruct (negb (JS.truthy (JS.trim (transcript cl)))); [now repeat split |].
  destruct r; now repeat split.
Qed.

(** X14: with a call session and a name for Agent B that is not blank,
    [initiateTransfer] sends the transfer request whatever becomes of the
    summary it may ask for first: the requests are the same for every
    answer to the summary request, and the transfer request carries the
    room of the call session, the name made of the clock and the
    transcript, never the summary. When the transfer request succeeds the
    page holds the transfer and its script, with the dialog open and the
    step at briefing; when it fails the page is back to idle with the
    transfer it had. Without a session or with a blank name nothing is
    sent. *)
Theorem initiateTransfer_survives_summary (form : Form) (now : N) (ts : string)
    (summarized : Response string) (r : Response TransferSession) (lk : LiveKit)
    (st : State) :
  let st' := fst (initiateTransfer form now ts summarized r lk st) in
  let sent := snd (initiateTransfer form now ts summarized r lk st) in
  (currentCallSession st = None \/ blank (agentBName form) = true ->
   sent = [] /\ st' = setError "Invalid transfer parameters" st)
  /\ (forall callSession,
        currentCallSession st = Some callSession ->
        blank (agentBName form) = false ->
        sent
        = (if needsSummary st then generateSummary_request form st else [])
          ++ [POST_transfer (room_name callSession) (transferRoomName now) "agent_a"
                (agentBName form) (transcript st) (callerNameFor form st)]
        /\ (forall other,
              snd (initiateTransfer form now ts other r lk st) = sent)
        /\ (forall t, r = http_ok t ->
              currentTransfer st' = Some t
              /\ agentScript st' = agent_script t
              /\ showTransferModal st' = true
              /\ isTransferring st' = true
              /\ transferStep st' = briefing)
        /\ ((forall t, r <> http_ok t) ->
            isTransferring st' = false
            /\ transferStep st' = idle
            /\ currentTransfer st' = currentTransfer st
            /\ showTransferModal st' = showTransferModal st)).
Proof.
  unfold initiateTransfer. split.
  - intros [Hnone | Hblank].
    + rewrite Hnone. now split.
    + apply trim_blank in Hblank. rewrite Hblank.
      destruct (currentCallSession st); now split.
  - intros callSession Hsession Hname.
    rewrite Hsession, (not_blank_truthy _ Hname). simpl negb. cbv iota.
    assert (Hcells : exists st2,
               (if needsSummary st
                then fst (generateSummary st ts summarized
                            (setError EmptyString
                               (setTransferStep briefing
                                  (setIsTransferring true st))))
                else setError EmptyString
                       (setTransferStep briefing (setIsTransferring true st)))
               = st2
               /\ currentTransfer st2 = currentTransfer st
               /\ agentScript st2 = agentScript st
               /\ isTransferring st2 = true
               /\ transferStep st2 = briefing
               /\ showTransferModal st2 = showTransferModal st).
    { eexists. split; [reflexivity |].
      destruct (needsSummary st); [| now repeat split].
      apply (generateSummary_transfer_cells st ts summarized
               (setError EmptyString
                  (setTransferStep briefing (setIsTransferring true st)))). }
    destruct Hcells as [st2 [Hst2 [Ht [Hs [Hing [Hstep Hmodal]]]]]].
    destruct (needsSummary st); cbv beta iota zeta; rewrite Hst2; clear Hst2;
      (split; [reflexivity | split; [reflexivity | split]]).
    all: try (intros Hfail;
      destruct r as [message | code | t]; [| | now destruct (Hfail t)];
        simpl; repeat split; assumption).
    all: intros t ->.
    all: destruct (userRole st).
    all: try (destruct (connectToBriefingRoom_transfer_cells st ts lk t
                         (addLog ts "Transfer initiated, briefing phase started"
                            (setAgentScript (agent_script t)
                               (setCurrentTransfer (Some t) st2))))
              as [Ht' [Hs' [Hi' [Hp' _]]]]).
    all: simpl in *.
    all: repeat split; congruence.
Qed.

Lemma initiateTransfer_survives_summary_witness :
  snd (initiateTransfer AgentScenario.form 1700000000000 "10:01:00"
         (http_error 500) (http_error 500) CallerScenario.liveKit
         AgentScenario.onCall)
  = [ POST_summarize "billing issue" (Some (call_id CallerScenario.callSession))
        (callerInfo AgentScenario.form);
      POST_transfer (room_name CallerScenario.callSession)
        "transfer_1700000000000" "agent_a" "bob" "billing issue" "Unknown" ].
Proof.
  pose proof (initiateTransfer_survives_summary AgentScenario.form
                1700000000000 "10:01:00" (http_error 500) (http_error 500)
                CallerScenario.liveKit AgentScenario.onCall) as H.
  destruct H as [_ H].
  destruct (H CallerScenario.callSession) as [Hsent _];
    [reflexivity | reflexivity |].
  exact Hsent.
Defined.

(** X15: [completeTransfer] of the page. Without a transfer or a call
    session it sends nothing and reports it. Otherwise it sends one
    request with the id of the transfer and the room of the call; while
    the request is in flight the step is completing, so the button is not
    shown; a failed request puts the step back to briefing, whatever it
    was before, so the button is shown again whenever the dialog is open
    on Agent A's page; a successful one closes the dialog at step
    completed without leaving the room on any page but the caller's; and
    when the timer of Agent A then fires and the disconnection does not
    reject, the session is cleared. *)
Theorem completeTransfer_steps (form : Form) (cl : State) (ts : string)
    (r : Response CompletedTransfer) (lk : LiveKit) (o : DisconnectOutcome)
    (st : State) :
  let st1 := fst (completeTransfer_begin form st) in
  let st2 := completeTransfer_settled cl ts r lk st1 in
  let st3 := completeTransfer_timeout cl ts o st2 in
  (currentTransfer st = None \/ currentCallSession st = None ->
   completeTransfer_begin form st
   = (setError "No active transfer to complete" st, []))
  /\ (forall t callSession,
        currentTransfer st = Some t ->
        currentCallSession st = Some callSession ->
        snd (completeTransfer_begin form st)
        = [POST_transfer_complete (transfer_id t) (room_name callSession)
             (callerNameFor form st) (agentBName form)]
        /\ showsCompleteTransfer st1 = false
        /\ ((forall result, r <> http_ok result) ->
            transferStep st2 = briefing
            /\ error st2 = "Failed to complete transfer"
            /\ showsCompleteTransfer st2
               = showTransferModal st && UserRole_eqb (userRole st) agent_a)
        /\ (forall result, r = http_ok result -> userRole cl <> caller ->
            transferStep st2 = completed
            /\ showTransferModal st2 = false
            /\ isTransferring st2 = false
            /\ room st2 = room st
            /\ isConnected st2 = isConnected st
            /\ (userRole cl = agent_a -> o <> disconnect_throws ->
                currentTransfer st3 = None
                /\ currentCallSession st3 = None
                /\ transferStep st3 = idle
                /\ isConnected st3 = false
                /\ participants st3 = []
                /\ transcript st3 = EmptyString
                /\ (room cl <> None -> room st3 = None)))).
Proof.
  unfold completeTransfer_begin. split.
  - intros [H | H]; rewrite H; [reflexivity |].
    now destruct (currentTransfer st).
  - intros t callSession Ht Hsession. rewrite Ht, Hsession. simpl.
    split; [reflexivity |]. split.
    { unfold showsCompleteTransfer. simpl. rewrite Ht.
      now rewrite !andb_false_r. }
    split.
    + intros Hfail. unfold completeTransfer_settled, showsCompleteTransfer.
      destruct r as [message | code | result]; [| | now destruct (Hfail result)];
        simpl; rewrite Ht;
        (repeat split; [now destruct (showTransferModal st), (userRole st)]).
    + intros result -> Hrole. unfold completeTransfer_settled.
      assert (Hsame :
                match userRole cl with
                | caller =>
                    connectToFinalRoom cl ts lk (result_caller_token result)
                      (result_final_room result)
                      (addLog ts "Transfer completed successfully"
                         (setTransferStep completed
                            (setTransferStep completing st)))
                | _ =>
                    addLog ts "Transfer completed successfully"
                      (setTransferStep completed (setTransferStep completing st))
                end
                = addLog ts "Transfer completed successfully"
                    (setTransferStep completed (setTransferStep completing st))).
      { now destruct (userRole cl). }
      rewrite Hsame. simpl. do 5 (split; [reflexivity |]).
      intros _ Ho. unfold completeTransfer_timeout.
      destruct (room cl) as [current |]; simpl.
      * destruct o as [| emits]; [now destruct Ho |].
        destruct emits; simpl; now repeat split.
      * repeat split. intros H. now destruct H.
Qed.

Lemma completeTransfer_steps_witness :
  snd (completeTransfer_begin AgentScenario.form AgentScenario.briefing)
  = [POST_transfer_complete "t1" (room_name CallerScenario.callSession)
       "Unknown" "bob"].
Proof.
  pose proof (completeTransfer_steps AgentScenario.form AgentScenario.briefing
                "10:02:00" (http_error 500) CallerScenario.liveKit
                (disconnect_done true) AgentScenario.briefing) as H.
  destruct H as [_ H].
  destruct (H AgentScenario.transfer CallerScenario.callSession)
    as [Hsent _]; [reflexivity | reflexivity |].
  exact Hsent.
Defined.

(** *** Participants, transcript and excerpt *)

(** X16: the participant list of the page. A disconnection removes every
    entry with the identity of the participant and nothing else; a
    connection is appended without a test, so that it lists a participant
    that is already there twice; and a disconnection after the connection
    of the same participant gives the list the disconnection alone gives. *)
Theorem participants_on_page (ts ts' : string) (p : Participant) (st : State) :
  (forall q,
     In q (participants (onParticipantDisconnected ts p st))
     <-> In q (participants st) /\ identity q <> identity p)
  /\ participants (onParticipantDisconnected ts' p (onParticipantConnected ts p st))
     = participants (onParticipantDisconnected ts' p st)
  /\ (In p (participants st) ->
      ~ NoDup (participants (onParticipantConnected ts p st))).
Proof.
  unfold onParticipantDisconnected, onParticipantConnected. simpl.
  split; [| split].
  - intros q. rewrite filter_In, negb_true_iff, String.eqb_neq. reflexivity.
  - rewrite filter_app. simpl. rewrite String.eqb_refl. simpl.
    apply app_nil_r.
  - intros Hin Hnodup. apply NoDup_remove_2 with (l' := []) in Hnodup.
    now rewrite app_nil_r in Hnodup.
Qed.

Lemma append_assoc (a b c : string) : (a ^^ b) ^^ c = a ^^ b ^^ c.
Proof. induction a as [| x a IH]; simpl; [reflexivity | now rewrite IH]. Qed.

Lemma append_empty (a : string) : a ^^ EmptyString = a.
Proof. induction a as [| x a IH]; simpl; [reflexivity | now rewrite IH]. Qed.

(** X17: data messages only ever add to the transcript: after a row of
    them the transcript is what it was followed by the texts of the
    transcript updates, each after a space, in the order of arrival;
    payloads that do not parse and messages of another type add nothing.
    [addSampleTranscript] adds the sample text the way an update does. *)
Theorem transcript_appended
    (messages : list (string * option DataMessage * option Participant))
    (ts : string) (st : State) :
  transcript (received messages st) = transcript st ^^ spoken messages
  /\ transcript (addSampleTranscript ts st)
     = transcript
         (received
            [(ts, Some {| message_type := "transcript_update";
                          message_text := sampleText |}, None)] st).
Proof.
  split; [| reflexivity].
  unfold received. revert st.
  induction messages as [| [[ts0 data] participant] rest IH]; intros st.
  - simpl. now rewrite append_empty.
  - cbn [fold_left spoken]. rewrite IH. unfold onDataReceived.
    destruct data as [message |]; [| reflexivity].
    destruct (String.eqb (message_type message) "transcript_update");
      [| reflexivity].
    cbn [transcript addLog setTranscript setLogs].
    now rewrite !append_assoc.
Qed.

(** X18: the excerpt of a summary shown for an active transfer is never
    empty and never longer than 103 code units, and the three dots follow
    the summary even when nothing of it was cut. *)
Theorem summaryExcerpt_bounds (text : string) :
  summaryExcerpt text <> []
  /\ List.length (summaryExcerpt text) <= 103
  /\ (text <> EmptyString -> List.length (JS.units text) <= 100 ->
      summaryExcerpt text = JS.units text ++ JS.units "...").
Proof.
  assert (Hdots : List.length (JS.units "...") = 3) by reflexivity.
  unfold summaryExcerpt, JS.truthy, JS.substring_to.
  destruct (String.eqb_spec text EmptyString) as [-> | Hne]; cbn [negb].
  - split; [discriminate |]. split; [simpl; lia |]. intros H. now destruct H.
  - split; [| split].
    + intros H. apply (f_equal (@List.length N)) in H.
      rewrite length_app, Hdots in H. simpl in H. lia.
    + rewrite length_app, Hdots.
      pose proof (firstn_le_length 100 (JS.units text)). lia.
    + intros _ Hshort. now rewrite firstn_all2.
Qed.

(** *** Joining as Agent B, and a call that starts badly *)

(** X19: [joinAsAgentB] without a transfer in its render only reports it.
    With one, the page is no longer connecting afterwards and is either in
    the room and the role it had, with the failure reported, or in the
    room of the transfer in the role of Agent B, connected: the role
    changes only once the room has been joined. *)
Theorem joinAsAgentB_outcome (cl : State) (ts : string) (lk : LiveKit) (st : State) :
  let st' := joinAsAgentB cl ts lk st in
  (currentTransfer cl = None ->
   st' = setError "No transfer session available" st)
  /\ (forall t, currentTransfer cl = Some t ->
        isConnecting st' = false
        /\ ((room st' = room st /\ roomRef st' = roomRef st
             /\ userRole st' = userRole st
             /\ error st' = "Failed to join as Agent B")
            \/ (room st' = Some {| name := transfer_room t |}
                /\ roomRef st' = Some {| name := transfer_room t |}
                /\ userRole st' = agent_b
                /\ isConnected st' = true
                /\ error st' = EmptyString))).
Proof.
  unfold joinAsAgentB. split.
  - now intros ->.
  - intros t ->.
    pose proof (connectAndPublish_frame cl ts lk {| name := transfer_room t |} None
                  (setError EmptyString (setIsConnecting true st))) as Hframe.
    destruct (connectAndPublish _ _ _ _ _ _) as [s | s].
    + destruct Hframe as [Hroom [Href [_ [_ [_ [Hrole _]]]]]]. simpl in *.
      split; [reflexivity |]. left. now repeat split.
    + destruct Hframe as [_ [_ [_ [_ [Herror [_ [_ [Hconn [Hing _]]]]]]]]].
      simpl in *. split; [exact Hing |]. right. now repeat split.
Qed.

Lemma joinAsAgentB_outcome_witness :
  userRole
    (joinAsAgentB AgentScenario.briefing "10:03:00" CallerScenario.liveKit
       AgentScenario.briefing)
  = agent_b.
Proof.
  pose proof (joinAsAgentB_outcome AgentScenario.briefing "10:03:00"
                CallerScenario.liveKit AgentScenario.briefing) as H.
  destruct H as [_ H].
  destruct (H AgentScenario.transfer) as [_ [[_ [_ [Hrole _]]] | [_ [_ [Hrole _]]]]];
    [reflexivity | discriminate Hrole | exact Hrole].
Defined.

(** X20: once [POST /call/start] has answered, [startCall] keeps the call
    session of the answer whatever happens next. When the connection
    fails the page is where it was, with that session and the message of
    the error. When the connection succeeds and publishing the local
    track fails, the page shows a connected call while it holds no handle
    on the room it joined: with no room before, [disconnectCall] then
    resets the page without disconnecting anything, whatever a
    disconnection would have done. *)
Theorem startCall_keeps_session (cl : State) (ts ts' : string)
    (callSession : CallSession) (lk : LiveKit) (st : State) :
  let st1 := startCall_settled ts (http_ok callSession) lk st in
  let st2 := startCall_joined cl ts callSession lk st1 in
  currentCallSession st1 = Some callSession
  /\ isConnecting st1 = false
  /\ (connect_ok lk = false ->
      isConnected st1 = isConnected st /\ room st1 = room st
      /\ error st1 = error_message lk)
  /\ (connect_ok lk = true -> localAudioTrack cl <> None -> publish_ok lk = false ->
      currentCallSession st2 = Some callSession
      /\ isConnected st2 = true
      /\ room st2 = room st
      /\ error st2 = error_message lk
      /\ (room st = None ->
          forall o o', disconnectCall ts' o st2 = disconnectCall ts' o' st2)).
Proof.
  unfold startCall_settled, startCall_joined.
  destruct (connect_ok lk); simpl.
  - split; [reflexivity |]. split; [reflexivity |]. split; [discriminate |].
    intros _ Htrack Hpublish. rewrite Hpublish.
    destruct (localAudioTrack cl); [| now destruct Htrack]. simpl.
    do 4 (split; [reflexivity |]).
    intros Hroom o o'. unfold disconnectCall. simpl. now rewrite Hroom.
  - split; [reflexivity |]. split; [reflexivity |].
    split; [now repeat split | discriminate].
Qed.

Lemma startCall_keeps_session_witness :
  isConnected
    (startCall_joined (initAudio "09:59:59" (Some microphone) CallerScenario.starting)
       "10:00:01" CallerScenario.callSession
       {| connect_ok := true; error_message := "publish failed";
          remoteParticipants := []; publish_ok := false;
          disconnect_outcome := disconnect_done true |}
       (startCall_settled "10:00:01" (http_ok CallerScenario.callSession)
          {| connect_ok := true; error_message := "publish failed";
             remoteParticipants := []; publish_ok := false;
             disconnect_outcome := disconnect_done true |}
          CallerScenario.starting))
  = true.
Proof.
  pose proof (startCall_keeps_session
                (initAudio "09:59:59" (Some microphone) CallerScenario.starting)
                "10:00:01" "10:00:02" CallerScenario.callSession
                {| connect_ok := true; error_message := "publish failed";
                   remoteParticipants := []; publish_ok := false;
                   disconnect_outcome := disconnect_done true |}
                CallerScenario.starting) as H.
  destruct H as [_ [_ [_ H]]].
  destruct H as [_ [Hconn _]];
    [reflexivity | discriminate | reflexivity |].
  exact Hconn.
Defined.

End PageActionsFacts.
